(** * SDL2Lessons: tile layout arithmetic, event loop and resource cleanup

    A shallow embedding of the lesson programs of the repository
    (Lesson3/src/main.cc, Lesson5/src/main.cc and cleanup.h) together with
    the properties their specification states about them, followed by the
    rest of the lessons (Lessons 1, 2, 4 and 6 and res_path.h) and the
    properties that their code shows: the resource directory, the calls
    each program makes to SDL and the handles it holds along them.

    C++ [int] values are integers of the 32-bit signed range.  Signed
    overflow, division by zero and out-of-bounds array access are undefined
    behaviour in C++: every operation that can run into one of them returns
    [None] there, and an evaluation is a value of type [option]. *)

From Stdlib Require Import ZArith List Lia Bool Ascii Permutation.
From Stdlib Require String.
Import ListNotations.
Local Open Scope Z_scope.

(** ** The option monad of evaluations that may be undefined *)

Definition bind {A B : Type} (m : option A) (k : A -> option B) : option B :=
  match m with
  | Some a => k a
  | None => None
  end.

Notation "x <- m ;; k" := (bind m (fun x => k))
  (at level 61, m at next level, right associativity).

(** ** C++ [int] arithmetic *)

Module CInt.

Definition INT_MIN : Z := -2147483648.
Definition INT_MAX : Z := 2147483647.

Definition in_int (z : Z) : bool := (INT_MIN <=? z) && (z <=? INT_MAX).

Definition is_int (z : Z) : Prop := INT_MIN <= z <= INT_MAX.

Definition checked (z : Z) : option Z := if in_int z then Some z else None.

(** [a + b] and [a * b]: undefined when the result is not an [int]. *)
Definition add (a b : Z) : option Z := checked (a + b).
Definition mul (a b : Z) : option Z := checked (a * b).

(** [a / b] truncates towards zero; [a % b] has the sign of [a].  Both are
    undefined for [b = 0] and when the quotient is not an [int]. *)
Definition div (a b : Z) : option Z :=
  if b =? 0 then None else checked (Z.quot a b).
Definition rem (a b : Z) : option Z :=
  if b =? 0 then None
  else if in_int (Z.quot a b) then Some (Z.rem a b) else None.

End CInt.

(** ** SDL data *)

(** [SDL_Rect]: four [int] fields. *)
Record SDL_Rect : Type := mkRect { x : Z; y : Z; w : Z; h : Z }.

(** What the renderer is asked to do, in call order.  [SDL_RenderCopy]
    carries the clip (source) rectangle and the destination rectangle. *)
Inductive RenderCall : Type :=
| SDL_RenderClear
| SDL_RenderCopy (clip : option SDL_Rect) (dst : SDL_Rect)
| SDL_RenderPresent.

(** ** Lesson 5: sprite-sheet clips tiled over the screen *)

Module Lesson5.

Definition SCREEN_WIDTH : Z := 640.
Definition SCREEN_HEIGHT : Z := 480.

(** The tile size is a pair of constants of [main] ([tileW = tileH = 100]);
    the layout computations are written over any tile size and [main]
    instantiates them below. *)
Section Layout.

Variables tileW tileH : Z.

(** Lines 130-132: [xTiles], [yTiles] and [totalTiles]. *)
Definition xTiles (imageW : Z) : option Z := CInt.div imageW tileW.
Definition yTiles (imageH : Z) : option Z := CInt.div imageH tileH.
Definition totalSourceTiles (imageW imageH : Z) : option Z :=
  xt <- xTiles imageW ;;
  yt <- yTiles imageH ;;
  CInt.mul xt yt.

(** Lines 137-140, the body of the clips loop at index [i]. *)
Definition sourceTileRect (i rowsPerColumn : Z) : option SDL_Rect :=
  q <- CInt.div i rowsPerColumn ;;
  cx <- CInt.mul q tileW ;;
  r <- CInt.rem i rowsPerColumn ;;
  cy <- CInt.mul r tileH ;;
  Some (mkRect cx cy tileW tileH).

(** The rectangle of tile [i] in a column-major grid of [rowsPerColumn]
    rows, over the integers. *)
Definition clip_of (rowsPerColumn i : Z) : SDL_Rect :=
  mkRect (i / rowsPerColumn * tileW) (i mod rowsPerColumn * tileH)
         tileW tileH.

(** The coordinates that lines 137-138 compute are [int] values. *)
Definition rect_fits (i rowsPerColumn : Z) : Prop :=
  CInt.is_int (i / rowsPerColumn * tileW) /\
  CInt.is_int (i mod rowsPerColumn * tileH).

(** Lines 136-141: [for (int i = 0; i < totalTiles; i++)], with [n] the
    number of iterations left and [clips] the entries written so far. *)
Fixpoint clips_loop (n : nat) (i rowsPerColumn : Z) (clips : list SDL_Rect)
  : option (list SDL_Rect) :=
  match n with
  | O => Some clips
  | S n' =>
      r <- sourceTileRect i rowsPerColumn ;;
      i' <- CInt.add i 1 ;;
      clips_loop n' i' rowsPerColumn (clips ++ [r])
  end.

(** Lines 130-141.  [SDL_Rect clips[totalTiles]] has a meaning for a
    positive length only: an array of variable length 0 or less is
    undefined. *)
Definition build_clips (imageW imageH : Z) : option (list SDL_Rect) :=
  xt <- xTiles imageW ;;
  yt <- yTiles imageH ;;
  totalTiles <- CInt.mul xt yt ;;
  if totalTiles <=? 0 then None
  else clips_loop (Z.to_nat totalTiles) 0 yt [].

(** Lines 147-150: a tile count that rounds up on a remainder. *)
Definition screenTiles (extent tile : Z) : option Z :=
  q <- CInt.div extent tile ;;
  r <- CInt.rem extent tile ;;
  CInt.add q (if negb (r =? 0) then 1 else 0).

Definition xScreenTiles (displayW : Z) : option Z := screenTiles displayW tileW.
Definition yScreenTiles (displayH : Z) : option Z := screenTiles displayH tileH.

(** Line 151. *)
Definition totalScreenTiles (displayW displayH : Z) : option Z :=
  xs <- xScreenTiles displayW ;;
  ys <- yScreenTiles displayH ;;
  CInt.mul xs ys.

(** Lines 193-194, the destination of screen tile [i]. *)
Definition screenTileOrigin (i rowsPerScreen : Z) : option (Z * Z) :=
  q <- CInt.div i rowsPerScreen ;;
  px <- CInt.mul q tileW ;;
  r <- CInt.rem i rowsPerScreen ;;
  py <- CInt.mul r tileH ;;
  Some (px, py).

End Layout.

(** *** The program [main] *)

(** Lines 127-128. *)
Definition tileW : Z := 100.
Definition tileH : Z := 100.

(** The part of [SDL_Event] that [main] reads: [e.type] and, for keyboard
    events, [e.key.keysym.sym].  The constants are those of SDL_events.h
    and SDL_keycode.h. *)
Record SDL_Event : Type := mkEvent { type : Z; sym : Z }.

Definition SDL_QUIT : Z := 256.
Definition SDL_KEYDOWN : Z := 768.
Definition SDLK_ESCAPE : Z := 27.
Definition SDLK_1 : Z := 49.
Definition SDLK_2 : Z := 50.
Definition SDLK_3 : Z := 51.
Definition SDLK_4 : Z := 52.
Definition SDLK_KP_1 : Z := 1073741913.
Definition SDLK_KP_2 : Z := 1073741914.
Definition SDLK_KP_3 : Z := 1073741915.
Definition SDLK_KP_4 : Z := 1073741916.

(** The variables of [main] that outlive the initialization, and the
    calls received by the renderer so far. *)
Record State : Type := mkState {
  imageW : Z;
  imageH : Z;
  clips : list SDL_Rect;
  useClip : Z;
  quit : bool;
  screen : list RenderCall
}.

Definition set_useClip (v : Z) (st : State) : State :=
  mkState (imageW st) (imageH st) (clips st) v (quit st) (screen st).
Definition set_quit (b : bool) (st : State) : State :=
  mkState (imageW st) (imageH st) (clips st) (useClip st) b (screen st).
Definition set_screen (l : list RenderCall) (st : State) : State :=
  mkState (imageW st) (imageH st) (clips st) (useClip st) (quit st) l.

(** Lines 123-143: the state in which the event loop is entered. *)
Definition init (iw ih : Z) : option State :=
  cl <- build_clips tileW tileH iw ih ;;
  Some (mkState iw ih cl 0 false []).

(** Lines 163-187: the body of the polling loop for one event. *)
Definition handle_event (e : SDL_Event) (st : State) : State :=
  if type e =? SDL_QUIT then set_quit true st
  else if type e =? SDL_KEYDOWN then
    if (sym e =? SDLK_1) || (sym e =? SDLK_KP_1) then set_useClip 0 st
    else if (sym e =? SDLK_2) || (sym e =? SDLK_KP_2) then set_useClip 1 st
    else if (sym e =? SDLK_3) || (sym e =? SDLK_KP_3) then set_useClip 2 st
    else if (sym e =? SDLK_4) || (sym e =? SDLK_KP_4) then set_useClip 3 st
    else if sym e =? SDLK_ESCAPE then set_quit true st
    else st
  else st.

(** Line 162: [while (SDL_PollEvent(&e))] over the pending events. *)
Definition poll_events (pending : list SDL_Event) (st : State) : State :=
  fold_left (fun s e => handle_event e s) pending st.

(** [&clips[useClip]]: defined inside the array only. *)
Definition clip_at (cl : list SDL_Rect) (i : Z) : option SDL_Rect :=
  if i <? 0 then None else nth_error cl (Z.to_nat i).

(** Lines 50-53. *)
Definition renderTexture_dst (dst : SDL_Rect) (clip : option SDL_Rect)
    (log : list RenderCall) : list RenderCall :=
  log ++ [SDL_RenderCopy clip dst].

(** Lines 68-82; [texW] and [texH] are what [SDL_QueryTexture] reports. *)
Definition renderTexture (texW texH px py : Z) (clip : option SDL_Rect)
    (log : list RenderCall) : list RenderCall :=
  let dst :=
    match clip with
    | Some c => mkRect px py (w c) (h c)
    | None => mkRect px py texW texH
    end in
  renderTexture_dst dst clip log.

(** Lines 192-196: [for (int i = 0; i < totalScreenTiles; i++)]. *)
Fixpoint screen_loop (n : nat) (i rowsPerScreen : Z) (st : State)
  : option State :=
  match n with
  | O => Some st
  | S n' =>
      o <- screenTileOrigin tileW tileH i rowsPerScreen ;;
      c <- clip_at (clips st) (useClip st) ;;
      let st' :=
        set_screen (renderTexture (imageW st) (imageH st) (fst o) (snd o)
                      (Some c) (screen st)) st in
      i' <- CInt.add i 1 ;;
      screen_loop n' i' rowsPerScreen st'
  end.

(** Lines 189-198: one frame. *)
Definition render_frame (st : State) : option State :=
  ys <- yScreenTiles tileH SCREEN_HEIGHT ;;
  total <- totalScreenTiles tileW tileH SCREEN_WIDTH SCREEN_HEIGHT ;;
  st1 <- screen_loop (Z.to_nat total) 0 ys
           (set_screen (screen st ++ [SDL_RenderClear]) st) ;;
  Some (set_screen (screen st1 ++ [SDL_RenderPresent]) st1).

(** Lines 161-199: [while (!quit)], one list of pending events per turn. *)
Fixpoint main_loop (turns : list (list SDL_Event)) (st : State)
  : option State :=
  match turns with
  | [] => Some st
  | pending :: rest =>
      if quit st then Some st
      else
        st' <- render_frame (poll_events pending st) ;;
        main_loop rest st'
  end.

(** The states the event loop can be in. *)
Inductive reachable (iw ih : Z) : State -> Prop :=
| reach_init st :
    init iw ih = Some st -> reachable iw ih st
| reach_event st e :
    reachable iw ih st -> reachable iw ih (handle_event e st)
| reach_frame st st' :
    reachable iw ih st -> render_frame st = Some st' -> reachable iw ih st'.

(** The destinations of the 35 tiles of a 640 x 480 screen, 5 per column,
    over the integers. *)
Definition frame_origins : list (Z * Z) :=
  map (fun k => (Z.of_nat k / 5 * tileW, Z.of_nat k mod 5 * tileH))
      (seq 0 35).

(** The destination origins of the copies in a list of renderer calls. *)
Fixpoint copy_origins (l : list RenderCall) : list (Z * Z) :=
  match l with
  | [] => []
  | SDL_RenderCopy _ dst :: l' => (x dst, y dst) :: copy_origins l'
  | _ :: l' => copy_origins l'
  end.

End Lesson5.

(** ** Lesson 3: a background tiled over the screen *)

Module Lesson3.

Definition SCREEN_WIDTH : Z := 640.
Definition SCREEN_HEIGHT : Z := 480.
Definition TILE_SIZE : Z := 40.

(** Lines 115-116. *)
Definition xTiles : option Z := CInt.div SCREEN_WIDTH TILE_SIZE.
Definition yTiles : option Z := CInt.div SCREEN_HEIGHT TILE_SIZE.

(** Lines 120-123: the pixel position of background tile [i] in a grid of
    [columns] tiles per row. *)
Definition backgroundTileOrigin (i columns : Z) : option (Z * Z) :=
  tx <- CInt.rem i columns ;;
  ty <- CInt.div i columns ;;
  px <- CInt.mul tx TILE_SIZE ;;
  py <- CInt.mul ty TILE_SIZE ;;
  Some (px, py).

(** The coordinates that lines 120-123 compute are [int] values. *)
Definition origin_fits (i columns : Z) : Prop :=
  CInt.is_int (i mod columns * TILE_SIZE) /\
  CInt.is_int (i / columns * TILE_SIZE).

(** Lines 52-60. *)
Definition renderTexture (px py pw ph : Z) (log : list RenderCall)
  : list RenderCall :=
  log ++ [SDL_RenderCopy None (mkRect px py pw ph)].

(** Lines 119-125: [for (int i = 0; i < xTiles * yTiles; i++)]. *)
Fixpoint background_loop (n : nat) (i columns : Z) (log : list RenderCall)
  : option (list RenderCall) :=
  match n with
  | O => Some log
  | S n' =>
      o <- backgroundTileOrigin i columns ;;
      i' <- CInt.add i 1 ;;
      background_loop n' i' columns
        (renderTexture (fst o) (snd o) TILE_SIZE TILE_SIZE log)
  end.

Definition draw_background (log : list RenderCall) : option (list RenderCall) :=
  xt <- xTiles ;;
  yt <- yTiles ;;
  total <- CInt.mul xt yt ;;
  background_loop (Z.to_nat total) 0 xt log.

End Lesson3.

(** ** cleanup.h: releasing a list of SDL handles *)

Module Cleanup.

(** A pointer is an address; [nullptr] is address 0. *)
Definition ptr : Type := Z.
Definition nullptr : ptr := 0.

(** The four pointer types [cleanup] is specialised for. *)
Inductive Handle : Type :=
| Window (p : ptr)
| Renderer (p : ptr)
| Texture (p : ptr)
| Surface (p : ptr).

(** The release functions of SDL. *)
Inductive SDLCall : Type :=
| SDL_DestroyWindow (p : ptr)
| SDL_DestroyRenderer (p : ptr)
| SDL_DestroyTexture (p : ptr)
| SDL_FreeSurface (p : ptr).

(** Lines 14-20. *)
Definition cleanup_SDL_Window (win : ptr) (calls : list SDLCall) : list SDLCall :=
  if win =? nullptr then calls else calls ++ [SDL_DestroyWindow win].

(** Lines 22-28. *)
Definition cleanup_SDL_Renderer (ren : ptr) (calls : list SDLCall) : list SDLCall :=
  if ren =? nullptr then calls else calls ++ [SDL_DestroyRenderer ren].

(** Lines 30-36. *)
Definition cleanup_SDL_Texture (tex : ptr) (calls : list SDLCall) : list SDLCall :=
  if tex =? nullptr then calls else calls ++ [SDL_DestroyTexture tex].

(** Lines 38-44. *)
Definition cleanup_SDL_Surface (surf : ptr) (calls : list SDLCall) : list SDLCall :=
  if surf =? nullptr then calls else calls ++ [SDL_FreeSurface surf].

(** [cleanup(t)] with one argument: the specialisation for its type. *)
Definition cleanup1 (t : Handle) (calls : list SDLCall) : list SDLCall :=
  match t with
  | Window p => cleanup_SDL_Window p calls
  | Renderer p => cleanup_SDL_Renderer p calls
  | Texture p => cleanup_SDL_Texture p calls
  | Surface p => cleanup_SDL_Surface p calls
  end.

(** Lines 7-12: [cleanup(t, args...)] cleans up [t] and recurses on
    [args]; with no [args] left the call is [cleanup1]. *)
Fixpoint cleanup (args : list Handle) (t : Handle) (calls : list SDLCall)
  : list SDLCall :=
  match args with
  | [] => cleanup1 t calls
  | a :: rest => cleanup rest a (cleanup1 t calls)
  end.

Definition is_null (t : Handle) : bool :=
  match t with
  | Window p | Renderer p | Texture p | Surface p => p =? nullptr
  end.

Definition live (t : Handle) : bool := negb (is_null t).

(** The SDL call that releases a handle. *)
Definition release (t : Handle) : SDLCall :=
  match t with
  | Window p => SDL_DestroyWindow p
  | Renderer p => SDL_DestroyRenderer p
  | Texture p => SDL_DestroyTexture p
  | Surface p => SDL_FreeSurface p
  end.

Definition Handle_eq_dec (a b : Handle) : {a = b} + {a <> b}.
Proof. decide equality; apply Z.eq_dec. Defined.

Definition SDLCall_eq_dec (a b : SDLCall) : {a = b} + {a <> b}.
Proof. decide equality; apply Z.eq_dec. Defined.

End Cleanup.

(** ** The calls a lesson makes, in program order *)

Module SDL.

Import String.
Local Open Scope string_scope.

(** The two output streams of the lessons. *)
Inductive Stream : Type := cout | cerr.

(** What is inserted into a stream: a string, the text that
    [SDL_GetError()] returns at that moment, or [std::endl]. *)
Inductive Piece : Type :=
| Str (s : String.string)
| SDL_GetError
| endl.

(** A call of a library function, with the arguments that matter here and
    the value the library returned. *)
Inductive Call : Type :=
| SDL_Init (result : Z)
| SDL_Quit
| IMG_Quit
| TTF_Init (result : Z)
| TTF_Quit
| SDL_GetBasePath
| SDL_free
| SDL_CreateWindow (title : String.string) (result : Cleanup.ptr)
| SDL_CreateRenderer (win : Cleanup.ptr) (result : Cleanup.ptr)
| IMG_LoadTexture (ren : Cleanup.ptr) (file : String.string) (result : Cleanup.ptr)
| SDL_LoadBMP (file : String.string) (result : Cleanup.ptr)
| SDL_CreateTextureFromSurface (ren surf : Cleanup.ptr) (result : Cleanup.ptr)
| TTF_OpenFont (file : String.string) (size : Z) (result : Cleanup.ptr)
| TTF_RenderText_Blended (font : Cleanup.ptr) (message : String.string)
    (result : Cleanup.ptr)
| TTF_CloseFont (font : Cleanup.ptr)
| Release (c : Cleanup.SDLCall)
| Render (c : RenderCall)
| RenderWhole
| SDL_Delay (ms : Z)
| Output (os : Stream) (text : list Piece).

(** [logSDLError(os, msg)], the same function in every lesson:
    [os << msg << " error: " << SDL_GetError() << std::endl]. *)
Definition logSDLError (os : Stream) (msg : String.string) : Call :=
  Output os [Str msg; Str " error: "; SDL_GetError; endl].

(** The release calls of [cleanup(t, args...)] as calls of the program. *)
Definition cleanup (t : Cleanup.Handle) (args : list Cleanup.Handle) : list Call :=
  map Release (Cleanup.cleanup args t []).

End SDL.

(** ** res_path.h: the resource directory *)

Module ResPath.

Import String.
Local Open Scope string_scope.

(** [std::string::rfind(needle)]: the highest position at which [needle]
    occurs in [s]; [None] is [npos], no occurrence. *)
Fixpoint rfind (s needle : string) : option nat :=
  match s with
  | EmptyString => if prefix needle s then Some O else None
  | String _ s' =>
      match rfind s' needle with
      | Some p => Some (S p)
      | None => if prefix needle s then Some O else None
      end
  end.

(** [s.substr(0, pos)]: the first [pos] characters, all of [s] for [npos]. *)
Definition substr0 (s : string) (pos : option nat) : string :=
  match pos with
  | Some p => substring 0 p s
  | None => s
  end.

Definition empty (s : string) : bool :=
  match s with
  | EmptyString => true
  | String _ _ => false
  end.

Section Separator.

(** Lines 22-27: a backslash under [_WIN32], a slash elsewhere. *)
Variable PATH_SEP : ascii.

(** What a call returns, the static [baseRes] after it, and its calls. *)
Record Result : Type := mkResult {
  value : string;
  cache : string;
  calls : list SDL.Call
}.

(** Line 51. *)
Definition finish (baseRes subDir : string) (cs : list SDL.Call) : Result :=
  mkResult (if empty subDir then baseRes
            else baseRes ++ subDir ++ String PATH_SEP EmptyString)
           baseRes cs.

(** Lines 20-52.  [basePath] is what [SDL_GetBasePath()] returns when it is
    called ([None] for [NULL]); [baseRes] is the static variable of line 31 as
    the call finds it. *)
Definition getResourcePath (basePath : option string) (subDir baseRes : string)
  : Result :=
  if empty baseRes then
    match basePath with
    | Some bp =>
        let pos := rfind bp "bin" in
        finish (substr0 bp pos ++ "res" ++ String PATH_SEP EmptyString) subDir
               [SDL.SDL_GetBasePath; SDL.SDL_free]
    | None =>
        mkResult "" baseRes
          [SDL.SDL_GetBasePath;
           SDL.Output SDL.cerr
             [SDL.Str "Error getting resource path: "; SDL.SDL_GetError; SDL.endl]]
    end
  else finish baseRes subDir [].

End Separator.

End ResPath.

(** Successive calls of [getResourcePath] in one run of a program: each
    request is what [SDL_GetBasePath()] would return and the [subDir]
    argument; the static [baseRes] is threaded from call to call. *)
Module ResPathRun.

Fixpoint run (PATH_SEP : ascii)
    (requests : list (option String.string * String.string))
    (baseRes : String.string) : list ResPath.Result :=
  match requests with
  | [] => []
  | (basePath, subDir) :: rest =>
      let r := ResPath.getResourcePath PATH_SEP basePath subDir baseRes in
      r :: run PATH_SEP rest (ResPath.cache r)
  end.

Definition failing (request : option String.string * String.string) : bool :=
  match fst request with
  | None => true
  | Some _ => false
  end.

End ResPathRun.

(** ** Lesson 5: what the keys of a turn amount to *)

Module Lesson5Keys.

(** The clip a key press selects (lines 166-182). *)
Definition selects (e : Lesson5.SDL_Event) : option Z :=
  if Lesson5.type e =? Lesson5.SDL_KEYDOWN then
    if (Lesson5.sym e =? Lesson5.SDLK_1) || (Lesson5.sym e =? Lesson5.SDLK_KP_1)
    then Some 0
    else if (Lesson5.sym e =? Lesson5.SDLK_2) || (Lesson5.sym e =? Lesson5.SDLK_KP_2)
    then Some 1
    else if (Lesson5.sym e =? Lesson5.SDLK_3) || (Lesson5.sym e =? Lesson5.SDLK_KP_3)
    then Some 2
    else if (Lesson5.sym e =? Lesson5.SDLK_4) || (Lesson5.sym e =? Lesson5.SDLK_KP_4)
    then Some 3
    else None
  else None.

(** The events that ask to quit: closing the window and the escape key
    (lines 163-164 and 183-185). *)
Definition quits (e : Lesson5.SDL_Event) : bool :=
  (Lesson5.type e =? Lesson5.SDL_QUIT) ||
  ((Lesson5.type e =? Lesson5.SDL_KEYDOWN) &&
   (Lesson5.sym e =? Lesson5.SDLK_ESCAPE)).

Definition selectsb (e : Lesson5.SDL_Event) : bool :=
  match selects e with
  | Some _ => true
  | None => false
  end.

End Lesson5Keys.

(** ** Pixels and rectangles *)

Module Pixel.

(** A pixel lies in a rectangle. *)
Definition inside (r : SDL_Rect) (px py : Z) : Prop :=
  x r <= px < x r + w r /\ y r <= py < y r + h r.

End Pixel.

(** ** Handles and library state along a list of calls *)

Module Audit.

Import Cleanup SDL.

(** What a program holds: the four kinds of handle of cleanup.h and fonts. *)
Inductive Resource : Type :=
| Held (t : Handle)
| Font (p : ptr).

Definition same (a b : Resource) : bool :=
  match a, b with
  | Held (Window p), Held (Window q) => p =? q
  | Held (Renderer p), Held (Renderer q) => p =? q
  | Held (Texture p), Held (Texture q) => p =? q
  | Held (Surface p), Held (Surface q) => p =? q
  | Font p, Font q => p =? q
  | _, _ => false
  end.

Definition null (r : Resource) : bool :=
  match r with
  | Held t => is_null t
  | Font p => p =? nullptr
  end.

Fixpoint holds (r : Resource) (l : list Resource) : bool :=
  match l with
  | [] => false
  | a :: l' => same r a || holds r l'
  end.

Fixpoint drop (r : Resource) (l : list Resource) : list Resource :=
  match l with
  | [] => []
  | a :: l' => if same r a then l' else a :: drop r l'
  end.

(** The library state: SDL and SDL_ttf initialised or not, and the
    resources created and not yet released. *)
Record Live : Type := mkLive { sdl : bool; ttf : bool; live : list Resource }.

Definition start : Live := mkLive false false [].

(** The resource a call creates. *)
Definition creates (c : Call) : option Resource :=
  match c with
  | SDL_CreateWindow _ p => Some (Held (Window p))
  | SDL_CreateRenderer _ p => Some (Held (Renderer p))
  | IMG_LoadTexture _ _ p => Some (Held (Texture p))
  | SDL_LoadBMP _ p => Some (Held (Surface p))
  | SDL_CreateTextureFromSurface _ _ p => Some (Held (Texture p))
  | TTF_OpenFont _ _ p => Some (Font p)
  | TTF_RenderText_Blended _ _ p => Some (Held (Surface p))
  | _ => None
  end.

(** The resources a call is handed. *)
Definition uses (c : Call) : list Resource :=
  match c with
  | SDL_CreateRenderer win _ => [Held (Window win)]
  | IMG_LoadTexture ren _ _ => [Held (Renderer ren)]
  | SDL_CreateTextureFromSurface ren surf _ =>
      [Held (Renderer ren); Held (Surface surf)]
  | TTF_RenderText_Blended font _ _ => [Font font]
  | _ => []
  end.

(** The resource a call releases. *)
Definition releases (c : Call) : option Resource :=
  match c with
  | Release (SDL_DestroyWindow p) => Some (Held (Window p))
  | Release (SDL_DestroyRenderer p) => Some (Held (Renderer p))
  | Release (SDL_DestroyTexture p) => Some (Held (Texture p))
  | Release (SDL_FreeSurface p) => Some (Held (Surface p))
  | TTF_CloseFont p => Some (Font p)
  | _ => None
  end.

Definition needs_ttf (c : Call) : bool :=
  match c with
  | TTF_OpenFont _ _ _ | TTF_RenderText_Blended _ _ _ | TTF_CloseFont _ => true
  | _ => false
  end.

Definition needs_sdl (c : Call) : bool :=
  match c with
  | SDL_CreateWindow _ _ | SDL_CreateRenderer _ _ | IMG_LoadTexture _ _ _
  | SDL_LoadBMP _ _ | SDL_CreateTextureFromSurface _ _ _
  | Release _ | Render _ | RenderWhole => true
  | _ => false
  end.

(** One call.  [None]: the call is an error of resource handling, that is
    a library used before its initialisation or after its shutdown, a
    resource used or released that is not held, a resource created at an
    address that is held, or SDL shut down while resources are held. *)
Definition step (s : Live) (c : Call) : option Live :=
  match c with
  | SDL_Init rc =>
      if sdl s then None else Some (mkLive (rc =? 0) (ttf s) (live s))
  | SDL_Quit =>
      if sdl s && match live s with [] => true | _ => false end
      then Some (mkLive false (ttf s) [])
      else None
  | TTF_Init rc =>
      if sdl s && negb (ttf s) then Some (mkLive (sdl s) (rc =? 0) (live s))
      else None
  | TTF_Quit =>
      if ttf s then Some (mkLive (sdl s) false (live s)) else None
  | _ =>
      if (needs_sdl c && negb (sdl s)) || (needs_ttf c && negb (ttf s))
         || negb (forallb (fun r => holds r (live s)) (uses c))
      then None
      else
        match creates c, releases c with
        | Some r, _ =>
            if null r then Some s
            else if holds r (live s) then None
            else Some (mkLive (sdl s) (ttf s) (r :: live s))
        | None, Some r =>
            if holds r (live s)
            then Some (mkLive (sdl s) (ttf s) (drop r (live s)))
            else None
        | None, None => Some s
        end
  end.

Fixpoint audit (s : Live) (calls : list Call) : option Live :=
  match calls with
  | [] => Some s
  | c :: rest =>
      match step s c with
      | Some s' => audit s' rest
      | None => None
      end
  end.

End Audit.

(** ** Lesson 5: the program *)

Module Lesson5Main.

Import String Cleanup SDL.

(** What the library returns to one run of [main], call by call, and the
    events of each turn of the loop. *)
Record Env : Type := mkEnv {
  SDL_Init_result : Z;
  win : ptr;
  ren : ptr;
  basePath : option string;
  image : ptr;
  texW : Z;
  texH : Z;
  turns : list (list Lesson5.SDL_Event)
}.

(** How a run ends: [return code], a loop still waiting for events, or
    undefined behaviour. *)
Inductive Outcome : Type :=
| Exited (code : Z)
| Running
| Undefined.

(** Lines 30-38; [result] is what [IMG_LoadTexture] returns. *)
Definition loadTexture (file : string) (ren result : ptr) : list Call :=
  IMG_LoadTexture ren file result ::
  (if result =? nullptr then [logSDLError cout "LoadTexture"%string] else []).

(** Lines 84-206. *)
Definition main (PATH_SEP : ascii) (env : Env) : Outcome * list Call :=
  if negb (SDL_Init_result env =? 0) then
    (Exited 1,
     [SDL_Init (SDL_Init_result env); logSDLError cout "SDL_Init"%string])
  else
    let c1 := [SDL_Init (SDL_Init_result env);
               SDL_CreateWindow "Lesson 5"%string (win env)] in
    if win env =? nullptr then
      (Exited 1, c1 ++ [logSDLError cout "CreateWindow"%string; SDL_Quit])
    else
      let c2 := c1 ++ [SDL_CreateRenderer (win env) (ren env)] in
      if ren env =? nullptr then
        (Exited 1,
         c2 ++ [logSDLError cout "CreateRenderer"%string]
            ++ cleanup (Window (win env)) [] ++ [SDL_Quit])
      else
        let resPath :=
          ResPath.getResourcePath PATH_SEP (basePath env) "Lesson5"%string
            ""%string in
        let c3 := c2 ++ ResPath.calls resPath
                     ++ loadTexture
                          (String.append (ResPath.value resPath) "image.png"%string)
                          (ren env) (image env) in
        if image env =? nullptr then
          (Exited 1,
           c3 ++ cleanup (Texture (image env))
                   [Renderer (ren env); Window (win env)]
              ++ [SDL_Quit])
        else
          match Lesson5.init (texW env) (texH env) with
          | None => (Undefined, c3)
          | Some st0 =>
              match Lesson5.main_loop (turns env) st0 with
              | None => (Undefined, c3)
              | Some st =>
                  let c4 := c3 ++ map Render (Lesson5.screen st) in
                  if Lesson5.quit st then
                    (Exited 0,
                     c4 ++ cleanup (Texture (image env))
                             [Renderer (ren env); Window (win env)]
                        ++ [IMG_Quit; SDL_Quit])
                  else (Running, c4)
              end
          end.

End Lesson5Main.

(** ** The centred image of Lessons 2, 3, 4 and 6 *)

Module Foreground.

Definition SCREEN_WIDTH : Z := 640.
Definition SCREEN_HEIGHT : Z := 480.

(** [a - b] on [int]. *)
Definition sub (a b : Z) : option Z := CInt.checked (a - b).

(** [screen / 2 - size / 2]. *)
Definition centred (screen size : Z) : option Z :=
  half <- CInt.div screen 2 ;;
  half' <- CInt.div size 2 ;;
  sub half half'.

(** Lesson 3, lines 130-133 (Lesson 4, 112-115; Lesson 6, 151-154): where
    an image of [iW] x [iH] pixels is drawn. *)
Definition origin (iW iH : Z) : option (Z * Z) :=
  px <- centred SCREEN_WIDTH iW ;;
  py <- centred SCREEN_HEIGHT iH ;;
  Some (px, py).

(** [renderTexture(tex, ren, x, y)] of Lessons 2, 3 and 4, and of Lessons 5
    and 6 without a clip: the destination has the size that
    [SDL_QueryTexture] reports. *)
Definition renderTexture (texW texH px py : Z) : RenderCall :=
  SDL_RenderCopy None (mkRect px py texW texH).

End Foreground.

(** ** Lesson 3: the program *)

Module Lesson3Main.

Import String Cleanup SDL.

Record Env : Type := mkEnv {
  SDL_Init_result : Z;
  win : ptr;
  ren : ptr;
  basePath : option string;
  background : ptr;
  image : ptr;
  iW : Z;
  iH : Z
}.

Inductive Outcome : Type :=
| Exited (code : Z)
| Undefined.

(** Lines 31-39. *)
Definition loadTexture (file : string) (ren result : ptr) : list Call :=
  IMG_LoadTexture ren file result ::
  (if result =? nullptr then [logSDLError cout "LoadTexture"%string] else []).

(** Lines 77-144. *)
Definition main (PATH_SEP : ascii) (env : Env) : Outcome * list Call :=
  if negb (SDL_Init_result env =? 0) then
    (Exited 1,
     [SDL_Init (SDL_Init_result env); logSDLError cout "SDL_Init"%string])
  else
    let c1 := [SDL_Init (SDL_Init_result env);
               SDL_CreateWindow "Lesson 3"%string (win env)] in
    if win env =? nullptr then
      (Exited 1, c1 ++ [logSDLError cout "CreateWindow"%string; SDL_Quit])
    else
      let c2 := c1 ++ [SDL_CreateRenderer (win env) (ren env)] in
      if ren env =? nullptr then
        (Exited 1,
         c2 ++ [logSDLError cout "CreateRenderer"%string]
            ++ cleanup (Window (win env)) [] ++ [SDL_Quit])
      else
        let resPath :=
          ResPath.getResourcePath PATH_SEP (basePath env) "Lesson3"%string
            ""%string in
        let c3 := c2 ++ ResPath.calls resPath
                     ++ loadTexture
                          (String.append (ResPath.value resPath)
                             "background.png"%string)
                          (ren env) (background env)
                     ++ loadTexture
                          (String.append (ResPath.value resPath)
                             "image.png"%string)
                          (ren env) (image env) in
        if (background env =? nullptr) || (image env =? nullptr) then
          (Exited 1,
           c3 ++ cleanup (Texture (background env))
                   [Texture (image env); Renderer (ren env); Window (win env)]
              ++ [SDL_Quit])
        else
          match Lesson3.draw_background [] with
          | None => (Undefined, c3)
          | Some tiles =>
              match Foreground.origin (iW env) (iH env) with
              | None => (Undefined, c3)
              | Some o =>
                  (Exited 0,
                   c3 ++ map Render tiles
                      ++ [Render (Foreground.renderTexture (iW env) (iH env)
                                    (fst o) (snd o));
                          Render SDL_RenderPresent;
                          SDL_Delay 5000]
                      ++ cleanup (Texture (background env))
                           [Texture (image env); Renderer (ren env);
                            Window (win env)]
                      ++ [IMG_Quit; SDL_Quit])
              end
          end.

End Lesson3Main.

(** ** Lesson 1, written with the release functions of SDL
       (Lesson1/src/main.cc) and with [cleanup] *)

Module Lesson1.

Import String Cleanup SDL.

Record Env : Type := mkEnv {
  SDL_Init_result : Z;
  win : ptr;
  ren : ptr;
  basePath : option string;
  bmp : ptr;
  tex : ptr
}.

Definition says (os : Stream) (text : string) : Call :=
  Output os [Str text; SDL_GetError; endl].

(** Lines 54-63: [for (int i = 0; i < 3; i++)], [n] iterations left. *)
Fixpoint sleepy_loop (n : nat) (calls : list Call) : list Call :=
  match n with
  | O => calls
  | S n' =>
      sleepy_loop n'
        (calls ++ [Render SDL_RenderClear; RenderWhole;
                   Render SDL_RenderPresent; SDL_Delay 1000])
  end.

(** Lesson1/src/main.cc, lines 7-71. *)
Definition main (PATH_SEP : ascii) (env : Env) : Z * list Call :=
  if negb (SDL_Init_result env =? 0) then
    (1, [SDL_Init (SDL_Init_result env); says cerr "SDL_Init error: "%string])
  else
    let c1 := [SDL_Init (SDL_Init_result env);
               SDL_CreateWindow "Hello World!"%string (win env)] in
    if win env =? nullptr then
      (1, c1 ++ [says cerr "SDL_CreateWindow Error: "%string; SDL_Quit])
    else
      let c2 := c1 ++ [SDL_CreateRenderer (win env) (ren env)] in
      if ren env =? nullptr then
        (1, c2 ++ [Release (SDL_DestroyWindow (win env));
                   says cerr "SDL_CreateRenderer Error: "%string; SDL_Quit])
      else
        let resPath :=
          ResPath.getResourcePath PATH_SEP (basePath env) "Lesson1"%string
            ""%string in
        let imagePath :=
          String.append (ResPath.value resPath) "HelloWorld.bmp"%string in
        let c3 := c2 ++ ResPath.calls resPath ++ [SDL_LoadBMP imagePath (bmp env)] in
        if bmp env =? nullptr then
          (1, c3 ++ [Release (SDL_DestroyRenderer (ren env));
                     Release (SDL_DestroyWindow (win env));
                     says cout "SDL_LoadBMP Error: "%string; SDL_Quit])
        else
          let c4 := c3 ++ [SDL_CreateTextureFromSurface (ren env) (bmp env) (tex env);
                           Release (SDL_FreeSurface (bmp env))] in
          if tex env =? nullptr then
            (1, c4 ++ [Release (SDL_DestroyRenderer (ren env));
                       Release (SDL_DestroyWindow (win env));
                       says cout "SDL_CreateTextureFromSurface Error: "%string;
                       SDL_Quit])
          else
            (0, sleepy_loop 3 c4
                ++ [Release (SDL_DestroyTexture (tex env));
                    Release (SDL_DestroyRenderer (ren env));
                    Release (SDL_DestroyWindow (win env));
                    SDL_Quit]).

(** The same program written with cleanup.h, lines 7-67. *)
Definition main_cleanup (PATH_SEP : ascii) (env : Env) : Z * list Call :=
  if negb (SDL_Init_result env =? 0) then
    (1, [SDL_Init (SDL_Init_result env); says cerr "SDL_Init error: "%string])
  else
    let c1 := [SDL_Init (SDL_Init_result env);
               SDL_CreateWindow "Hello World!"%string (win env)] in
    if win env =? nullptr then
      (1, c1 ++ [says cerr "SDL_CreateWindow Error: "%string; SDL_Quit])
    else
      let c2 := c1 ++ [SDL_CreateRenderer (win env) (ren env)] in
      if ren env =? nullptr then
        (1, c2 ++ cleanup (Window (win env)) []
               ++ [says cerr "SDL_CreateRenderer Error: "%string; SDL_Quit])
      else
        let resPath :=
          ResPath.getResourcePath PATH_SEP (basePath env) "Lesson1"%string
            ""%string in
        let imagePath :=
          String.append (ResPath.value resPath) "HelloWorld.bmp"%string in
        let c3 := c2 ++ ResPath.calls resPath ++ [SDL_LoadBMP imagePath (bmp env)] in
        if bmp env =? nullptr then
          (1, c3 ++ cleanup (Renderer (ren env)) [Window (win env)]
                 ++ [says cout "SDL_LoadBMP Error: "%string; SDL_Quit])
        else
          let c4 := c3 ++ [SDL_CreateTextureFromSurface (ren env) (bmp env) (tex env)]
                       ++ cleanup (Surface (bmp env)) [] in
          if tex env =? nullptr then
            (1, c4 ++ cleanup (Renderer (ren env)) [Window (win env)]
                   ++ [says cout "SDL_CreateTextureFromSurface Error: "%string;
                       SDL_Quit])
          else
            (0, sleepy_loop 3 c4
                ++ cleanup (Texture (tex env))
                     [Renderer (ren env); Window (win env)]
                ++ [SDL_Quit]).

End Lesson1.

(** ** Lesson 2: a bitmap loader and four background tiles *)

Module Lesson2.

Import String Cleanup SDL.

(** Lines 29-45.  [surf] is what [SDL_LoadBMP] returns and [texture] what
    [SDL_CreateTextureFromSurface] returns when it is called; the result is
    the texture, or [nullptr]. *)
Definition loadTexture (file : string) (ren surf texture : ptr)
  : ptr * list Call :=
  if negb (surf =? nullptr) then
    (texture,
     [SDL_LoadBMP file surf;
      SDL_CreateTextureFromSurface ren surf texture;
      Release (SDL_FreeSurface surf)]
     ++ (if texture =? nullptr
         then [logSDLError cout "CreateTextureFromSurface"%string]
         else []))
  else
    (nullptr, [SDL_LoadBMP file surf; logSDLError cout "LoadBMP"%string]).

Record Env : Type := mkEnv {
  SDL_Init_result : Z;
  win : ptr;
  ren : ptr;
  basePath : option string;
  backgroundSurf : ptr;
  backgroundTex : ptr;
  imageSurf : ptr;
  imageTex : ptr;
  bW : Z;
  bH : Z;
  iW : Z;
  iH : Z
}.

Inductive Outcome : Type :=
| Exited (code : Z)
| Undefined.

(** Lines 66-126. *)
Definition main (PATH_SEP : ascii) (env : Env) : Outcome * list Call :=
  if negb (SDL_Init_result env =? 0) then
    (Exited 1,
     [SDL_Init (SDL_Init_result env); logSDLError cout "SDL_Init"%string])
  else
    let c1 := [SDL_Init (SDL_Init_result env);
               SDL_CreateWindow "Lesson 2"%string (win env)] in
    if win env =? nullptr then
      (Exited 1, c1 ++ [logSDLError cout "CreateWindow"%string; SDL_Quit])
    else
      let c2 := c1 ++ [SDL_CreateRenderer (win env) (ren env)] in
      if ren env =? nullptr then
        (Exited 1,
         c2 ++ [logSDLError cout "CreateRenderer"%string]
            ++ cleanup (Window (win env)) [] ++ [SDL_Quit])
      else
        let resPath :=
          ResPath.getResourcePath PATH_SEP (basePath env) "Lesson2"%string
            ""%string in
        let background :=
          loadTexture (String.append (ResPath.value resPath) "background.bmp"%string)
            (ren env) (backgroundSurf env) (backgroundTex env) in
        let image :=
          loadTexture (String.append (ResPath.value resPath) "image.bmp"%string)
            (ren env) (imageSurf env) (imageTex env) in
        let c3 := c2 ++ ResPath.calls resPath ++ snd background ++ snd image in
        if (fst background =? nullptr) || (fst image =? nullptr) then
          (Exited 1,
           c3 ++ cleanup (Texture (fst background))
                   [Texture (fst image); Renderer (ren env); Window (win env)]
              ++ [SDL_Quit])
        else
          match Foreground.origin (iW env) (iH env) with
          | None => (Undefined, c3)
          | Some o =>
              (Exited 0,
               c3 ++ [Render SDL_RenderClear;
                      Render (Foreground.renderTexture (bW env) (bH env) 0 0);
                      Render (Foreground.renderTexture (bW env) (bH env) (bW env) 0);
                      Render (Foreground.renderTexture (bW env) (bH env) 0 (bH env));
                      Render (Foreground.renderTexture (bW env) (bH env)
                                (bW env) (bH env));
                      Render (Foreground.renderTexture (iW env) (iH env)
                                (fst o) (snd o));
                      Render SDL_RenderPresent;
                      SDL_Delay 1000]
                  ++ cleanup (Texture (fst background))
                       [Texture (fst image); Renderer (ren env); Window (win env)]
                  ++ [SDL_Quit])
          end.

End Lesson2.

(** ** Lesson 6: text rendered to a texture *)

Module Lesson6.

Import String Cleanup SDL.

(** Lines 78-103.  [font], [surf] and [texture] are what [TTF_OpenFont],
    [TTF_RenderText_Blended] and [SDL_CreateTextureFromSurface] return when
    they are called. *)
Definition renderText (message fontFile : string) (fontSize : Z)
    (renderer font surf texture : ptr) : ptr * list Call :=
  if font =? nullptr then
    (nullptr,
     [TTF_OpenFont fontFile fontSize font; logSDLError cout "TTF_OpenFont"%string])
  else if surf =? nullptr then
    (nullptr,
     [TTF_OpenFont fontFile fontSize font;
      TTF_RenderText_Blended font message surf;
      TTF_CloseFont font;
      logSDLError cout "TTF_RenderText"%string])
  else
    (texture,
     [TTF_OpenFont fontFile fontSize font;
      TTF_RenderText_Blended font message surf;
      SDL_CreateTextureFromSurface renderer surf texture]
     ++ (if texture =? nullptr then [logSDLError cout "CreateTexture"%string]
         else [])
     ++ [Release (SDL_FreeSurface surf); TTF_CloseFont font]).

(** Lines 164-165. *)
Definition quits (e : Lesson5.SDL_Event) : bool :=
  (Lesson5.type e =? Lesson5.SDL_QUIT) ||
  ((Lesson5.type e =? Lesson5.SDL_KEYDOWN) &&
   (Lesson5.sym e =? Lesson5.SDLK_ESCAPE)).

(** Lines 163-168: the pending events of one turn. *)
Definition poll_events (pending : list Lesson5.SDL_Event) (quit : bool) : bool :=
  fold_left (fun q e => if quits e then true else q) pending quit.

(** Lines 162-174: [while (!quit)]; every turn draws [copy] between a clear
    and a present. *)
Fixpoint main_loop (turns : list (list Lesson5.SDL_Event)) (copy : RenderCall)
    (quit : bool) (screen : list RenderCall) : bool * list RenderCall :=
  match turns with
  | [] => (quit, screen)
  | pending :: rest =>
      if quit then (quit, screen)
      else
        main_loop rest copy (poll_events pending quit)
          (screen ++ [SDL_RenderClear; copy; SDL_RenderPresent])
  end.

Record Env : Type := mkEnv {
  SDL_Init_result : Z;
  TTF_Init_result : Z;
  win : ptr;
  ren : ptr;
  basePath : option string;
  font : ptr;
  surf : ptr;
  texture : ptr;
  iW : Z;
  iH : Z;
  turns : list (list Lesson5.SDL_Event)
}.

Inductive Outcome : Type :=
| Exited (code : Z)
| Running
| Undefined.

(** Lines 105-184. *)
Definition main (PATH_SEP : ascii) (env : Env) : Outcome * list Call :=
  if negb (SDL_Init_result env =? 0) then
    (Exited 1,
     [SDL_Init (SDL_Init_result env); logSDLError cout "SDL_Init"%string])
  else
    let c0 := [SDL_Init (SDL_Init_result env); TTF_Init (TTF_Init_result env)] in
    if negb (TTF_Init_result env =? 0) then
      (Exited 1, c0 ++ [logSDLError cout "TTF_Init"%string; SDL_Quit])
    else
      let c1 := c0 ++ [SDL_CreateWindow "Lesson 5"%string (win env)] in
      if win env =? nullptr then
        (Exited 1, c1 ++ [logSDLError cout "CreateWindow"%string; SDL_Quit])
      else
        let c2 := c1 ++ [SDL_CreateRenderer (win env) (ren env)] in
        if ren env =? nullptr then
          (Exited 1,
           c2 ++ [logSDLError cout "CreateRenderer"%string]
              ++ cleanup (Window (win env)) [] ++ [SDL_Quit])
        else
          let resPath :=
            ResPath.getResourcePath PATH_SEP (basePath env) "Lesson6"%string
              ""%string in
          let image :=
            renderText "TTF fonts are neat!"%string
              (String.append (ResPath.value resPath) "OpenSans-Regular.ttf"%string)
              64 (ren env) (font env) (surf env) (texture env) in
          let c3 := c2 ++ ResPath.calls resPath ++ snd image in
          if fst image =? nullptr then
            (Exited 1,
             c3 ++ cleanup (Renderer (ren env)) [Window (win env)]
                ++ [TTF_Quit; SDL_Quit])
          else
            match Foreground.origin (iW env) (iH env) with
            | None => (Undefined, c3)
            | Some o =>
                let run :=
                  main_loop (turns env)
                    (Foreground.renderTexture (iW env) (iH env) (fst o) (snd o))
                    false [] in
                let c4 := c3 ++ map Render (snd run) in
                if fst run then
                  (Exited 0,
                   c4 ++ cleanup (Texture (fst image))
                           [Renderer (ren env); Window (win env)]
                      ++ [TTF_Quit; SDL_Quit])
                else (Running, c4)
            end.

End Lesson6.

(** ** Lesson 4: an image until any input *)

Module Lesson4.

Import String Cleanup SDL.

Definition SDL_MOUSEBUTTONDOWN : Z := 1025.

(** Lines 129-134: a [switch] whose three cases fall through to
    [quit = true]. *)
Definition quits (e : Lesson5.SDL_Event) : bool :=
  (Lesson5.type e =? Lesson5.SDL_QUIT) ||
  (Lesson5.type e =? Lesson5.SDL_KEYDOWN) ||
  (Lesson5.type e =? SDL_MOUSEBUTTONDOWN).

(** Lines 127-135. *)
Definition poll_events (pending : list Lesson5.SDL_Event) (quit : bool) : bool :=
  fold_left (fun q e => if quits e then true else q) pending quit.

(** Lines 126-142. *)
Fixpoint main_loop (turns : list (list Lesson5.SDL_Event)) (copy : RenderCall)
    (quit : bool) (screen : list RenderCall) : bool * list RenderCall :=
  match turns with
  | [] => (quit, screen)
  | pending :: rest =>
      if quit then (quit, screen)
      else
        main_loop rest copy (poll_events pending quit)
          (screen ++ [SDL_RenderClear; copy; SDL_RenderPresent])
  end.

Record Env : Type := mkEnv {
  SDL_Init_result : Z;
  win : ptr;
  ren : ptr;
  basePath : option string;
  image : ptr;
  iW : Z;
  iH : Z;
  turns : list (list Lesson5.SDL_Event)
}.

Inductive Outcome : Type :=
| Exited (code : Z)
| Running
| Undefined.

(** Lines 30-38. *)
Definition loadTexture (file : string) (ren result : ptr) : list Call :=
  IMG_LoadTexture ren file result ::
  (if result =? nullptr then [logSDLError cout "LoadTexture"%string] else []).

(** Lines 76-148. *)
Definition main (PATH_SEP : ascii) (env : Env) : Outcome * list Call :=
  if negb (SDL_Init_result env =? 0) then
    (Exited 1,
     [SDL_Init (SDL_Init_result env); logSDLError cout "SDL_Init"%string])
  else
    let c1 := [SDL_Init (SDL_Init_result env);
               SDL_CreateWindow "Lesson 4"%string (win env)] in
    if win env =? nullptr then
      (Exited 1, c1 ++ [logSDLError cout "CreateWindow"%string; SDL_Quit])
    else
      let c2 := c1 ++ [SDL_CreateRenderer (win env) (ren env)] in
      if ren env =? nullptr then
        (Exited 1,
         c2 ++ [logSDLError cout "CreateRenderer"%string]
            ++ cleanup (Window (win env)) [] ++ [SDL_Quit])
      else
        let resPath :=
          ResPath.getResourcePath PATH_SEP (basePath env) "Lesson4"%string
            ""%string in
        let c3 := c2 ++ ResPath.calls resPath
                     ++ loadTexture
                          (String.append (ResPath.value resPath) "image.png"%string)
                          (ren env) (image env) in
        if image env =? nullptr then
          (Exited 1,
           c3 ++ cleanup (Texture (image env))
                   [Renderer (ren env); Window (win env)]
              ++ [SDL_Quit])
        else
          match Foreground.origin (iW env) (iH env) with
          | None => (Undefined, c3)
          | Some o =>
              let copy :=
                Foreground.renderTexture (iW env) (iH env) (fst o) (snd o) in
              let run := main_loop (turns env) copy false [copy] in
              let c4 := c3 ++ map Render (snd run) in
              if fst run then
                (Exited 0,
                 c4 ++ cleanup (Texture (image env))
                         [Renderer (ren env); Window (win env)]
                    ++ [IMG_Quit; SDL_Quit])
              else (Running, c4)
          end.

End Lesson4.

(** ** Properties *)

Import CInt.

Lemma in_int_true (z : Z) : is_int z -> in_int z = true.
Proof.
  unfold is_int, in_int, INT_MIN, INT_MAX. intros [Hlo Hhi].
  apply andb_true_intro. split; apply Z.leb_le; assumption.
Qed.

Lemma in_int_spec (z : Z) : in_int z = true <-> is_int z.
Proof.
  split; [| apply in_int_true].
  unfold is_int, in_int, INT_MIN, INT_MAX. intros H.
  apply andb_prop in H. destruct H as [Hlo Hhi].
  apply Z.leb_le in Hlo. apply Z.leb_le in Hhi. lia.
Qed.

Lemma checked_int (z : Z) : is_int z -> checked z = Some z.
Proof. intros H. unfold checked. rewrite (in_int_true z H). reflexivity. Qed.

Lemma checked_Some (z v : Z) : checked z = Some v -> v = z /\ is_int z.
Proof.
  unfold checked. destruct (in_int z) eqn:E; [| discriminate].
  intros H. injection H as <-. split; [reflexivity | apply in_int_spec; exact E].
Qed.

(** On a non-negative dividend and a positive divisor the truncating
    operators of C++ are floor division and its remainder. *)
Lemma div_floor (a b : Z) :
  is_int a -> 0 <= a -> 0 < b -> div a b = Some (a / b).
Proof.
  intros Ha H0 Hb. unfold div.
  destruct (Z.eqb_spec b 0) as [-> | _]; [lia |].
  rewrite Z.quot_div_nonneg by lia.
  apply checked_int. unfold is_int, INT_MIN, INT_MAX in *.
  assert (0 <= a / b) by (apply Z.div_pos; lia).
  assert (a / b <= a) by (apply Z.div_le_upper_bound; nia).
  lia.
Qed.

Lemma rem_floor (a b : Z) :
  is_int a -> 0 <= a -> 0 < b -> rem a b = Some (a mod b).
Proof.
  intros Ha H0 Hb. unfold rem.
  destruct (Z.eqb_spec b 0) as [-> | _]; [lia |].
  rewrite Z.quot_div_nonneg, Z.rem_mod_nonneg by lia.
  rewrite in_int_true; [reflexivity |].
  unfold is_int, INT_MIN, INT_MAX in *.
  assert (0 <= a / b) by (apply Z.div_pos; lia).
  assert (a / b <= a) by (apply Z.div_le_upper_bound; nia).
  lia.
Qed.

Lemma mul_int (a b : Z) : is_int (a * b) -> mul a b = Some (a * b).
Proof. apply checked_int. Qed.

Lemma checked_inv (z v : Z) : checked z = Some v -> v = z.
Proof. intros H. apply checked_Some in H. tauto. Qed.

Lemma div_Some (a b q : Z) :
  div a b = Some q -> 0 <= a -> 0 < b -> q = a / b.
Proof.
  unfold div. intros H Ha Hb.
  destruct (Z.eqb_spec b 0); [discriminate |].
  apply checked_inv in H. rewrite H. apply Z.quot_div_nonneg; lia.
Qed.

Lemma rem_Some (a b r : Z) :
  rem a b = Some r -> 0 <= a -> 0 < b -> r = a mod b.
Proof.
  unfold rem. intros H Ha Hb.
  destruct (Z.eqb_spec b 0); [discriminate |].
  destruct (in_int (Z.quot a b)); [| discriminate].
  injection H as <-. apply Z.rem_mod_nonneg; lia.
Qed.

Lemma bind_Some {A B : Type} (m : option A) (k : A -> option B) (b : B) :
  bind m k = Some b -> exists a, m = Some a /\ k a = Some b.
Proof. destruct m as [a |]; cbn; [eauto | discriminate]. Qed.

(** Side conditions on concrete numbers. *)
Ltac concrete :=
  unfold Lesson5.rect_fits, Lesson3.origin_fits, is_int, INT_MIN, INT_MAX;
  repeat split;
  solve [ lia | reflexivity | vm_compute; intro; discriminate
        | vm_compute; reflexivity ].

(** *** Source tiles *)

Lemma sourceTileRect_eval (tw th i rpc : Z) :
  is_int i -> 0 <= i -> 0 < rpc -> Lesson5.rect_fits tw th i rpc ->
  Lesson5.sourceTileRect tw th i rpc =
    Some (mkRect (i / rpc * tw) (i mod rpc * th) tw th).
Proof.
  intros Hi H0 Hr [Hx Hy]. unfold Lesson5.sourceTileRect.
  rewrite (div_floor i rpc Hi H0 Hr). cbn [bind].
  rewrite (mul_int _ _ Hx). cbn [bind].
  rewrite (rem_floor i rpc Hi H0 Hr). cbn [bind].
  rewrite (mul_int _ _ Hy). reflexivity.
Qed.

Lemma sourceTileRect_Some (tw th i rpc : Z) (r : SDL_Rect) :
  Lesson5.sourceTileRect tw th i rpc = Some r ->
  0 <= i -> 0 < rpc ->
  r = mkRect (i / rpc * tw) (i mod rpc * th) tw th /\
  Lesson5.rect_fits tw th i rpc.
Proof.
  unfold Lesson5.sourceTileRect. intros H Hi Hr.
  apply bind_Some in H. destruct H as (q & Hq & H).
  apply bind_Some in H. destruct H as (cx & Hcx & H).
  apply bind_Some in H. destruct H as (m & Hm & H).
  apply bind_Some in H. destruct H as (cy & Hcy & H).
  injection H as <-.
  apply div_Some in Hq; [| assumption ..]. apply rem_Some in Hm; [| assumption ..].
  apply checked_Some in Hcx. apply checked_Some in Hcy.
  destruct Hcx as [-> Hx]. destruct Hcy as [-> Hy]. subst q m.
  split; [reflexivity | split; assumption].
Qed.

(** C1. For every [int] index >= 0, tile width and height > 0 and
    rowsPerColumn > 0, the body of the clips loop yields the rectangle
    x = (index / rowsPerColumn) * tileWidth,
    y = (index % rowsPerColumn) * tileHeight, w = tileWidth, h = tileHeight,
    with floor division and remainder: it yields this rectangle whenever the
    two coordinates are [int] values, as the fields of an [SDL_Rect] are,
    and it yields no other rectangle. *)
Theorem sourceTileRect_formula (index tileWidth tileHeight rowsPerColumn : Z) :
  is_int index ->
  0 <= index -> 0 < tileWidth -> 0 < tileHeight -> 0 < rowsPerColumn ->
  (Lesson5.rect_fits tileWidth tileHeight index rowsPerColumn ->
   Lesson5.sourceTileRect tileWidth tileHeight index rowsPerColumn =
     Some {| x := (index / rowsPerColumn) * tileWidth;
             y := (index mod rowsPerColumn) * tileHeight;
             w := tileWidth;
             h := tileHeight |}) /\
  (forall r : SDL_Rect,
     Lesson5.sourceTileRect tileWidth tileHeight index rowsPerColumn = Some r ->
     r = {| x := (index / rowsPerColumn) * tileWidth;
            y := (index mod rowsPerColumn) * tileHeight;
            w := tileWidth;
            h := tileHeight |} /\
     Lesson5.rect_fits tileWidth tileHeight index rowsPerColumn).
Proof.
  intros Hi H0 _ _ Hr. split.
  - intros Hfit. apply sourceTileRect_eval; assumption.
  - intros r H. apply (sourceTileRect_Some _ _ _ _ _ H H0 Hr).
Qed.

Lemma sourceTileRect_formula_witness :
  Lesson5.sourceTileRect 100 100 2 2 = Some (mkRect 100 0 100 100).
Proof.
  apply (sourceTileRect_formula 2 100 100 2); concrete.
Defined.

(** C2. For tile width and height > 0 and a source image at least one tile
    wide and high, the number of source tiles is
    (sourceWidth / tileWidth) * (sourceHeight / tileHeight) with floor
    division: the code yields this count whenever it is an [int], and no
    other count; the tiled extent leaves the remainder pixels out. *)
Theorem totalSourceTiles_floor (sourceWidth sourceHeight tileWidth tileHeight : Z) :
  is_int sourceWidth -> is_int sourceHeight ->
  0 < tileWidth -> 0 < tileHeight ->
  tileWidth <= sourceWidth -> tileHeight <= sourceHeight ->
  (is_int ((sourceWidth / tileWidth) * (sourceHeight / tileHeight)) ->
   Lesson5.totalSourceTiles tileWidth tileHeight sourceWidth sourceHeight =
     Some ((sourceWidth / tileWidth) * (sourceHeight / tileHeight))) /\
  (forall total : Z,
     Lesson5.totalSourceTiles tileWidth tileHeight sourceWidth sourceHeight =
       Some total ->
     total = (sourceWidth / tileWidth) * (sourceHeight / tileHeight)) /\
  (sourceWidth / tileWidth) * tileWidth = sourceWidth - sourceWidth mod tileWidth /\
  (sourceHeight / tileHeight) * tileHeight = sourceHeight - sourceHeight mod tileHeight.
Proof.
  intros Hsw Hsh Htw Hth Hw Hh.
  assert (E : Lesson5.totalSourceTiles tileWidth tileHeight sourceWidth sourceHeight =
              mul (sourceWidth / tileWidth) (sourceHeight / tileHeight)).
  { unfold Lesson5.totalSourceTiles, Lesson5.xTiles, Lesson5.yTiles.
    rewrite (div_floor sourceWidth tileWidth) by (assumption || lia).
    rewrite (div_floor sourceHeight tileHeight) by (assumption || lia).
    reflexivity. }
  split; [| split].
  - intros Hfit. rewrite E. apply mul_int. exact Hfit.
  - intros total H. rewrite E in H. apply checked_inv in H. exact H.
  - pose proof (Z.div_mod sourceWidth tileWidth).
    pose proof (Z.div_mod sourceHeight tileHeight).
    split; lia.
Qed.

Lemma totalSourceTiles_floor_witness :
  Lesson5.totalSourceTiles 100 100 450 270 = Some ((450 / 100) * (270 / 100)).
Proof.
  apply (totalSourceTiles_floor 450 270 100 100); concrete.
Defined.

(** Inside the tile grid of an image every coordinate stays in the image. *)
Lemma grid_bounds (sw sh tw th i : Z) :
  0 < tw -> 0 < th -> 0 <= sw -> 0 <= sh ->
  0 <= i < (sw / tw) * (sh / th) ->
  0 < sh / th /\
  0 <= i / (sh / th) * tw /\ i / (sh / th) * tw + tw <= sw /\
  0 <= i mod (sh / th) * th /\ i mod (sh / th) * th + th <= sh.
Proof.
  intros Htw Hth Hsw Hsh Hi.
  assert (HX : 0 <= sw / tw) by (apply Z.div_pos; lia).
  assert (HY : 0 <= sh / th) by (apply Z.div_pos; lia).
  assert (HYpos : 0 < sh / th) by nia.
  assert (Hq : i / (sh / th) < sw / tw)
    by (apply Z.div_lt_upper_bound; [exact HYpos | nia]).
  assert (Hq0 : 0 <= i / (sh / th)) by (apply Z.div_pos; lia).
  pose proof (Z.mod_pos_bound i (sh / th) HYpos) as Hm.
  pose proof (Z.mul_div_le sw tw Htw) as Hxw.
  pose proof (Z.mul_div_le sh th Hth) as Hyh.
  repeat split; nia.
Qed.

Lemma grid_rect_fits (sw sh tw th i : Z) :
  is_int sw -> is_int sh ->
  0 < tw -> 0 < th -> 0 <= sw -> 0 <= sh ->
  0 <= i < (sw / tw) * (sh / th) ->
  Lesson5.rect_fits tw th i (sh / th).
Proof.
  intros Hsw Hsh Htw Hth H0w H0h Hi.
  destruct (grid_bounds sw sh tw th i Htw Hth H0w H0h Hi) as (_ & A & B & C & D).
  unfold Lesson5.rect_fits, is_int, INT_MIN, INT_MAX in *. lia.
Qed.

(** The clips loop writes the rectangles of the indices it runs over. *)
Lemma clips_loop_grid (sw sh tw th : Z) :
  is_int sw -> is_int sh ->
  0 < tw -> 0 < th -> 0 <= sw -> 0 <= sh ->
  is_int ((sw / tw) * (sh / th)) ->
  forall (n : nat) (i : Z) (acc : list SDL_Rect),
    0 <= i -> i + Z.of_nat n <= (sw / tw) * (sh / th) ->
    Lesson5.clips_loop tw th n i (sh / th) acc =
      Some (acc ++ map (fun k => Lesson5.clip_of tw th (sh / th) (i + Z.of_nat k))
                       (seq 0 n)).
Proof.
  intros Hsw Hsh Htw Hth H0w H0h Htot.
  induction n as [| n IH]; intros i acc Hi Hend.
  - cbn. rewrite app_nil_r. reflexivity.
  - assert (Hin : 0 <= i < (sw / tw) * (sh / th)) by lia.
    assert (Hint : is_int i) by (unfold is_int, INT_MIN, INT_MAX in *; lia).
    pose proof (grid_bounds sw sh tw th i Htw Hth H0w H0h Hin) as (HY & _).
    cbn [Lesson5.clips_loop].
    rewrite (sourceTileRect_eval tw th i (sh / th) Hint Hi HY
               (grid_rect_fits sw sh tw th i Hsw Hsh Htw Hth H0w H0h Hin)).
    cbn [bind]. unfold add. rewrite checked_int
      by (unfold is_int, INT_MIN, INT_MAX in *; lia).
    cbn [bind]. rewrite IH by lia.
    rewrite <- app_assoc. cbn [app seq map].
    rewrite Z.add_0_r. f_equal. f_equal. f_equal. fold (Lesson5.clip_of tw th (sh / th) i).
    rewrite <- seq_shift, map_map.
    apply map_ext. intros k. f_equal. lia.
Qed.

Lemma build_clips_grid (sw sh tw th : Z) :
  is_int sw -> is_int sh ->
  0 < tw -> 0 < th -> 0 <= sw -> 0 <= sh ->
  is_int ((sw / tw) * (sh / th)) ->
  0 < (sw / tw) * (sh / th) ->
  Lesson5.build_clips tw th sw sh =
    Some (map (fun k => Lesson5.clip_of tw th (sh / th) (Z.of_nat k))
              (seq 0 (Z.to_nat ((sw / tw) * (sh / th))))).
Proof.
  intros Hsw Hsh Htw Hth H0w H0h Htot Hpos.
  assert (HX : 0 <= sw / tw) by (apply Z.div_pos; lia).
  assert (HY : 0 <= sh / th) by (apply Z.div_pos; lia).
  unfold Lesson5.build_clips, Lesson5.xTiles, Lesson5.yTiles.
  rewrite (div_floor sw tw), (div_floor sh th) by (assumption || lia).
  cbn [bind]. rewrite (mul_int _ _ Htot). cbn [bind].
  destruct (Z.leb_spec (sw / tw * (sh / th)) 0) as [Hneg | _]; [lia |].
  rewrite (clips_loop_grid sw sh tw th) by (assumption || lia || nia).
  reflexivity.
Qed.

(** C3. For tile width and height > 0, a source image at least one tile wide
    and high, and every index in [0, totalSourceTiles), the rectangle of the
    clips loop exists, is the one stored in the clips array at that index,
    and lies within the source image: x + w <= sourceWidth and
    y + h <= sourceHeight. *)
Theorem sourceTileRect_within_image
    (sourceWidth sourceHeight tileWidth tileHeight total index : Z) :
  is_int sourceWidth -> is_int sourceHeight ->
  0 < tileWidth -> 0 < tileHeight ->
  tileWidth <= sourceWidth -> tileHeight <= sourceHeight ->
  Lesson5.totalSourceTiles tileWidth tileHeight sourceWidth sourceHeight = Some total ->
  0 <= index < total ->
  exists (rowsPerColumn : Z) (r : SDL_Rect) (clips : list SDL_Rect),
    Lesson5.yTiles tileHeight sourceHeight = Some rowsPerColumn /\
    Lesson5.sourceTileRect tileWidth tileHeight index rowsPerColumn = Some r /\
    Lesson5.build_clips tileWidth tileHeight sourceWidth sourceHeight = Some clips /\
    nth_error clips (Z.to_nat index) = Some r /\
    x r + w r <= sourceWidth /\
    y r + h r <= sourceHeight.
Proof.
  intros Hsw Hsh Htw Hth Hw Hh Htotal Hidx.
  assert (H0w : 0 <= sourceWidth) by lia.
  assert (H0h : 0 <= sourceHeight) by lia.
  unfold Lesson5.totalSourceTiles, Lesson5.xTiles, Lesson5.yTiles in Htotal.
  rewrite (div_floor sourceWidth tileWidth),
          (div_floor sourceHeight tileHeight) in Htotal by (assumption || lia).
  cbn [bind] in Htotal. apply checked_Some in Htotal. destruct Htotal as [-> Hint].
  pose proof (grid_bounds _ _ _ _ _ Htw Hth H0w H0h Hidx) as (HY & _ & Hx & _ & Hy).
  exists (sourceHeight / tileHeight),
         (Lesson5.clip_of tileWidth tileHeight (sourceHeight / tileHeight) index),
         (map (fun k => Lesson5.clip_of tileWidth tileHeight
                          (sourceHeight / tileHeight) (Z.of_nat k))
              (seq 0 (Z.to_nat ((sourceWidth / tileWidth) *
                                (sourceHeight / tileHeight))))).
  split; [| split; [| split; [| split; [| split]]]].
  - unfold Lesson5.yTiles. apply div_floor; assumption || lia.
  - apply sourceTileRect_eval; try lia.
    + unfold is_int, INT_MIN, INT_MAX in *. lia.
    + apply (grid_rect_fits sourceWidth sourceHeight); assumption.
  - apply build_clips_grid; assumption || lia.
  - rewrite nth_error_map, nth_error_seq.
    destruct (Nat.ltb_spec (Z.to_nat index)
                (Z.to_nat (sourceWidth / tileWidth * (sourceHeight / tileHeight))))
      as [_ | Hge]; [| lia].
    cbn. rewrite Z2Nat.id by lia. reflexivity.
  - cbn. exact Hx.
  - cbn. exact Hy.
Qed.

Lemma sourceTileRect_within_image_witness :
  exists (rowsPerColumn : Z) (r : SDL_Rect) (clips : list SDL_Rect),
    Lesson5.yTiles 100 200 = Some rowsPerColumn /\
    Lesson5.sourceTileRect 100 100 7 rowsPerColumn = Some r /\
    Lesson5.build_clips 100 100 400 200 = Some clips /\
    nth_error clips (Z.to_nat 7) = Some r /\
    x r + w r <= 400 /\
    y r + h r <= 200.
Proof.
  apply (sourceTileRect_within_image 400 200 100 100 8 7); concrete.
Defined.

(** *** Screen tiles *)

(** The rounded-up tile count exists for every positive extent and tile
    size, and reaches the extent. *)
Lemma screenTiles_ceil (extent tile : Z) :
  is_int extent -> 0 < extent -> 0 < tile ->
  Lesson5.screenTiles extent tile =
    Some (extent / tile + (if extent mod tile =? 0 then 0 else 1)) /\
  (extent / tile + (if extent mod tile =? 0 then 0 else 1)) * tile >= extent.
Proof.
  intros He H0 Ht.
  pose proof (Z.div_mod extent tile ltac:(lia)) as Hdm.
  pose proof (Z.mod_pos_bound extent tile Ht) as Hm.
  assert (Hq : 0 <= extent / tile) by (apply Z.div_pos; lia).
  split.
  - unfold Lesson5.screenTiles.
    rewrite (div_floor extent tile), (rem_floor extent tile) by (assumption || lia).
    cbn [bind]. unfold add.
    destruct (Z.eqb_spec (extent mod tile) 0) as [E | E]; cbn [negb].
    + apply checked_int. unfold is_int, INT_MIN, INT_MAX in *. nia.
    + apply checked_int. unfold is_int, INT_MIN, INT_MAX in *.
      assert (2 <= tile) by lia. nia.
  - destruct (Z.eqb_spec (extent mod tile) 0) as [E | E]; nia.
Qed.

(** C4. For display width and height and tile width and height > 0, the
    screen tile counts, rounded up on a remainder, exist and cover the
    display: columns * tileWidth >= displayWidth and
    rows * tileHeight >= displayHeight. *)
Theorem screen_tiles_cover (displayWidth displayHeight tileWidth tileHeight : Z) :
  is_int displayWidth -> is_int displayHeight ->
  0 < displayWidth -> 0 < displayHeight ->
  0 < tileWidth -> 0 < tileHeight ->
  exists columns rows : Z,
    Lesson5.xScreenTiles tileWidth displayWidth = Some columns /\
    Lesson5.yScreenTiles tileHeight displayHeight = Some rows /\
    columns = displayWidth / tileWidth
              + (if displayWidth mod tileWidth =? 0 then 0 else 1) /\
    rows = displayHeight / tileHeight
           + (if displayHeight mod tileHeight =? 0 then 0 else 1) /\
    columns * tileWidth >= displayWidth /\
    rows * tileHeight >= displayHeight.
Proof.
  intros Hdw Hdh H0w H0h Htw Hth.
  destruct (screenTiles_ceil displayWidth tileWidth Hdw H0w Htw) as [Ec Hc].
  destruct (screenTiles_ceil displayHeight tileHeight Hdh H0h Hth) as [Er Hr].
  eexists. eexists.
  split; [exact Ec |]. split; [exact Er |].
  split; [reflexivity |]. split; [reflexivity |].
  split; assumption.
Qed.

Lemma screen_tiles_cover_witness :
  exists columns rows : Z,
    Lesson5.xScreenTiles 100 640 = Some columns /\
    Lesson5.yScreenTiles 100 480 = Some rows /\
    columns = 640 / 100 + (if 640 mod 100 =? 0 then 0 else 1) /\
    rows = 480 / 100 + (if 480 mod 100 =? 0 then 0 else 1) /\
    columns * 100 >= 640 /\
    rows * 100 >= 480.
Proof.
  apply (screen_tiles_cover 640 480 100 100); concrete.
Defined.

(** *** Neighbouring source tiles *)

Lemma next_in_column (i rpc : Z) :
  0 <= i -> 0 < rpc -> i mod rpc <> rpc - 1 ->
  (i + 1) / rpc = i / rpc /\ (i + 1) mod rpc = i mod rpc + 1.
Proof.
  intros Hi Hr Hne.
  pose proof (Z.div_mod i rpc ltac:(lia)) as Hdm.
  pose proof (Z.mod_pos_bound i rpc Hr) as Hm.
  assert (Hq : (i + 1) / rpc = i / rpc).
  { symmetry. apply (Z.div_unique (i + 1) rpc (i / rpc) (i mod rpc + 1)); lia. }
  split; [exact Hq |].
  symmetry. apply (Z.mod_unique (i + 1) rpc (i / rpc) (i mod rpc + 1)); lia.
Qed.

Lemma next_column (i rpc : Z) :
  0 <= i -> 0 < rpc -> i mod rpc = rpc - 1 ->
  (i + 1) / rpc = i / rpc + 1 /\ (i + 1) mod rpc = 0.
Proof.
  intros Hi Hr He.
  pose proof (Z.div_mod i rpc ltac:(lia)) as Hdm.
  assert (Hq : (i + 1) / rpc = i / rpc + 1).
  { symmetry. apply (Z.div_unique (i + 1) rpc (i / rpc + 1) 0); lia. }
  split; [exact Hq |].
  symmetry. apply (Z.mod_unique (i + 1) rpc (i / rpc + 1) 0); lia.
Qed.

(** C5. For every [int] index >= 0 (index + 1 an [int] too) with
    rowsPerColumn > 0: when index % rowsPerColumn != rowsPerColumn - 1 the
    rectangle of index + 1 is that of index with y increased by tileHeight
    and x unchanged; when index % rowsPerColumn = rowsPerColumn - 1 it has x
    increased by tileWidth and y = 0.  Both rectangles exist whenever their
    coordinates are [int] values, and the relation holds between any two
    rectangles the code yields. *)
Theorem sourceTileRect_column_major (index tileWidth tileHeight rowsPerColumn : Z) :
  0 <= index -> index + 1 <= INT_MAX -> 0 < rowsPerColumn ->
  (Lesson5.rect_fits tileWidth tileHeight index rowsPerColumn ->
   Lesson5.rect_fits tileWidth tileHeight (index + 1) rowsPerColumn ->
   exists r r' : SDL_Rect,
     Lesson5.sourceTileRect tileWidth tileHeight index rowsPerColumn = Some r /\
     Lesson5.sourceTileRect tileWidth tileHeight (index + 1) rowsPerColumn = Some r') /\
  (forall r r' : SDL_Rect,
     Lesson5.sourceTileRect tileWidth tileHeight index rowsPerColumn = Some r ->
     Lesson5.sourceTileRect tileWidth tileHeight (index + 1) rowsPerColumn = Some r' ->
     (index mod rowsPerColumn <> rowsPerColumn - 1 ->
        x r' = x r /\ y r' = y r + tileHeight /\ w r' = w r /\ h r' = h r) /\
     (index mod rowsPerColumn = rowsPerColumn - 1 ->
        x r' = x r + tileWidth /\ y r' = 0 /\ w r' = w r /\ h r' = h r)).
Proof.
  intros Hi Hmax Hr. unfold INT_MAX in Hmax. split.
  - intros Hfit Hfit'. eexists. eexists. split.
    + apply sourceTileRect_eval;
        [unfold is_int, INT_MIN, INT_MAX; lia | lia | lia | exact Hfit].
    + apply sourceTileRect_eval;
        [unfold is_int, INT_MIN, INT_MAX; lia | lia | lia | exact Hfit'].
  - intros r r' H H'.
    apply sourceTileRect_Some in H; [| lia ..]. destruct H as [-> _].
    apply sourceTileRect_Some in H'; [| lia ..]. destruct H' as [-> _].
    cbn [x y w h]. split; intros Hcase.
    + destruct (next_in_column index rowsPerColumn Hi Hr Hcase) as [-> ->].
      repeat split; lia.
    + destruct (next_column index rowsPerColumn Hi Hr Hcase) as [-> ->].
      repeat split; lia.
Qed.

Lemma sourceTileRect_column_major_witness :
  (exists r r' : SDL_Rect,
     Lesson5.sourceTileRect 100 100 1 2 = Some r /\
     Lesson5.sourceTileRect 100 100 (1 + 1) 2 = Some r') /\
  (forall r r' : SDL_Rect,
     Lesson5.sourceTileRect 100 100 1 2 = Some r ->
     Lesson5.sourceTileRect 100 100 (1 + 1) 2 = Some r' ->
     x r' = x r + 100 /\ y r' = 0 /\ w r' = w r /\ h r' = h r).
Proof.
  destruct (sourceTileRect_column_major 1 100 100 2) as [Hex Hrel];
    [lia | unfold INT_MAX; lia | lia |].
  split.
  - apply Hex; concrete.
  - intros r r' H H'. apply (Hrel r r' H H'). reflexivity.
Defined.

(** *** A source image smaller than a tile *)



(** With no tile the clips array itself, [SDL_Rect clips[0]], is not
    defined. *)
Lemma clips_array_needs_a_tile (sw sh tw th : Z) :
  Lesson5.totalSourceTiles tw th sw sh = Some 0 ->
  Lesson5.build_clips tw th sw sh = None.
Proof.
  unfold Lesson5.totalSourceTiles, Lesson5.build_clips. intros H.
  destruct (Lesson5.xTiles tw sw) as [xt |]; [| reflexivity]. cbn [bind] in *.
  destruct (Lesson5.yTiles th sh) as [yt |]; [| reflexivity]. cbn [bind] in *.
  rewrite H. reflexivity.
Qed.

(** *** Placement of screen tiles *)

Lemma screenTileOrigin_eval (tw th i rows : Z) :
  is_int i -> 0 <= i -> 0 < rows -> Lesson5.rect_fits tw th i rows ->
  Lesson5.screenTileOrigin tw th i rows = Some (i / rows * tw, i mod rows * th).
Proof.
  intros Hi H0 Hr [Hx Hy]. unfold Lesson5.screenTileOrigin.
  rewrite (div_floor i rows Hi H0 Hr). cbn [bind].
  rewrite (mul_int _ _ Hx). cbn [bind].
  rewrite (rem_floor i rows Hi H0 Hr). cbn [bind].
  rewrite (mul_int _ _ Hy). reflexivity.
Qed.

Lemma backgroundTileOrigin_eval (i columns : Z) :
  is_int i -> 0 <= i -> 0 < columns -> Lesson3.origin_fits i columns ->
  Lesson3.backgroundTileOrigin i columns =
    Some (i mod columns * Lesson3.TILE_SIZE, i / columns * Lesson3.TILE_SIZE).
Proof.
  intros Hi H0 Hc [Hx Hy]. unfold Lesson3.backgroundTileOrigin.
  rewrite (rem_floor i columns Hi H0 Hc). cbn [bind].
  rewrite (div_floor i columns Hi H0 Hc). cbn [bind].
  rewrite (mul_int _ _ Hx). cbn [bind].
  rewrite (mul_int _ _ Hy). reflexivity.
Qed.

(** C6, as stated, fails on Lesson 3: its background loop runs over a grid
    of 16 columns and 12 rows and draws tile 1 at (40, 0), to the right of
    tile 0, where the column-major placement puts it at (0, 40), below. *)
Lemma lesson3_not_column_major :
  Lesson3.xTiles = Some 16 /\
  Lesson3.yTiles = Some 12 /\
  Lesson3.backgroundTileOrigin 1 16 = Some (40, 0) /\
  Lesson3.backgroundTileOrigin 1 16 <>
    Some ((1 / 12) * Lesson3.TILE_SIZE, (1 mod 12) * Lesson3.TILE_SIZE) /\
  (exists log, Lesson3.draw_background [] = Some log /\
     nth_error log 1 = Some (SDL_RenderCopy None (mkRect 40 0 40 40))).
Proof.
  split; [reflexivity |]. split; [reflexivity |]. split; [reflexivity |].
  split; [vm_compute; intro H; discriminate H |].
  eexists. split; [vm_compute; reflexivity | reflexivity].
Qed.

(** C6, amended. For every [int] index >= 0 whose coordinates are
    representable: the screen loop of Lesson 5 places tile index
    column-major, at x = (index / rowsPerScreen) * tileWidth and
    y = (index % rowsPerScreen) * tileHeight, for rowsPerScreen > 0; the
    background loop of Lesson 3 places it row-major, at
    x = (index % columns) * TILE_SIZE and y = (index / columns) * TILE_SIZE,
    for columns > 0. *)
Theorem screen_tile_placement (index tileWidth tileHeight rowsPerScreen columns : Z) :
  is_int index -> 0 <= index ->
  0 < rowsPerScreen -> 0 < columns ->
  Lesson5.rect_fits tileWidth tileHeight index rowsPerScreen ->
  Lesson3.origin_fits index columns ->
  Lesson5.screenTileOrigin tileWidth tileHeight index rowsPerScreen =
    Some ((index / rowsPerScreen) * tileWidth,
          (index mod rowsPerScreen) * tileHeight) /\
  Lesson3.backgroundTileOrigin index columns =
    Some ((index mod columns) * Lesson3.TILE_SIZE,
          (index / columns) * Lesson3.TILE_SIZE).
Proof.
  intros Hi H0 Hr Hc Hfit5 Hfit3. split.
  - apply screenTileOrigin_eval; assumption.
  - apply backgroundTileOrigin_eval; assumption.
Qed.

Lemma screen_tile_placement_witness :
  Lesson5.screenTileOrigin 100 100 7 5 = Some ((7 / 5) * 100, (7 mod 5) * 100) /\
  Lesson3.backgroundTileOrigin 7 16 =
    Some ((7 mod 16) * Lesson3.TILE_SIZE, (7 / 16) * Lesson3.TILE_SIZE).
Proof.
  apply (screen_tile_placement 7 100 100 5 16); concrete.
Defined.

(** *** Cleanup of handles *)

Section CleanupFacts.

Import Cleanup.

Lemma cleanup1_calls (t : Handle) (calls : list SDLCall) :
  cleanup1 t calls = calls ++ (if is_null t then [] else [release t]).
Proof.
  destruct t as [p | p | p | p]; cbn;
    [unfold cleanup_SDL_Window | unfold cleanup_SDL_Renderer
    | unfold cleanup_SDL_Texture | unfold cleanup_SDL_Surface];
    destruct (p =? nullptr); now rewrite ?app_nil_r.
Qed.

Lemma cleanup_calls (args : list Handle) :
  forall (t : Handle) (calls : list SDLCall),
    cleanup args t calls = calls ++ map release (filter live (t :: args)).
Proof.
  induction args as [| a rest IH]; intros t calls.
  - cbn [cleanup filter]. rewrite cleanup1_calls. unfold live.
    destruct (is_null t); reflexivity.
  - cbn [cleanup]. rewrite IH, cleanup1_calls.
    rewrite <- app_assoc. f_equal.
    change (filter live (t :: a :: rest))
      with (if live t then t :: filter live (a :: rest)
            else filter live (a :: rest)).
    unfold live. destruct (is_null t); reflexivity.
Qed.

Lemma release_inj (a b : Handle) : release a = release b -> a = b.
Proof. destruct a, b; cbn; intros H; inversion H; reflexivity. Qed.

Lemma count_release (l : list Handle) (t : Handle) :
  count_occ SDLCall_eq_dec (map release l) (release t) =
  count_occ Handle_eq_dec l t.
Proof.
  induction l as [| a l IH]; [reflexivity |].
  cbn [map count_occ].
  destruct (SDLCall_eq_dec (release a) (release t)) as [E | E];
    destruct (Handle_eq_dec a t) as [E' | E'].
  - now rewrite IH.
  - apply release_inj in E. contradiction.
  - subst a. contradiction.
  - exact IH.
Qed.

Lemma count_live (l : list Handle) (t : Handle) :
  count_occ Handle_eq_dec (filter live l) t =
  if is_null t then 0%nat else count_occ Handle_eq_dec l t.
Proof.
  induction l as [| a l IH].
  - cbn. destruct (is_null t); reflexivity.
  - cbn [filter count_occ]. unfold live at 1.
    destruct (is_null a) eqn:Ea; cbn [negb].
    + rewrite IH. destruct (Handle_eq_dec a t) as [-> | _]; [| reflexivity].
      rewrite Ea. reflexivity.
    + cbn [count_occ]. rewrite IH.
      destruct (Handle_eq_dec a t) as [-> | _]; [| reflexivity].
      rewrite Ea. reflexivity.
Qed.

End CleanupFacts.

(** C9. For every list of handles [t, args...] passed to [cleanup], the SDL
    release calls it makes are exactly those of the non-null handles of the
    list, one per handle and in list order; so a non-null handle is released
    once for each place it has in the list, exactly once when the handles
    of the list are distinct, and a null handle is never released, whatever
    the order and mixture of the handles. *)
Theorem cleanup_releases_live_handles
    (t : Cleanup.Handle) (args : list Cleanup.Handle) (calls : list Cleanup.SDLCall) :
  Cleanup.cleanup args t calls =
    calls ++ map Cleanup.release (filter Cleanup.live (t :: args)) /\
  length (Cleanup.cleanup args t []) = length (filter Cleanup.live (t :: args)) /\
  (forall a : Cleanup.Handle,
     count_occ Cleanup.SDLCall_eq_dec (Cleanup.cleanup args t []) (Cleanup.release a) =
     if Cleanup.is_null a then 0%nat
     else count_occ Cleanup.Handle_eq_dec (t :: args) a) /\
  (NoDup (t :: args) ->
   forall a : Cleanup.Handle,
     In a (t :: args) ->
     count_occ Cleanup.SDLCall_eq_dec (Cleanup.cleanup args t []) (Cleanup.release a) =
     if Cleanup.is_null a then 0%nat else 1%nat).
Proof.
  split; [apply cleanup_calls |].
  rewrite cleanup_calls. cbn [app]. split; [| split].
  - apply length_map.
  - intros a. rewrite count_release. apply count_live.
  - intros Hnd a Hin. rewrite count_release, count_live.
    destruct (Cleanup.is_null a); [reflexivity |].
    apply (proj1 (NoDup_count_occ' Cleanup.Handle_eq_dec (t :: args)) Hnd a Hin).
Qed.

(** *** The event loop of Lesson 5 *)

Lemma screenTileOrigin_Some (tw th i rows : Z) (o : Z * Z) :
  Lesson5.screenTileOrigin tw th i rows = Some o ->
  0 <= i -> 0 < rows ->
  o = (i / rows * tw, i mod rows * th).
Proof.
  unfold Lesson5.screenTileOrigin. intros H Hi Hr.
  apply bind_Some in H. destruct H as (q & Hq & H).
  apply bind_Some in H. destruct H as (px & Hpx & H).
  apply bind_Some in H. destruct H as (r & Hrm & H).
  apply bind_Some in H. destruct H as (py & Hpy & H).
  injection H as <-.
  apply div_Some in Hq; [| assumption ..]. apply rem_Some in Hrm; [| assumption ..].
  apply checked_inv in Hpx. apply checked_inv in Hpy. subst. reflexivity.
Qed.

Lemma copy_origins_app (l1 l2 : list RenderCall) :
  Lesson5.copy_origins (l1 ++ l2) =
  Lesson5.copy_origins l1 ++ Lesson5.copy_origins l2.
Proof.
  induction l1 as [| c l1 IH]; [reflexivity |].
  destruct c; cbn; rewrite IH; reflexivity.
Qed.

(** The screen loop touches nothing but the renderer, and what it draws is
    placed by the loop index alone. *)
Lemma screen_loop_spec (rows : Z) :
  0 < rows ->
  forall (n : nat) (i : Z) (st st' : Lesson5.State),
    0 <= i ->
    Lesson5.screen_loop n i rows st = Some st' ->
    Lesson5.imageW st' = Lesson5.imageW st /\
    Lesson5.imageH st' = Lesson5.imageH st /\
    Lesson5.clips st' = Lesson5.clips st /\
    Lesson5.useClip st' = Lesson5.useClip st /\
    Lesson5.quit st' = Lesson5.quit st /\
    exists calls,
      Lesson5.screen st' = Lesson5.screen st ++ calls /\
      Lesson5.copy_origins calls =
        map (fun k => ((i + Z.of_nat k) / rows * Lesson5.tileW,
                       (i + Z.of_nat k) mod rows * Lesson5.tileH))
            (seq 0 n).
Proof.
  intros Hr. induction n as [| n IH]; intros i st st' Hi H.
  - cbn in H. injection H as <-. repeat split.
    exists []. rewrite app_nil_r. split; reflexivity.
  - cbn [Lesson5.screen_loop] in H.
    apply bind_Some in H. destruct H as (o & Ho & H).
    apply bind_Some in H. destruct H as (c & Hc & H).
    apply bind_Some in H. destruct H as (i' & Hi' & H).
    apply checked_inv in Hi'. subst i'.
    apply (screenTileOrigin_Some _ _ _ _ _ Ho Hi) in Hr as Eo.
    apply IH in H; [| lia].
    destruct H as (A & B & C & D & E & calls & Hs & Hco).
    cbn in A, B, C, D, E, Hs.
    repeat (split; [assumption |]).
    unfold Lesson5.renderTexture, Lesson5.renderTexture_dst in Hs.
    rewrite <- app_assoc in Hs.
    eexists. split; [exact Hs |].
    cbn [app Lesson5.copy_origins x y seq map]. rewrite Hco, Eo. cbn [fst snd].
    rewrite Z.add_0_r. f_equal.
    rewrite <- seq_shift, map_map. apply map_ext. intros k.
    replace (i + 1 + Z.of_nat k) with (i + Z.of_nat (S k)) by lia. reflexivity.
Qed.

Lemma screen_loop_total (n : nat) :
  forall (i : Z) (st : Lesson5.State) (c : SDL_Rect),
    0 <= i -> i + Z.of_nat n <= 35 ->
    Lesson5.clip_at (Lesson5.clips st) (Lesson5.useClip st) = Some c ->
    exists st', Lesson5.screen_loop n i 5 st = Some st'.
Proof.
  induction n as [| n IH]; intros i st c Hi Hn Hc.
  - eexists. reflexivity.
  - cbn [Lesson5.screen_loop].
    assert (Hq : 0 <= i / 5 <= 7).
    { split; [apply Z.div_pos; lia |].
      apply Z.div_le_upper_bound; lia. }
    pose proof (Z.mod_pos_bound i 5 ltac:(lia)) as Hm.
    rewrite (screenTileOrigin_eval Lesson5.tileW Lesson5.tileH i 5).
    + cbn [bind]. rewrite Hc. cbn [bind]. unfold add.
      rewrite checked_int by (unfold is_int, INT_MIN, INT_MAX; lia).
      cbn [bind]. apply (IH (i + 1) _ c); [lia | lia | exact Hc].
    + unfold is_int, INT_MIN, INT_MAX. lia.
    + exact Hi.
    + lia.
    + unfold Lesson5.rect_fits, Lesson5.tileW, Lesson5.tileH, is_int,
        INT_MIN, INT_MAX. lia.
Qed.

(** A frame is drawn whenever the selected clip exists. *)
Lemma render_frame_total (st : Lesson5.State) (c : SDL_Rect) :
  Lesson5.clip_at (Lesson5.clips st) (Lesson5.useClip st) = Some c ->
  exists st', Lesson5.render_frame st = Some st'.
Proof.
  intros Hc. unfold Lesson5.render_frame.
  change (Lesson5.yScreenTiles Lesson5.tileH Lesson5.SCREEN_HEIGHT) with (Some 5).
  change (Lesson5.totalScreenTiles Lesson5.tileW Lesson5.tileH
            Lesson5.SCREEN_WIDTH Lesson5.SCREEN_HEIGHT) with (Some 35).
  cbn [bind].
  destruct (screen_loop_total (Z.to_nat 35) 0
              (Lesson5.set_screen (Lesson5.screen st ++ [SDL_RenderClear]) st) c)
    as [st1 H1]; [lia | lia | exact Hc |].
  rewrite H1. cbn [bind]. eexists. reflexivity.
Qed.

(** A frame changes no variable of [main]; it appends to the calls of the
    renderer, and the destinations of its copies are [frame_origins]. *)
Lemma render_frame_spec (st st' : Lesson5.State) :
  Lesson5.render_frame st = Some st' ->
  Lesson5.imageW st' = Lesson5.imageW st /\
  Lesson5.imageH st' = Lesson5.imageH st /\
  Lesson5.clips st' = Lesson5.clips st /\
  Lesson5.useClip st' = Lesson5.useClip st /\
  Lesson5.quit st' = Lesson5.quit st /\
  exists calls,
    Lesson5.screen st' = Lesson5.screen st ++ calls /\
    Lesson5.copy_origins calls = Lesson5.frame_origins.
Proof.
  unfold Lesson5.render_frame.
  change (Lesson5.yScreenTiles Lesson5.tileH Lesson5.SCREEN_HEIGHT) with (Some 5).
  change (Lesson5.totalScreenTiles Lesson5.tileW Lesson5.tileH
            Lesson5.SCREEN_WIDTH Lesson5.SCREEN_HEIGHT) with (Some 35).
  cbn [bind]. intros H.
  apply bind_Some in H. destruct H as (st1 & H1 & H). injection H as <-.
  apply (screen_loop_spec 5 ltac:(lia)) in H1; [| lia].
  destruct H1 as (A & B & C & D & E & calls & Hs & Hco).
  cbn in A, B, C, D, E, Hs. cbn.
  repeat (split; [assumption |]).
  exists (SDL_RenderClear :: calls ++ [SDL_RenderPresent]).
  split.
  - rewrite Hs, <- !app_assoc. reflexivity.
  - cbn [Lesson5.copy_origins]. rewrite copy_origins_app, Hco.
    cbn [Lesson5.copy_origins]. rewrite app_nil_r. reflexivity.
Qed.

Lemma clips_loop_length (tw th rpc : Z) (n : nat) :
  forall (i : Z) (acc cl : list SDL_Rect),
    Lesson5.clips_loop tw th n i rpc acc = Some cl ->
    length cl = (length acc + n)%nat.
Proof.
  induction n as [| n IH]; intros i acc cl H.
  - cbn in H. injection H as <-. lia.
  - cbn [Lesson5.clips_loop] in H.
    apply bind_Some in H. destruct H as (r & _ & H).
    apply bind_Some in H. destruct H as (i' & _ & H).
    apply IH in H. rewrite length_app in H. cbn in H. lia.
Qed.

(** The clips array has as many entries as the image has tiles. *)
Lemma build_clips_length (tw th iw ih : Z) (cl : list SDL_Rect) :
  Lesson5.build_clips tw th iw ih = Some cl ->
  Lesson5.totalSourceTiles tw th iw ih = Some (Z.of_nat (length cl)).
Proof.
  unfold Lesson5.build_clips, Lesson5.totalSourceTiles. intros H.
  apply bind_Some in H. destruct H as (xt & Hxt & H).
  apply bind_Some in H. destruct H as (yt & Hyt & H).
  apply bind_Some in H. destruct H as (total & Htot & H).
  rewrite Hxt, Hyt. cbn [bind]. rewrite Htot.
  destruct (Z.leb_spec total 0) as [| Hge]; [discriminate |].
  apply clips_loop_length in H. cbn in H. rewrite H, Z2Nat.id by lia.
  reflexivity.
Qed.

Lemma handle_event_cases (e : Lesson5.SDL_Event) (st : Lesson5.State) :
  Lesson5.imageW (Lesson5.handle_event e st) = Lesson5.imageW st /\
  Lesson5.imageH (Lesson5.handle_event e st) = Lesson5.imageH st /\
  Lesson5.clips (Lesson5.handle_event e st) = Lesson5.clips st /\
  Lesson5.screen (Lesson5.handle_event e st) = Lesson5.screen st /\
  (Lesson5.useClip (Lesson5.handle_event e st) = Lesson5.useClip st \/
   In (Lesson5.useClip (Lesson5.handle_event e st)) [0; 1; 2; 3]).
Proof.
  unfold Lesson5.handle_event.
  repeat match goal with
         | |- context [if ?b then _ else _] => destruct b
         end; cbn; intuition.
Qed.

(** What holds in every state of the event loop. *)
Lemma reachable_inv (iw ih : Z) (st : Lesson5.State) :
  Lesson5.reachable iw ih st ->
  In (Lesson5.useClip st) [0; 1; 2; 3] /\
  Lesson5.build_clips Lesson5.tileW Lesson5.tileH iw ih = Some (Lesson5.clips st) /\
  Lesson5.imageW st = iw /\ Lesson5.imageH st = ih.
Proof.
  induction 1 as [st Hinit | st e _ IH | st st' _ IH Hframe].
  - unfold Lesson5.init in Hinit.
    apply bind_Some in Hinit. destruct Hinit as (cl & Hcl & Hst).
    injection Hst as <-. cbn. intuition.
  - destruct IH as (Hu & Hc & Hw & Hh).
    destruct (handle_event_cases e st) as (A & B & C & _ & D).
    rewrite A, B, C. repeat split; try assumption.
    destruct D as [-> | D]; assumption.
  - destruct IH as (Hu & Hc & Hw & Hh).
    apply render_frame_spec in Hframe.
    destruct Hframe as (A & B & C & D & _).
    rewrite A, B, C, D. repeat split; assumption.
Qed.

Lemma poll_events_reachable (iw ih : Z) (pending : list Lesson5.SDL_Event) :
  forall st, Lesson5.reachable iw ih st ->
             Lesson5.reachable iw ih (Lesson5.poll_events pending st).
Proof.
  induction pending as [| e pending IH]; intros st H; [exact H |].
  cbn. apply IH. apply Lesson5.reach_event. exact H.
Qed.

(** The states of a run of [main] are reachable states. *)
Lemma main_loop_reachable (iw ih : Z) (turns : list (list Lesson5.SDL_Event)) :
  forall st st',
    Lesson5.reachable iw ih st ->
    Lesson5.main_loop turns st = Some st' ->
    Lesson5.reachable iw ih st'.
Proof.
  induction turns as [| pending rest IH]; intros st st' Hr H.
  - cbn in H. injection H as <-. exact Hr.
  - cbn [Lesson5.main_loop] in H. destruct (Lesson5.quit st).
    + injection H as <-. exact Hr.
    + apply bind_Some in H. destruct H as (st1 & Hf & H).
      apply (IH st1 st'); [| exact H].
      apply (Lesson5.reach_frame iw ih (Lesson5.poll_events pending st));
        [apply poll_events_reachable; exact Hr | exact Hf].
Qed.

Lemma clip_at_in_bounds (cl : list SDL_Rect) (u : Z) :
  In u [0; 1; 2; 3] -> (4 <= length cl)%nat ->
  exists r, Lesson5.clip_at cl u = Some r.
Proof.
  intros Hu Hlen. unfold Lesson5.clip_at.
  assert (Hlt : (Z.to_nat u < length cl)%nat).
  { cbn in Hu. destruct Hu as [<- | [<- | [<- | [<- | []]]]]; cbn; lia. }
  assert (Hpos : (u <? 0) = false).
  { cbn in Hu. destruct Hu as [<- | [<- | [<- | [<- | []]]]]; reflexivity. }
  rewrite Hpos.
  destruct (nth_error cl (Z.to_nat u)) as [r |] eqn:E; [eauto |].
  apply nth_error_None in E. lia.
Qed.

(** C10. In every reachable state of the event loop of Lesson 5, [useClip]
    is one of 0, 1, 2, 3: it starts at 0, handling an event leaves it
    unchanged or sets it to one of 0, 1, 2, 3, and drawing a frame leaves it
    unchanged; so [clips[useClip]] is inside the clips array, and the frame
    is drawn, whenever the source image has at least 4 tiles. *)
Theorem useClip_in_bounds (iw ih : Z) (st : Lesson5.State) :
  Lesson5.reachable iw ih st ->
  (forall st0, Lesson5.init iw ih = Some st0 -> Lesson5.useClip st0 = 0) /\
  (forall e,
     Lesson5.useClip (Lesson5.handle_event e st) = Lesson5.useClip st \/
     In (Lesson5.useClip (Lesson5.handle_event e st)) [0; 1; 2; 3]) /\
  (forall st', Lesson5.render_frame st = Some st' ->
               Lesson5.useClip st' = Lesson5.useClip st) /\
  In (Lesson5.useClip st) [0; 1; 2; 3] /\
  (forall total,
     Lesson5.totalSourceTiles Lesson5.tileW Lesson5.tileH iw ih = Some total ->
     4 <= total ->
     (exists r, Lesson5.clip_at (Lesson5.clips st) (Lesson5.useClip st) = Some r) /\
     (exists st', Lesson5.render_frame st = Some st')).
Proof.
  intros Hreach.
  destruct (reachable_inv iw ih st Hreach) as (Hu & Hcl & _ & _).
  split; [| split; [| split; [| split]]].
  - intros st0 H0. unfold Lesson5.init in H0.
    apply bind_Some in H0. destruct H0 as (cl & _ & H0).
    injection H0 as <-. reflexivity.
  - intros e. apply handle_event_cases.
  - intros st' Hf. apply render_frame_spec in Hf. tauto.
  - exact Hu.
  - intros total Htot H4.
    apply build_clips_length in Hcl. rewrite Hcl in Htot.
    injection Htot as <-.
    destruct (clip_at_in_bounds (Lesson5.clips st) (Lesson5.useClip st) Hu)
      as [r Hr]; [lia |].
    split; [exists r; exact Hr |].
    apply (render_frame_total st r Hr).
Qed.

Lemma useClip_in_bounds_witness :
  In (Lesson5.useClip
        (Lesson5.handle_event (Lesson5.mkEvent 768 51)
           (Lesson5.mkState 400 200
              (map (fun k => Lesson5.clip_of 100 100 2 (Z.of_nat k)) (seq 0 8))
              0 false [])))
     [0; 1; 2; 3] /\
  exists st',
    Lesson5.render_frame
      (Lesson5.handle_event (Lesson5.mkEvent 768 51)
         (Lesson5.mkState 400 200
            (map (fun k => Lesson5.clip_of 100 100 2 (Z.of_nat k)) (seq 0 8))
            0 false [])) = Some st'.
Proof.
  destruct (useClip_in_bounds 400 200
              (Lesson5.handle_event (Lesson5.mkEvent 768 51)
                 (Lesson5.mkState 400 200
                    (map (fun k => Lesson5.clip_of 100 100 2 (Z.of_nat k))
                         (seq 0 8))
                    0 false [])))
    as (_ & _ & _ & Hu & Hb).
  - apply Lesson5.reach_event. apply Lesson5.reach_init. vm_compute. reflexivity.
  - split; [exact Hu |].
    apply (Hb 8); [vm_compute; reflexivity | lia].
Defined.

(** *** The layout does not depend on the state of the program *)

(** Every entry of the clips array is the value of [sourceTileRect] at its
    index. *)
Lemma clips_loop_entries (tw th rpc : Z) (n : nat) :
  forall (i : Z) (acc cl : list SDL_Rect),
    Lesson5.clips_loop tw th n i rpc acc = Some cl ->
    exists rs,
      cl = acc ++ rs /\
      forall (k : nat) (r : SDL_Rect),
        nth_error rs k = Some r ->
        Lesson5.sourceTileRect tw th (i + Z.of_nat k) rpc = Some r.
Proof.
  induction n as [| n IH]; intros i acc cl H.
  - cbn in H. injection H as <-. exists []. rewrite app_nil_r.
    split; [reflexivity |]. intros [| k] r Hk; discriminate Hk.
  - cbn [Lesson5.clips_loop] in H.
    apply bind_Some in H. destruct H as (r0 & Hr0 & H).
    apply bind_Some in H. destruct H as (i' & Hi' & H).
    apply checked_inv in Hi'. subst i'.
    apply IH in H. destruct H as (rs & -> & Hrs).
    exists (r0 :: rs). rewrite <- app_assoc. split; [reflexivity |].
    intros [| k] r Hk.
    + cbn in Hk. injection Hk as <-. rewrite Z.add_0_r. exact Hr0.
    + cbn in Hk. apply Hrs in Hk.
      replace (i + Z.of_nat (S k)) with (i + 1 + Z.of_nat k) by lia. exact Hk.
Qed.

Lemma build_clips_entries (tw th iw ih : Z) (cl : list SDL_Rect) :
  Lesson5.build_clips tw th iw ih = Some cl ->
  exists yt,
    Lesson5.yTiles th ih = Some yt /\
    forall (k : nat) (r : SDL_Rect),
      nth_error cl k = Some r ->
      Lesson5.sourceTileRect tw th (Z.of_nat k) yt = Some r.
Proof.
  unfold Lesson5.build_clips. intros H.
  apply bind_Some in H. destruct H as (xt & Hxt & H).
  apply bind_Some in H. destruct H as (yt & Hyt & H).
  apply bind_Some in H. destruct H as (total & Htot & H).
  destruct (total <=? 0); [discriminate |].
  apply clips_loop_entries in H. destruct H as (rs & -> & Hrs).
  exists yt. split; [exact Hyt |]. exact Hrs.
Qed.

(** The destinations of a frame are the values of [screenTileOrigin] at the
    indices 0 .. 34, in a grid of 5 rows. *)
Lemma frame_origins_are_screenTileOrigin :
  Lesson5.yScreenTiles Lesson5.tileH Lesson5.SCREEN_HEIGHT = Some 5 /\
  map (fun k => Lesson5.screenTileOrigin Lesson5.tileW Lesson5.tileH (Z.of_nat k) 5)
      (seq 0 35) = map Some Lesson5.frame_origins.
Proof. split; vm_compute; reflexivity. Qed.

(** C8. The tile layout computations of [main] are functions of their
    inputs alone.  For any two states of the event loop over the same
    image: the clips array is the same, its entries are the values of
    [sourceTileRect] and its length that of [totalSourceTiles]; the frames
    drawn from the two states place their tiles at the same destinations,
    the values of [screenTileOrigin], [totalScreenTiles] of them; and
    drawing a frame changes no variable of [main]: it only adds calls to
    the renderer. *)
Theorem tile_layout_state_independent
    (iw ih : Z) (st1 st2 st1' st2' : Lesson5.State) :
  Lesson5.reachable iw ih st1 ->
  Lesson5.reachable iw ih st2 ->
  Lesson5.render_frame st1 = Some st1' ->
  Lesson5.render_frame st2 = Some st2' ->
  (Lesson5.clips st1 = Lesson5.clips st2 /\
   (exists yt,
      Lesson5.yTiles Lesson5.tileH ih = Some yt /\
      forall (k : nat) (r : SDL_Rect),
        nth_error (Lesson5.clips st1) k = Some r ->
        Lesson5.sourceTileRect Lesson5.tileW Lesson5.tileH (Z.of_nat k) yt = Some r) /\
   Lesson5.totalSourceTiles Lesson5.tileW Lesson5.tileH iw ih =
     Some (Z.of_nat (length (Lesson5.clips st1)))) /\
  (exists calls1 calls2,
     Lesson5.screen st1' = Lesson5.screen st1 ++ calls1 /\
     Lesson5.screen st2' = Lesson5.screen st2 ++ calls2 /\
     Lesson5.copy_origins calls1 = Lesson5.copy_origins calls2 /\
     map Some (Lesson5.copy_origins calls1) =
       map (fun k => Lesson5.screenTileOrigin Lesson5.tileW Lesson5.tileH
                       (Z.of_nat k) 5)
           (seq 0 35) /\
     Lesson5.totalScreenTiles Lesson5.tileW Lesson5.tileH
       Lesson5.SCREEN_WIDTH Lesson5.SCREEN_HEIGHT =
       Some (Z.of_nat (length (Lesson5.copy_origins calls1)))) /\
  (Lesson5.imageW st1' = Lesson5.imageW st1 /\
   Lesson5.imageH st1' = Lesson5.imageH st1 /\
   Lesson5.clips st1' = Lesson5.clips st1 /\
   Lesson5.useClip st1' = Lesson5.useClip st1 /\
   Lesson5.quit st1' = Lesson5.quit st1).
Proof.
  intros Hr1 Hr2 Hf1 Hf2.
  destruct (reachable_inv iw ih st1 Hr1) as (_ & Hc1 & _ & _).
  destruct (reachable_inv iw ih st2 Hr2) as (_ & Hc2 & _ & _).
  apply render_frame_spec in Hf1.
  destruct Hf1 as (A & B & C & D & E & calls1 & Hs1 & Ho1).
  apply render_frame_spec in Hf2.
  destruct Hf2 as (_ & _ & _ & _ & _ & calls2 & Hs2 & Ho2).
  split; [| split].
  - split; [congruence |]. split.
    + apply (build_clips_entries _ _ _ _ _ Hc1).
    + apply (build_clips_length _ _ _ _ _ Hc1).
  - exists calls1, calls2.
    split; [exact Hs1 |]. split; [exact Hs2 |]. split; [congruence |].
    rewrite Ho1. split.
    + symmetry. apply frame_origins_are_screenTileOrigin.
    + vm_compute. reflexivity.
  - repeat split; assumption.
Qed.

Lemma tile_layout_state_independent_witness :
  exists st1 st2 st1' st2' : Lesson5.State,
    Lesson5.useClip st1 <> Lesson5.useClip st2 /\
    Lesson5.render_frame st1 = Some st1' /\
    Lesson5.render_frame st2 = Some st2' /\
    Lesson5.clips st1 = Lesson5.clips st2 /\
    Lesson5.clips st1' = Lesson5.clips st1 /\
    exists calls1 calls2,
      Lesson5.screen st1' = Lesson5.screen st1 ++ calls1 /\
      Lesson5.screen st2' = Lesson5.screen st2 ++ calls2 /\
      Lesson5.copy_origins calls1 = Lesson5.copy_origins calls2.
Proof.
  pose (s0 := Lesson5.mkState 400 200
                (map (fun k => Lesson5.clip_of 100 100 2 (Z.of_nat k)) (seq 0 8))
                0 false []).
  pose (s2 := Lesson5.handle_event (Lesson5.mkEvent 768 51) s0).
  pose (f1 := match Lesson5.render_frame s0 with Some s => s | None => s0 end).
  pose (f2 := match Lesson5.render_frame s2 with Some s => s | None => s2 end).
  assert (H1 : Lesson5.reachable 400 200 s0)
    by (apply Lesson5.reach_init; vm_compute; reflexivity).
  assert (H2 : Lesson5.reachable 400 200 s2)
    by (apply Lesson5.reach_event; exact H1).
  assert (H3 : Lesson5.render_frame s0 = Some f1) by (vm_compute; reflexivity).
  assert (H4 : Lesson5.render_frame s2 = Some f2) by (vm_compute; reflexivity).
  destruct (tile_layout_state_independent 400 200 s0 s2 f1 f2 H1 H2 H3 H4)
    as ((Hc & _ & _) & (calls1 & calls2 & Hs1 & Hs2 & Ho & _ & _) & (_ & _ & Hk & _ & _)).
  exists s0, s2, f1, f2.
  split; [vm_compute; intro H; discriminate H |].
  split; [exact H3 |]. split; [exact H4 |].
  split; [exact Hc |]. split; [exact Hk |].
  exists calls1, calls2. split; [exact Hs1 |]. split; [exact Hs2 | exact Ho].
Defined.

(** ** The scenarios of the specification, evaluated *)

(** A 400 x 200 sprite sheet with 100 x 100 tiles: 8 tiles, numbered down
    the columns. *)
Example source_400x200 :
  Lesson5.totalSourceTiles 100 100 400 200 = Some 8 /\
  Lesson5.sourceTileRect 100 100 0 2 = Some (mkRect 0 0 100 100) /\
  Lesson5.sourceTileRect 100 100 1 2 = Some (mkRect 0 100 100 100) /\
  Lesson5.sourceTileRect 100 100 2 2 = Some (mkRect 100 0 100 100).
Proof. repeat split. Qed.

(** A 640 x 480 display with 100 x 100 tiles: 7 columns, 5 rows, 35 tiles. *)
Example screen_640x480 :
  Lesson5.xScreenTiles 100 640 = Some 7 /\
  Lesson5.yScreenTiles 100 480 = Some 5 /\
  Lesson5.totalScreenTiles 100 100 640 480 = Some 35.
Proof. repeat split. Qed.

(** Beyond the [int] range the tile count has no value: signed overflow. *)
Example source_tiles_overflow :
  Lesson5.totalSourceTiles 1 1 INT_MAX INT_MAX = None.
Proof. reflexivity. Qed.

(** The error path of line 115 of Lesson 5, [cleanup(image, ren, win)] with
    [image] null: the renderer and the window are released, in this order. *)
Example cleanup_after_failed_load :
  Cleanup.cleanup [Cleanup.Renderer 2; Cleanup.Window 3] (Cleanup.Texture 0) [] =
  [Cleanup.SDL_DestroyRenderer 2; Cleanup.SDL_DestroyWindow 3].
Proof. reflexivity. Qed.

(** A run of [main]: key 3 is pressed in the first turn, the window is
    closed in the second; two frames are drawn, with clip 2 selected. *)
Example main_loop_run :
  exists st0 st,
    Lesson5.init 400 200 = Some st0 /\
    Lesson5.main_loop
      [[Lesson5.mkEvent Lesson5.SDL_KEYDOWN Lesson5.SDLK_3];
       [Lesson5.mkEvent Lesson5.SDL_QUIT 0];
       [Lesson5.mkEvent Lesson5.SDL_KEYDOWN Lesson5.SDLK_1]] st0 = Some st /\
    Lesson5.useClip st = 2 /\
    Lesson5.quit st = true /\
    length (Lesson5.copy_origins (Lesson5.screen st)) = 70%nat.
Proof.
  eexists. eexists. split; [vm_compute; reflexivity |].
  split; [vm_compute; reflexivity |]. repeat split.
Qed.

(** ** The resource directory of res_path.h *)

Section ResPathFacts.

Import String.
Local Open Scope string_scope.

Lemma prefix_empty (n : string) : prefix n "" = true -> n = "".
Proof. destruct n; [reflexivity | discriminate]. Qed.

Lemma substring_skip (c : ascii) (s : string) (q m : nat) :
  substring (S q) m (String c s) = substring q m s.
Proof. reflexivity. Qed.

Lemma substring_empty (q m : nat) : substring q m "" = "".
Proof. destruct q, m; reflexivity. Qed.

(** [rfind] returns the last occurrence, and [None] when there is none. *)
Lemma rfind_spec (needle : string) :
  needle <> "" ->
  forall s : string,
    match ResPath.rfind s needle with
    | Some p =>
        substring p (length needle) s = needle /\
        forall q, (p < q)%nat -> substring q (length needle) s <> needle
    | None => forall q, substring q (length needle) s <> needle
    end.
Proof.
  intros Hne. induction s as [| c s IH].
  - cbn [ResPath.rfind]. destruct (prefix needle "") eqn:E.
    + apply prefix_empty in E. contradiction.
    + intros q. rewrite substring_empty. congruence.
  - cbn [ResPath.rfind]. destruct (ResPath.rfind s needle) as [p |].
    + destruct IH as [Hocc Hlast]. split.
      * rewrite substring_skip. exact Hocc.
      * intros [| q] Hq; [lia |]. rewrite substring_skip. apply Hlast. lia.
    + destruct (prefix needle (String c s)) eqn:E.
      * split.
        -- apply prefix_correct. exact E.
        -- intros [| q] Hq; [lia |]. rewrite substring_skip. apply IH.
      * intros [| q].
        -- intros H. apply prefix_correct in H. congruence.
        -- rewrite substring_skip. apply IH.
Qed.

Lemma prefix_split (n s : string) :
  prefix n s = true -> exists post, s = n ++ post.
Proof.
  revert s. induction n as [| c n IH]; intros s H.
  - exists s. reflexivity.
  - destruct s as [| d s]; [discriminate |]. cbn in H.
    destruct (ascii_dec c d) as [-> | _]; [| discriminate].
    destruct (IH s H) as [post ->]. exists post. reflexivity.
Qed.

(** An occurrence of a non-empty [needle] at position [p] splits the
    string around it. *)
Lemma occurrence_split (needle : string) :
  needle <> "" ->
  forall (p : nat) (s : string),
    substring p (length needle) s = needle ->
    exists post,
      s = substring 0 p s ++ needle ++ post /\
      length (substring 0 p s) = p.
Proof.
  intros Hne. induction p as [| p IH]; intros s H.
  - apply prefix_correct in H. destruct (prefix_split _ _ H) as [post ->].
    exists post. destruct (needle ++ post); split; reflexivity.
  - destruct s as [| c s].
    + rewrite substring_empty in H. congruence.
    + rewrite substring_skip in H. destruct (IH s H) as (post & Hs & Hlen).
      exists post. cbn [substring append length]. split.
      * f_equal. exact Hs.
      * f_equal. exact Hlen.
Qed.

Lemma empty_spec (s : string) : ResPath.empty s = true <-> s = "".
Proof. destruct s; cbn; split; congruence. Qed.

Lemma append_not_empty (a b : string) : b <> "" -> a ++ b <> "".
Proof. destruct a; cbn; [tauto | discriminate]. Qed.

(** The first successful call fills the cache with the base path cut at
    its last "bin", followed by "res" and the separator; without any "bin"
    the whole base path is kept. *)
Theorem getResourcePath_base
    (PATH_SEP : ascii) (basePath subDir : string) :
  let r := ResPath.getResourcePath PATH_SEP (Some basePath) subDir "" in
  exists pre : string,
    ResPath.cache r = pre ++ "res" ++ String PATH_SEP "" /\
    ResPath.value r =
      (if ResPath.empty subDir then ResPath.cache r
       else ResPath.cache r ++ subDir ++ String PATH_SEP "") /\
    ((exists post,
        basePath = pre ++ "bin" ++ post /\
        forall q, (length pre < q)%nat -> substring q 3 basePath <> "bin") \/
     (pre = basePath /\ forall q, substring q 3 basePath <> "bin")).
Proof.
  cbn zeta. unfold ResPath.getResourcePath. cbn [ResPath.empty].
  pose proof (rfind_spec "bin" ltac:(discriminate) basePath) as Hspec.
  destruct (ResPath.rfind basePath "bin") as [p |]; cbn [ResPath.substr0].
  - destruct Hspec as [Hocc Hlast].
    destruct (occurrence_split "bin" ltac:(discriminate) p basePath Hocc)
      as (post & Hs & Hlen).
    exists (substring 0 p basePath). cbn [ResPath.finish ResPath.cache ResPath.value].
    split; [reflexivity |]. split; [reflexivity |].
    left. exists post. split; [exact Hs |].
    rewrite Hlen. exact Hlast.
  - exists basePath. cbn [ResPath.finish ResPath.cache ResPath.value].
    split; [reflexivity |]. split; [reflexivity |].
    right. split; [reflexivity | exact Hspec].
Qed.

Lemma getResourcePath_cached (PATH_SEP : ascii)
    (basePath : option string) (subDir baseRes : string) :
  baseRes <> "" ->
  ResPath.getResourcePath PATH_SEP basePath subDir baseRes =
  ResPath.finish PATH_SEP baseRes subDir [].
Proof.
  intros H. unfold ResPath.getResourcePath.
  destruct baseRes; [contradiction | reflexivity].
Qed.

Lemma getResourcePath_success_cache (PATH_SEP : ascii) (bp subDir : string) :
  ResPath.cache (ResPath.getResourcePath PATH_SEP (Some bp) subDir "") <> "".
Proof.
  cbn. apply append_not_empty. discriminate.
Qed.

Lemma run_cached (PATH_SEP : ascii) (baseRes : string) :
  baseRes <> "" ->
  forall requests,
    Forall (fun r => ResPath.calls r = [] /\ ResPath.cache r = baseRes)
           (ResPathRun.run PATH_SEP requests baseRes).
Proof.
  intros Hne. induction requests as [| [bp sub] rest IH]; [constructor |].
  cbn [ResPathRun.run]. rewrite getResourcePath_cached by exact Hne.
  constructor; [split; reflexivity | exact IH].
Qed.

Lemma run_failing (PATH_SEP : ascii) :
  forall failed,
    forallb ResPathRun.failing failed = true ->
    forall rest,
      ResPathRun.run PATH_SEP (failed ++ rest)%list "" =
      (ResPathRun.run PATH_SEP failed "" ++ ResPathRun.run PATH_SEP rest "")%list /\
      Forall (fun r => ResPath.value r = "" /\ ResPath.cache r = "")
             (ResPathRun.run PATH_SEP failed "").
Proof.
  induction failed as [| [bp sub] failed IH]; intros Hf rest.
  - split; [reflexivity | constructor].
  - cbn in Hf. apply andb_prop in Hf. destruct Hf as [Hbp Hf].
    unfold ResPathRun.failing in Hbp. cbn in Hbp.
    destruct bp as [bp |]; [discriminate |].
    destruct (IH Hf rest) as [E F].
    cbn [app ResPathRun.run ResPath.getResourcePath ResPath.empty ResPath.cache].
    rewrite E. split; [reflexivity |].
    constructor; [split; reflexivity | exact F].
Qed.

(** Over a run of calls: while [SDL_GetBasePath] fails every call returns
    the empty string and caches nothing; the first call for which it
    succeeds fixes the base, and every later call keeps that base and makes
    no library call, whatever [SDL_GetBasePath] would return then. *)
Theorem getResourcePath_memoized
    (PATH_SEP : ascii)
    (failed later : list (option string * string))
    (basePath subDir : string) :
  forallb ResPathRun.failing failed = true ->
  let first := ResPath.getResourcePath PATH_SEP (Some basePath) subDir "" in
  ResPathRun.run PATH_SEP (failed ++ (Some basePath, subDir) :: later)%list "" =
    (ResPathRun.run PATH_SEP failed "" ++ first ::
     ResPathRun.run PATH_SEP later (ResPath.cache first))%list /\
  Forall (fun r => ResPath.value r = "" /\ ResPath.cache r = "")
         (ResPathRun.run PATH_SEP failed "") /\
  Forall (fun r => ResPath.calls r = [] /\
                   ResPath.cache r = ResPath.cache first)
         (ResPathRun.run PATH_SEP later (ResPath.cache first)) /\
  Forall2 (fun request r =>
             ResPath.value r =
               if ResPath.empty (snd request) then ResPath.cache first
               else ResPath.cache first ++ snd request ++ String PATH_SEP "")
          later (ResPathRun.run PATH_SEP later (ResPath.cache first)).
Proof.
  intros Hf first.
  destruct (run_failing PATH_SEP failed Hf ((Some basePath, subDir) :: later))
    as [E F].
  split; [exact E |]. split; [exact F |].
  assert (Hne : ResPath.cache first <> "")
    by apply getResourcePath_success_cache.
  split; [apply run_cached; exact Hne |].
  clear E F Hf. induction later as [| [bp sub] later IH]; [constructor |].
  cbn [ResPathRun.run]. rewrite getResourcePath_cached by exact Hne.
  constructor; [reflexivity | exact IH].
Qed.

Lemma getResourcePath_memoized_witness :
  ResPathRun.run "/" [(None, "Lesson5"); (Some "/opt/game/bin/", "Lesson5");
                      (None, "Lesson3")] "" =
  [ResPath.mkResult "" ""
     [SDL.SDL_GetBasePath;
      SDL.Output SDL.cerr
        [SDL.Str "Error getting resource path: "; SDL.SDL_GetError; SDL.endl]];
   ResPath.mkResult "/opt/game/res/Lesson5/" "/opt/game/res/"
     [SDL.SDL_GetBasePath; SDL.SDL_free];
   ResPath.mkResult "/opt/game/res/Lesson3/" "/opt/game/res/" []].
Proof.
  apply (getResourcePath_memoized "/" [(None, "Lesson5")] [(None, "Lesson3")]
           "/opt/game/bin/" "Lesson5").
  reflexivity.
Defined.

End ResPathFacts.

(** ** Resources along the runs of the programs *)

Lemma audit_app (s : Audit.Live) (a b : list SDL.Call) :
  Audit.audit s (a ++ b) =
  match Audit.audit s a with
  | Some s' => Audit.audit s' b
  | None => None
  end.
Proof.
  revert s. induction a as [| c a IH]; intros s; [reflexivity |].
  cbn [app Audit.audit]. destruct (Audit.step s c); [apply IH | reflexivity].
Qed.

(** Drawing needs SDL and changes nothing. *)
Lemma audit_render (s : Audit.Live) (l : list RenderCall) :
  Audit.sdl s = true ->
  Audit.audit s (map SDL.Render l) = Some s.
Proof.
  intros Hs. induction l as [| c l IH]; [reflexivity |].
  cbn [map Audit.audit]. unfold Audit.step.
  cbn [Audit.needs_sdl Audit.needs_ttf Audit.uses forallb Audit.creates
       Audit.releases].
  rewrite Hs. cbn. exact IH.
Qed.

(** Asking for the resource directory touches no resource. *)
Lemma audit_getResourcePath (s : Audit.Live) (PATH_SEP : ascii)
    (basePath : option String.string) (subDir baseRes : String.string) :
  Audit.audit s
    (ResPath.calls (ResPath.getResourcePath PATH_SEP basePath subDir baseRes)) =
  Some s.
Proof.
  unfold ResPath.getResourcePath.
  destruct (ResPath.empty baseRes); [| reflexivity].
  destruct basePath; reflexivity.
Qed.

Ltac audit_steps :=
  unfold Cleanup.cleanup_SDL_Window, Cleanup.cleanup_SDL_Renderer,
    Cleanup.cleanup_SDL_Texture, Cleanup.cleanup_SDL_Surface,
    Cleanup.nullptr;
  repeat first
    [ rewrite audit_app
    | rewrite audit_getResourcePath
    | rewrite audit_render by reflexivity
    | rewrite Z.eqb_refl
    | progress unfold Cleanup.cleanup_SDL_Window, Cleanup.cleanup_SDL_Renderer,
        Cleanup.cleanup_SDL_Texture, Cleanup.cleanup_SDL_Surface,
        Cleanup.nullptr
    | match goal with
      | H : (_ =? _) = _ |- _ => rewrite H
      | H : Audit.holds _ _ = _ |- _ => rewrite H
      end
    | progress cbn -[Z.eqb ResPath.getResourcePath] ].

(** ** More on cleanup.h *)

(** One call of [cleanup] with all the handles makes the calls of two
    successive calls of [cleanup] with the first and the last of them. *)
Theorem cleanup_in_parts
    (t a : Cleanup.Handle) (args1 args2 : list Cleanup.Handle)
    (calls : list Cleanup.SDLCall) :
  Cleanup.cleanup (args1 ++ a :: args2) t calls =
  Cleanup.cleanup args2 a (Cleanup.cleanup args1 t calls).
Proof.
  revert t calls. induction args1 as [| b args1 IH]; intros t calls.
  - reflexivity.
  - cbn [app Cleanup.cleanup]. apply IH.
Qed.

Lemma filter_permutation {A : Type} (f : A -> bool) (l l' : list A) :
  Permutation l l' -> Permutation (filter f l) (filter f l').
Proof.
  induction 1 as [| a l l' _ IH | a b l | l l' l'' _ IH1 _ IH2].
  - constructor.
  - cbn. destruct (f a); [constructor |]; exact IH.
  - cbn. destruct (f a), (f b); try apply Permutation_refl. constructor.
  - eapply Permutation_trans; eassumption.
Qed.

(** The order in which handles are passed to [cleanup] changes the order
    of the release calls only: the same handles are released, each as
    often. *)
Theorem cleanup_order_irrelevant
    (t t' : Cleanup.Handle) (args args' : list Cleanup.Handle) :
  Permutation (t :: args) (t' :: args') ->
  Permutation (Cleanup.cleanup args t []) (Cleanup.cleanup args' t' []).
Proof.
  intros H. rewrite !cleanup_calls. cbn [app].
  apply Permutation_map. apply filter_permutation. exact H.
Qed.

Lemma cleanup_order_irrelevant_witness :
  Permutation
    (Cleanup.cleanup [Cleanup.Renderer 2; Cleanup.Window 3] (Cleanup.Texture 0) [])
    (Cleanup.cleanup [Cleanup.Texture 0; Cleanup.Renderer 2] (Cleanup.Window 3) []).
Proof.
  apply (cleanup_order_irrelevant (Cleanup.Texture 0) (Cleanup.Window 3)
           [Cleanup.Renderer 2; Cleanup.Window 3]
           [Cleanup.Texture 0; Cleanup.Renderer 2]).
  apply Permutation_sym.
  apply (Permutation_cons_app [Cleanup.Texture 0; Cleanup.Renderer 2] []
           (Cleanup.Window 3)).
  rewrite app_nil_r. apply Permutation_refl.
Defined.

(** ** More on the tile grids *)

Lemma divmod_distinct (n i j : Z) :
  0 < n -> i <> j -> i / n <> j / n \/ i mod n <> j mod n.
Proof.
  intros Hn Hne.
  destruct (Z.eq_dec (i / n) (j / n)) as [Eq | Nq]; [| left; exact Nq].
  right. intros Em. apply Hne.
  rewrite (Z.div_mod i n), (Z.div_mod j n) by lia. congruence.
Qed.

(** Two tiles of a grid of cells [cw] x [ch], placed at the multiples
    [(a, b)] and [(a', b')], do not overlap unless they are the same. *)
Lemma cells_disjoint (cw ch a b a' b' : Z) :
  0 < cw -> 0 < ch -> a <> a' \/ b <> b' ->
  a * cw + cw <= a' * cw \/ a' * cw + cw <= a * cw \/
  b * ch + ch <= b' * ch \/ b' * ch + ch <= b * ch.
Proof. intros Hw Hh [H | H]; nia. Qed.

(** No two clip rectangles of a sprite sheet overlap: for distinct indices
    the rectangles of the clips loop are side by side or one above the
    other. *)
Theorem source_tiles_disjoint
    (tileWidth tileHeight rowsPerColumn i j : Z) (r r' : SDL_Rect) :
  0 < tileWidth -> 0 < tileHeight -> 0 < rowsPerColumn ->
  0 <= i -> 0 <= j -> i <> j ->
  Lesson5.sourceTileRect tileWidth tileHeight i rowsPerColumn = Some r ->
  Lesson5.sourceTileRect tileWidth tileHeight j rowsPerColumn = Some r' ->
  x r + w r <= x r' \/ x r' + w r' <= x r \/
  y r + h r <= y r' \/ y r' + h r' <= y r.
Proof.
  intros Hw Hh Hr Hi Hj Hne H H'.
  apply sourceTileRect_Some in H; [| assumption ..]. destruct H as [-> _].
  apply sourceTileRect_Some in H'; [| assumption ..]. destruct H' as [-> _].
  cbn [x y w h]. apply cells_disjoint; try assumption.
  apply divmod_distinct; assumption.
Qed.

Lemma source_tiles_disjoint_witness :
  x (mkRect 0 100 100 100) + w (mkRect 0 100 100 100) <= x (mkRect 100 0 100 100) \/
  x (mkRect 100 0 100 100) + w (mkRect 100 0 100 100) <= x (mkRect 0 100 100 100) \/
  y (mkRect 0 100 100 100) + h (mkRect 0 100 100 100) <= y (mkRect 100 0 100 100) \/
  y (mkRect 100 0 100 100) + h (mkRect 100 0 100 100) <= y (mkRect 0 100 100 100).
Proof.
  apply (source_tiles_disjoint 100 100 2 1 2); try lia; reflexivity.
Defined.

(** A pixel determines the cell of a grid it lies in. *)
Lemma cell_of_pixel (c p q : Z) :
  0 < c -> q * c <= p < q * c + c -> q = p / c.
Proof.
  intros Hc Hq. apply (Z.div_unique p c q (p - q * c)); lia.
Qed.

(** Every pixel of the display lies in the destination of exactly one of
    the [totalScreenTiles] tiles of the screen loop of Lesson 5. *)
Theorem screen_pixel_covered
    (displayWidth displayHeight tileWidth tileHeight rows total px py : Z) :
  is_int displayWidth -> is_int displayHeight ->
  0 < tileWidth -> 0 < tileHeight ->
  Lesson5.yScreenTiles tileHeight displayHeight = Some rows ->
  Lesson5.totalScreenTiles tileWidth tileHeight displayWidth displayHeight =
    Some total ->
  0 <= px < displayWidth -> 0 <= py < displayHeight ->
  exists i ox oy : Z,
    0 <= i < total /\
    Lesson5.screenTileOrigin tileWidth tileHeight i rows = Some (ox, oy) /\
    (ox <= px < ox + tileWidth /\ oy <= py < oy + tileHeight) /\
    forall i' ox' oy' : Z,
      0 <= i' ->
      Lesson5.screenTileOrigin tileWidth tileHeight i' rows = Some (ox', oy') ->
      ox' <= px < ox' + tileWidth -> oy' <= py < oy' + tileHeight ->
      i' = i.
Proof.
  intros Hdw Hdh Htw Hth Hrows Htotal Hpx Hpy.
  destruct (screenTiles_ceil displayWidth tileWidth Hdw ltac:(lia) Htw) as [Ec Hc].
  destruct (screenTiles_ceil displayHeight tileHeight Hdh ltac:(lia) Hth) as [Er Hr].
  unfold Lesson5.yScreenTiles in Hrows. rewrite Er in Hrows.
  injection Hrows as Hrows.
  unfold Lesson5.totalScreenTiles, Lesson5.xScreenTiles, Lesson5.yScreenTiles
    in Htotal.
  rewrite Ec, Er in Htotal. cbn [bind] in Htotal. rewrite Hrows in Htotal, Hr.
  apply checked_Some in Htotal. destruct Htotal as [-> Hint].
  set (cols := displayWidth / tileWidth
               + (if displayWidth mod tileWidth =? 0 then 0 else 1)) in *.
  clearbody cols. clear Ec Er Hrows.
  assert (Hqx : 0 <= px / tileWidth) by (apply Z.div_pos; lia).
  assert (Hqy : 0 <= py / tileHeight) by (apply Z.div_pos; lia).
  pose proof (Z.mul_div_le px tileWidth Htw) as Hxl.
  pose proof (Z.mul_div_le py tileHeight Hth) as Hyl.
  pose proof (Z.mod_pos_bound px tileWidth Htw) as Hxm.
  pose proof (Z.mod_pos_bound py tileHeight Hth) as Hym.
  pose proof (Z.div_mod px tileWidth ltac:(lia)) as Hxd.
  pose proof (Z.div_mod py tileHeight ltac:(lia)) as Hyd.
  assert (Hcx : px / tileWidth < cols) by nia.
  assert (Hcy : py / tileHeight < rows) by nia.
  assert (Hrpos : 0 < rows) by lia.
  set (i := px / tileWidth * rows + py / tileHeight).
  assert (Hi : 0 <= i < cols * rows) by (unfold i; nia).
  assert (Hdiv : i / rows = px / tileWidth).
  { symmetry. apply (Z.div_unique i rows (px / tileWidth) (py / tileHeight));
      unfold i; lia. }
  assert (Hmod : i mod rows = py / tileHeight).
  { symmetry. apply (Z.mod_unique i rows (px / tileWidth) (py / tileHeight));
      unfold i; lia. }
  exists i, (px / tileWidth * tileWidth), (py / tileHeight * tileHeight).
  split; [exact Hi |]. split; [| split].
  - rewrite <- Hdiv, <- Hmod. apply screenTileOrigin_eval; try lia.
    + unfold is_int, INT_MIN, INT_MAX in *. lia.
    + unfold Lesson5.rect_fits. rewrite Hdiv, Hmod.
      unfold is_int, INT_MIN, INT_MAX in *. lia.
  - lia.
  - intros i' ox' oy' Hi' Ho Hx Hy.
    apply screenTileOrigin_Some in Ho; [| lia ..]. injection Ho as -> ->.
    apply cell_of_pixel in Hx; [| lia]. apply cell_of_pixel in Hy; [| lia].
    rewrite (Z.div_mod i' rows), (Z.div_mod i rows) by lia.
    rewrite Hdiv, Hmod, Hx, Hy. reflexivity.
Qed.

Lemma screen_pixel_covered_witness :
  exists i ox oy : Z,
    0 <= i < 35 /\
    Lesson5.screenTileOrigin 100 100 i 5 = Some (ox, oy) /\
    (ox <= 639 < ox + 100 /\ oy <= 479 < oy + 100) /\
    forall i' ox' oy' : Z,
      0 <= i' ->
      Lesson5.screenTileOrigin 100 100 i' 5 = Some (ox', oy') ->
      ox' <= 639 < ox' + 100 -> oy' <= 479 < oy' + 100 ->
      i' = i.
Proof.
  apply (screen_pixel_covered 640 480 100 100 5 35 639 479); concrete.
Defined.

(** ** More on the loop of Lesson 5 *)

(** The copies of the screen loop: the selected clip, at the place of the
    loop index, in the size of the clip. *)
Lemma screen_loop_calls (rows : Z) (c : SDL_Rect) :
  0 < rows ->
  forall (n : nat) (i : Z) (st st' : Lesson5.State),
    0 <= i ->
    Lesson5.clip_at (Lesson5.clips st) (Lesson5.useClip st) = Some c ->
    Lesson5.screen_loop n i rows st = Some st' ->
    Lesson5.screen st' =
      Lesson5.screen st ++
      map (fun k =>
             SDL_RenderCopy (Some c)
               (mkRect ((i + Z.of_nat k) / rows * Lesson5.tileW)
                       ((i + Z.of_nat k) mod rows * Lesson5.tileH)
                       (w c) (h c)))
          (seq 0 n).
Proof.
  intros Hr. induction n as [| n IH]; intros i st st' Hi Hc H.
  - cbn in H. injection H as <-. cbn. rewrite app_nil_r. reflexivity.
  - cbn [Lesson5.screen_loop] in H.
    apply bind_Some in H. destruct H as (o & Ho & H).
    apply bind_Some in H. destruct H as (c' & Hc' & H).
    apply bind_Some in H. destruct H as (i' & Hi' & H).
    apply checked_inv in Hi'. subst i'.
    rewrite Hc in Hc'. injection Hc' as <-.
    apply (screenTileOrigin_Some _ _ _ _ _ Ho Hi) in Hr as Eo. subst o.
    apply IH in H; [| lia | exact Hc].
    rewrite H. unfold Lesson5.renderTexture, Lesson5.renderTexture_dst.
    cbn [Lesson5.set_screen Lesson5.screen fst snd].
    rewrite <- app_assoc. f_equal. cbn [app seq map]. rewrite Z.add_0_r.
    f_equal. rewrite <- seq_shift, map_map. apply map_ext. intros k.
    replace (i + 1 + Z.of_nat k) with (i + Z.of_nat (S k)) by lia. reflexivity.
Qed.

Lemma screen_loop_needs_clip (n : nat) (i rows : Z) (st : Lesson5.State)
    (o : Z * Z) :
  Lesson5.screenTileOrigin Lesson5.tileW Lesson5.tileH i rows = Some o ->
  Lesson5.clip_at (Lesson5.clips st) (Lesson5.useClip st) = None ->
  Lesson5.screen_loop (S n) i rows st = None.
Proof.
  intros Ho Hc. cbn [Lesson5.screen_loop]. rewrite Ho. cbn [bind].
  rewrite Hc. reflexivity.
Qed.

(** Without the selected clip no frame is drawn. *)
Lemma render_frame_needs_clip (st : Lesson5.State) :
  Lesson5.clip_at (Lesson5.clips st) (Lesson5.useClip st) = None ->
  Lesson5.render_frame st = None.
Proof.
  intros Hc. unfold Lesson5.render_frame.
  change (Lesson5.yScreenTiles Lesson5.tileH Lesson5.SCREEN_HEIGHT) with (Some 5).
  change (Lesson5.totalScreenTiles Lesson5.tileW Lesson5.tileH
            Lesson5.SCREEN_WIDTH Lesson5.SCREEN_HEIGHT) with (Some 35).
  cbn [bind]. change (Z.to_nat 35) with (S 34).
  rewrite (screen_loop_needs_clip 34 0 5 _ (0, 0)); [reflexivity | reflexivity |].
  exact Hc.
Qed.

(** One frame of Lesson 5 is a clear, 35 copies of the selected clip, each
    in the size of the clip and at its place in the grid of 5 rows, and a
    present; no frame is drawn unless the selected clip exists. *)
Theorem render_frame_calls (st st' : Lesson5.State) :
  Lesson5.render_frame st = Some st' ->
  exists c : SDL_Rect,
    Lesson5.clip_at (Lesson5.clips st) (Lesson5.useClip st) = Some c /\
    Lesson5.screen st' =
      Lesson5.screen st ++
      SDL_RenderClear ::
      map (fun o => SDL_RenderCopy (Some c) (mkRect (fst o) (snd o) (w c) (h c)))
          Lesson5.frame_origins ++
      [SDL_RenderPresent].
Proof.
  intros H.
  destruct (Lesson5.clip_at (Lesson5.clips st) (Lesson5.useClip st))
    as [c |] eqn:Hc.
  2: { rewrite (render_frame_needs_clip st Hc) in H. discriminate. }
  exists c. split; [reflexivity |].
  unfold Lesson5.render_frame in H.
  change (Lesson5.yScreenTiles Lesson5.tileH Lesson5.SCREEN_HEIGHT)
    with (Some 5) in H.
  change (Lesson5.totalScreenTiles Lesson5.tileW Lesson5.tileH
            Lesson5.SCREEN_WIDTH Lesson5.SCREEN_HEIGHT) with (Some 35) in H.
  cbn [bind] in H.
  apply bind_Some in H. destruct H as (st1 & H1 & H). injection H as <-.
  apply (screen_loop_calls 5 c ltac:(lia)) in H1; [| lia | exact Hc].
  cbn [Lesson5.set_screen Lesson5.screen] in H1 |- *.
  rewrite H1, <- !app_assoc. f_equal.
Qed.

Lemma render_frame_calls_witness :
  exists c : SDL_Rect,
    Lesson5.clip_at [mkRect 0 0 100 100] 0 = Some c /\
    Lesson5.screen
      (match Lesson5.render_frame (Lesson5.mkState 100 100 [mkRect 0 0 100 100]
                                     0 false [])
       with Some s => s | None => Lesson5.mkState 0 0 [] 0 false [] end) =
      [] ++
      SDL_RenderClear ::
      map (fun o => SDL_RenderCopy (Some c) (mkRect (fst o) (snd o) (w c) (h c)))
          Lesson5.frame_origins ++
      [SDL_RenderPresent].
Proof.
  apply (render_frame_calls
           (Lesson5.mkState 100 100 [mkRect 0 0 100 100] 0 false [])).
  vm_compute. reflexivity.
Defined.

(** In a state of the event loop a frame is undefined, reading outside the
    clips array, exactly when [useClip] is not below the number of tiles of
    the source image; so it is for every image of fewer than 4 tiles once
    the key of a missing tile is pressed. *)
Theorem render_frame_undefined_iff (iw ih total : Z) (st : Lesson5.State) :
  Lesson5.reachable iw ih st ->
  Lesson5.totalSourceTiles Lesson5.tileW Lesson5.tileH iw ih = Some total ->
  (Lesson5.render_frame st = None <-> total <= Lesson5.useClip st).
Proof.
  intros Hreach Htot.
  destruct (reachable_inv iw ih st Hreach) as (Hu & Hcl & _ & _).
  apply build_clips_length in Hcl. rewrite Hcl in Htot. injection Htot as <-.
  assert (H0 : 0 <= Lesson5.useClip st).
  { cbn in Hu. destruct Hu as [<- | [<- | [<- | [<- | []]]]]; lia. }
  assert (Hat : Lesson5.clip_at (Lesson5.clips st) (Lesson5.useClip st) =
                nth_error (Lesson5.clips st) (Z.to_nat (Lesson5.useClip st))).
  { unfold Lesson5.clip_at. destruct (Z.ltb_spec (Lesson5.useClip st) 0); [lia |].
    reflexivity. }
  split.
  - intros Hnone.
    destruct (Lesson5.clip_at (Lesson5.clips st) (Lesson5.useClip st))
      as [c |] eqn:Hc.
    + destruct (render_frame_total st c Hc) as [st' Hst']. congruence.
    + symmetry in Hat. apply nth_error_None in Hat. lia.
  - intros Hle. apply render_frame_needs_clip. rewrite Hat.
    apply nth_error_None. lia.
Qed.

Lemma render_frame_undefined_iff_witness :
  Lesson5.render_frame
    (Lesson5.handle_event (Lesson5.mkEvent 768 50)
       (Lesson5.mkState 150 120 [mkRect 0 0 100 100] 0 false [])) = None.
Proof.
  apply (render_frame_undefined_iff 150 120 1
           (Lesson5.handle_event (Lesson5.mkEvent 768 50)
              (Lesson5.mkState 150 120 [mkRect 0 0 100 100] 0 false []))).
  - apply Lesson5.reach_event. apply Lesson5.reach_init. vm_compute. reflexivity.
  - vm_compute. reflexivity.
  - vm_compute. intro H. discriminate H.
Defined.

Ltac event_cases e :=
  destruct e as [ty sy];
  unfold Lesson5.handle_event, Lesson5Keys.quits, Lesson5Keys.selects,
    Lesson5.SDL_QUIT, Lesson5.SDL_KEYDOWN, Lesson5.SDLK_ESCAPE,
    Lesson5.SDLK_1, Lesson5.SDLK_2, Lesson5.SDLK_3, Lesson5.SDLK_4,
    Lesson5.SDLK_KP_1, Lesson5.SDLK_KP_2, Lesson5.SDLK_KP_3, Lesson5.SDLK_KP_4;
  cbn [Lesson5.type Lesson5.sym];
  repeat match goal with
         | |- context [?a =? ?b] => destruct (Z.eqb_spec a b); try lia
         end;
  cbn.

Lemma handle_event_quit (e : Lesson5.SDL_Event) (st : Lesson5.State) :
  Lesson5.quit (Lesson5.handle_event e st) =
  Lesson5.quit st || Lesson5Keys.quits e.
Proof.
  event_cases e; rewrite ?orb_true_r, ?orb_false_r; reflexivity.
Qed.

Lemma handle_event_useClip (e : Lesson5.SDL_Event) (st : Lesson5.State) :
  Lesson5.useClip (Lesson5.handle_event e st) =
  match Lesson5Keys.selects e with
  | Some v => v
  | None => Lesson5.useClip st
  end.
Proof. event_cases e; reflexivity. Qed.

Lemma poll_events_quit (pending : list Lesson5.SDL_Event) :
  forall st,
    Lesson5.quit (Lesson5.poll_events pending st) =
    Lesson5.quit st || existsb Lesson5Keys.quits pending.
Proof.
  induction pending as [| e l IH]; intros st.
  - cbn. rewrite orb_false_r. reflexivity.
  - cbn [Lesson5.poll_events fold_left existsb].
    change (fold_left (fun s e0 => Lesson5.handle_event e0 s) l
              (Lesson5.handle_event e st))
      with (Lesson5.poll_events l (Lesson5.handle_event e st)).
    rewrite IH, handle_event_quit, orb_assoc. reflexivity.
Qed.

Lemma poll_events_screen (pending : list Lesson5.SDL_Event) :
  forall st,
    Lesson5.screen (Lesson5.poll_events pending st) = Lesson5.screen st.
Proof.
  induction pending as [| e l IH]; intros st; [reflexivity |].
  cbn [Lesson5.poll_events fold_left].
  change (fold_left (fun s e0 => Lesson5.handle_event e0 s) l
            (Lesson5.handle_event e st))
    with (Lesson5.poll_events l (Lesson5.handle_event e st)).
  rewrite IH. apply handle_event_cases.
Qed.

Lemma screen_loop_length (rows : Z) (n : nat) :
  forall (i : Z) (st st' : Lesson5.State),
    Lesson5.screen_loop n i rows st = Some st' ->
    length (Lesson5.screen st') = (length (Lesson5.screen st) + n)%nat.
Proof.
  induction n as [| n IH]; intros i st st' H.
  - cbn in H. injection H as <-. lia.
  - cbn [Lesson5.screen_loop] in H.
    apply bind_Some in H. destruct H as (o & _ & H).
    apply bind_Some in H. destruct H as (c & _ & H).
    apply bind_Some in H. destruct H as (i' & _ & H).
    apply IH in H. rewrite H.
    unfold Lesson5.renderTexture, Lesson5.renderTexture_dst.
    cbn [Lesson5.set_screen Lesson5.screen]. rewrite length_app. cbn. lia.
Qed.

Lemma render_frame_length (st st' : Lesson5.State) :
  Lesson5.render_frame st = Some st' ->
  length (Lesson5.screen st') = (length (Lesson5.screen st) + 37)%nat /\
  Lesson5.quit st' = Lesson5.quit st.
Proof.
  intros H. split; [| apply render_frame_spec in H; tauto].
  unfold Lesson5.render_frame in H.
  change (Lesson5.yScreenTiles Lesson5.tileH Lesson5.SCREEN_HEIGHT)
    with (Some 5) in H.
  change (Lesson5.totalScreenTiles Lesson5.tileW Lesson5.tileH
            Lesson5.SCREEN_WIDTH Lesson5.SCREEN_HEIGHT) with (Some 35) in H.
  cbn [bind] in H.
  apply bind_Some in H. destruct H as (st1 & H1 & H). injection H as <-.
  apply screen_loop_length in H1.
  cbn [Lesson5.set_screen Lesson5.screen] in H1 |- *.
  rewrite length_app, H1, length_app. cbn [length]. lia.
Qed.

(** The loop of Lesson 5 draws one frame per turn up to and including the
    first turn in which the window is closed or escape is pressed, and
    then stops: the turns after it are never polled. *)
Theorem main_loop_stops_at_quit
    (before after : list (list Lesson5.SDL_Event))
    (last : list Lesson5.SDL_Event) (st st' : Lesson5.State) :
  Lesson5.quit st = false ->
  forallb (fun turn => negb (existsb Lesson5Keys.quits turn)) before = true ->
  existsb Lesson5Keys.quits last = true ->
  Lesson5.main_loop (before ++ last :: after) st = Some st' ->
  Lesson5.quit st' = true /\
  Lesson5.main_loop (before ++ [last]) st = Some st' /\
  length (Lesson5.screen st') =
    (length (Lesson5.screen st) + 37 * (length before + 1))%nat.
Proof.
  revert st. induction before as [| turn before IH]; intros st Hq Hb Hl H.
  - cbn [app Lesson5.main_loop] in H |- *. rewrite Hq in H |- *.
    apply bind_Some in H. destruct H as (st1 & Hf & H).
    destruct (render_frame_length _ _ Hf) as [Hlen Hquit].
    rewrite poll_events_quit, Hq, Hl in Hquit. cbn in Hquit.
    rewrite poll_events_screen in Hlen.
    rewrite Hf. cbn [bind Lesson5.main_loop].
    destruct after as [| t after]; cbn [Lesson5.main_loop] in H;
      [| rewrite Hquit in H]; injection H as <-.
    + split; [exact Hquit |]. split; [reflexivity | cbn [length]; lia].
    + split; [exact Hquit |]. split; [reflexivity | cbn [length]; lia].
  - cbn [forallb] in Hb. apply andb_prop in Hb. destruct Hb as [Ht Hb].
    apply negb_true_iff in Ht.
    cbn [app Lesson5.main_loop] in H |- *. rewrite Hq in H |- *.
    apply bind_Some in H. destruct H as (st1 & Hf & H).
    destruct (render_frame_length _ _ Hf) as [Hlen Hquit].
    rewrite poll_events_quit, Hq, Ht in Hquit. cbn in Hquit.
    rewrite poll_events_screen in Hlen.
    rewrite Hf. cbn [bind].
    destruct (IH st1 Hquit Hb Hl H) as (A & B & C).
    split; [exact A |]. split; [exact B |]. cbn [length]. lia.
Qed.

Lemma main_loop_stops_at_quit_witness :
  exists st',
    Lesson5.main_loop
      ([[Lesson5.mkEvent 768 51]] ++ [Lesson5.mkEvent 256 0] ::
       [[Lesson5.mkEvent 768 49]])
      (Lesson5.mkState 100 100 [mkRect 0 0 100 100; mkRect 0 0 100 100;
                                mkRect 0 0 100 100] 0 false []) = Some st' /\
    Lesson5.quit st' = true /\
    Lesson5.useClip st' = 2.
Proof.
  eexists. split; [vm_compute; reflexivity |]. split; [| reflexivity].
  apply (main_loop_stops_at_quit [[Lesson5.mkEvent 768 51]]
           [[Lesson5.mkEvent 768 49]] [Lesson5.mkEvent 256 0]
           (Lesson5.mkState 100 100 [mkRect 0 0 100 100; mkRect 0 0 100 100;
                                     mkRect 0 0 100 100] 0 false []));
    vm_compute; reflexivity.
Defined.

(** With a source image of at least 4 tiles the loop of Lesson 5 never
    runs into undefined behaviour, whatever events arrive. *)
Theorem main_loop_defined (iw ih total : Z)
    (turns : list (list Lesson5.SDL_Event)) (st : Lesson5.State) :
  Lesson5.reachable iw ih st ->
  Lesson5.totalSourceTiles Lesson5.tileW Lesson5.tileH iw ih = Some total ->
  4 <= total ->
  exists st', Lesson5.main_loop turns st = Some st'.
Proof.
  intros Hreach Htot H4. revert st Hreach.
  induction turns as [| pending rest IH]; intros st Hreach.
  - eexists. reflexivity.
  - cbn [Lesson5.main_loop]. destruct (Lesson5.quit st); [eexists; reflexivity |].
    assert (Hp : Lesson5.reachable iw ih (Lesson5.poll_events pending st))
      by (apply poll_events_reachable; exact Hreach).
    destruct (reachable_inv iw ih _ Hp) as (Hu & Hcl & _ & _).
    apply build_clips_length in Hcl. rewrite Hcl in Htot.
    injection Htot as Htot.
    destruct (clip_at_in_bounds
                (Lesson5.clips (Lesson5.poll_events pending st)) _ Hu)
      as [c Hc]; [lia |].
    destruct (render_frame_total _ c Hc) as [st1 Hf].
    rewrite Hf. cbn [bind]. apply IH.
    apply (Lesson5.reach_frame iw ih _ st1 Hp Hf).
Qed.

Lemma main_loop_defined_witness :
  exists st',
    Lesson5.main_loop [[Lesson5.mkEvent 768 52]; [Lesson5.mkEvent 1024 0]]
      (Lesson5.mkState 400 200
         (map (fun k => Lesson5.clip_of 100 100 2 (Z.of_nat k)) (seq 0 8))
         0 false []) = Some st'.
Proof.
  apply (main_loop_defined 400 200 8).
  - apply Lesson5.reach_init. vm_compute. reflexivity.
  - vm_compute. reflexivity.
  - lia.
Defined.

(** Within one turn the last digit key decides the clip: whatever was
    pressed before it, and whatever other events follow it. *)
Theorem last_digit_key_selects
    (before after : list Lesson5.SDL_Event) (e : Lesson5.SDL_Event)
    (v : Z) (st : Lesson5.State) :
  Lesson5Keys.selects e = Some v ->
  forallb (fun e' => negb (Lesson5Keys.selectsb e')) after = true ->
  Lesson5.useClip (Lesson5.poll_events (before ++ e :: after) st) = v.
Proof.
  intros He Ha. unfold Lesson5.poll_events. rewrite fold_left_app.
  cbn [fold_left].
  set (s := fold_left (fun s0 e0 => Lesson5.handle_event e0 s0) before st).
  assert (Hs : Lesson5.useClip (Lesson5.handle_event e s) = v)
    by (rewrite handle_event_useClip, He; reflexivity).
  revert Hs. generalize (Lesson5.handle_event e s). clear s.
  induction after as [| a after IH]; intros s Hs; [exact Hs |].
  cbn [forallb] in Ha. apply andb_prop in Ha. destruct Ha as [Ha1 Ha2].
  cbn [fold_left]. apply IH; [exact Ha2 |].
  rewrite handle_event_useClip. unfold Lesson5Keys.selectsb in Ha1.
  destruct (Lesson5Keys.selects a); [discriminate | exact Hs].
Qed.

Lemma last_digit_key_selects_witness :
  Lesson5.useClip
    (Lesson5.poll_events
       ([Lesson5.mkEvent 768 52] ++ Lesson5.mkEvent 768 1073741914 ::
        [Lesson5.mkEvent 256 0])
       (Lesson5.mkState 400 200 [] 0 false [])) = 1.
Proof.
  apply (last_digit_key_selects [Lesson5.mkEvent 768 52]
           [Lesson5.mkEvent 256 0] (Lesson5.mkEvent 768 1073741914) 1);
    reflexivity.
Defined.

(** With at least 4 tiles the loop reaches the first quitting turn and
    ends there. *)
Lemma main_loop_reaches_quit (iw ih total : Z)
    (before after : list (list Lesson5.SDL_Event))
    (last : list Lesson5.SDL_Event) :
  Lesson5.totalSourceTiles Lesson5.tileW Lesson5.tileH iw ih = Some total ->
  4 <= total ->
  forallb (fun turn => negb (existsb Lesson5Keys.quits turn)) before = true ->
  existsb Lesson5Keys.quits last = true ->
  forall st,
    Lesson5.reachable iw ih st -> Lesson5.quit st = false ->
    exists st',
      Lesson5.main_loop (before ++ last :: after) st = Some st' /\
      Lesson5.quit st' = true.
Proof.
  intros Htot H4 Hb Hl.
  assert (Frame : forall pending st,
            Lesson5.reachable iw ih st ->
            exists st1,
              Lesson5.render_frame (Lesson5.poll_events pending st) = Some st1 /\
              Lesson5.reachable iw ih st1 /\
              Lesson5.quit st1 =
                Lesson5.quit st || existsb Lesson5Keys.quits pending).
  { intros pending st Hreach.
    assert (Hp : Lesson5.reachable iw ih (Lesson5.poll_events pending st))
      by (apply poll_events_reachable; exact Hreach).
    destruct (reachable_inv iw ih _ Hp) as (Hu & Hcl & _ & _).
    apply build_clips_length in Hcl. rewrite Hcl in Htot.
    injection Htot as Htot.
    destruct (clip_at_in_bounds
                (Lesson5.clips (Lesson5.poll_events pending st)) _ Hu)
      as [c Hc]; [lia |].
    destruct (render_frame_total _ c Hc) as [st1 Hf].
    exists st1. split; [exact Hf |].
    split; [apply (Lesson5.reach_frame iw ih _ st1 Hp Hf) |].
    apply render_frame_spec in Hf. destruct Hf as (_ & _ & _ & _ & Hq & _).
    rewrite Hq. apply poll_events_quit. }
  induction before as [| turn before IH]; intros st Hreach Hq.
  - cbn [app Lesson5.main_loop]. rewrite Hq.
    destruct (Frame last st Hreach) as (st1 & Hf & _ & Hq1).
    rewrite Hf. cbn [bind]. rewrite Hq, Hl in Hq1. cbn in Hq1.
    exists st1. split; [| exact Hq1].
    destruct after; cbn [Lesson5.main_loop]; [| rewrite Hq1]; reflexivity.
  - cbn [forallb] in Hb. apply andb_prop in Hb. destruct Hb as [Ht Hb'].
    apply negb_true_iff in Ht.
    cbn [app Lesson5.main_loop]. rewrite Hq.
    destruct (Frame turn st Hreach) as (st1 & Hf & Hr1 & Hq1).
    rewrite Hf. cbn [bind]. rewrite Hq, Ht in Hq1. cbn in Hq1.
    apply (IH Hb' st1 Hr1 Hq1).
Qed.

(** ** The background of Lesson 3 and the centred image *)

Lemma backgroundTileOrigin_Some (i columns : Z) (o : Z * Z) :
  Lesson3.backgroundTileOrigin i columns = Some o ->
  0 <= i -> 0 < columns ->
  o = (i mod columns * Lesson3.TILE_SIZE, i / columns * Lesson3.TILE_SIZE).
Proof.
  unfold Lesson3.backgroundTileOrigin. intros H Hi Hc.
  apply bind_Some in H. destruct H as (tx & Htx & H).
  apply bind_Some in H. destruct H as (ty & Hty & H).
  apply bind_Some in H. destruct H as (px & Hpx & H).
  apply bind_Some in H. destruct H as (py & Hpy & H).
  injection H as <-.
  apply rem_Some in Htx; [| assumption ..]. apply div_Some in Hty; [| assumption ..].
  apply checked_inv in Hpx. apply checked_inv in Hpy. subst. reflexivity.
Qed.

(** No two background tiles of Lesson 3 overlap, in a grid of any number
    of columns: tiles of distinct indices lie at least one tile apart
    horizontally or vertically. *)
Theorem background_tiles_disjoint (columns i j : Z) (o o' : Z * Z) :
  0 < columns -> 0 <= i -> 0 <= j -> i <> j ->
  Lesson3.backgroundTileOrigin i columns = Some o ->
  Lesson3.backgroundTileOrigin j columns = Some o' ->
  fst o + Lesson3.TILE_SIZE <= fst o' \/ fst o' + Lesson3.TILE_SIZE <= fst o \/
  snd o + Lesson3.TILE_SIZE <= snd o' \/ snd o' + Lesson3.TILE_SIZE <= snd o.
Proof.
  intros Hc Hi Hj Hne H H'.
  apply backgroundTileOrigin_Some in H; [| assumption ..]. subst o.
  apply backgroundTileOrigin_Some in H'; [| assumption ..]. subst o'.
  cbn [fst snd]. apply cells_disjoint; try (unfold Lesson3.TILE_SIZE; lia).
  destruct (divmod_distinct columns i j Hc Hne); tauto.
Qed.

Lemma background_tiles_disjoint_witness :
  fst (40, 0) + Lesson3.TILE_SIZE <= fst (0, 40) \/
  fst (0, 40) + Lesson3.TILE_SIZE <= fst (40, 0) \/
  snd (40, 0) + Lesson3.TILE_SIZE <= snd (0, 40) \/
  snd (0, 40) + Lesson3.TILE_SIZE <= snd (40, 0).
Proof.
  apply (background_tiles_disjoint 16 1 16); try lia; reflexivity.
Defined.

(** The copy that the background loop makes for tile [k]. *)
Lemma background_loop_calls (n : nat) :
  forall (i : Z) (log : list RenderCall),
    0 <= i -> i + Z.of_nat n <= 192 ->
    Lesson3.background_loop n i 16 log =
      Some (log ++
            map (fun k =>
                   SDL_RenderCopy None
                     (mkRect ((i + Z.of_nat k) mod 16 * 40)
                             ((i + Z.of_nat k) / 16 * 40) 40 40))
                (seq 0 n)).
Proof.
  induction n as [| n IH]; intros i log Hi Hn.
  - cbn. rewrite app_nil_r. reflexivity.
  - cbn [Lesson3.background_loop].
    assert (Hq : 0 <= i / 16 <= 12).
    { split; [apply Z.div_pos; lia | apply Z.div_le_upper_bound; lia]. }
    pose proof (Z.mod_pos_bound i 16 ltac:(lia)) as Hm.
    rewrite (backgroundTileOrigin_eval i 16).
    + cbn [bind]. unfold add.
      rewrite checked_int by (unfold is_int, INT_MIN, INT_MAX; lia).
      cbn [bind]. rewrite IH by lia.
      unfold Lesson3.renderTexture, Lesson3.TILE_SIZE. cbn [fst snd].
      rewrite <- app_assoc. cbn [app seq map]. rewrite Z.add_0_r.
      do 3 f_equal. rewrite <- seq_shift, map_map. apply map_ext. intros k.
      replace (i + 1 + Z.of_nat k) with (i + Z.of_nat (S k)) by lia. reflexivity.
    + unfold is_int, INT_MIN, INT_MAX. lia.
    + exact Hi.
    + lia.
    + unfold Lesson3.origin_fits, Lesson3.TILE_SIZE, is_int, INT_MIN, INT_MAX.
      lia.
Qed.

(** The background of Lesson 3 is 192 copies of the whole texture, 40 x 40
    each, and every pixel of the 640 x 480 screen lies in exactly one of
    them. *)
Theorem draw_background_covers (log : list RenderCall) (px py : Z) :
  0 <= px < Lesson3.SCREEN_WIDTH -> 0 <= py < Lesson3.SCREEN_HEIGHT ->
  exists tiles : list RenderCall,
    Lesson3.draw_background log = Some (log ++ tiles) /\
    length tiles = 192%nat /\
    exists (k : nat) (dst : SDL_Rect),
      nth_error tiles k = Some (SDL_RenderCopy None dst) /\
      w dst = 40 /\ h dst = 40 /\
      Pixel.inside dst px py /\
      forall (k' : nat) (clip : option SDL_Rect) (dst' : SDL_Rect),
        nth_error tiles k' = Some (SDL_RenderCopy clip dst') ->
        Pixel.inside dst' px py -> k' = k.
Proof.
  unfold Lesson3.SCREEN_WIDTH, Lesson3.SCREEN_HEIGHT. intros Hpx Hpy.
  eexists. split.
  - unfold Lesson3.draw_background.
    change Lesson3.xTiles with (Some 16). change Lesson3.yTiles with (Some 12).
    cbn [bind]. change (mul 16 12) with (Some 192). cbn [bind].
    apply background_loop_calls; lia.
  - split; [rewrite length_map, length_seq; reflexivity |].
    assert (Hqx : 0 <= px / 40 < 16).
    { split; [apply Z.div_pos; lia | apply Z.div_lt_upper_bound; lia]. }
    assert (Hqy : 0 <= py / 40 < 12).
    { split; [apply Z.div_pos; lia | apply Z.div_lt_upper_bound; lia]. }
    pose proof (Z.div_mod px 40 ltac:(lia)) as Hxd.
    pose proof (Z.div_mod py 40 ltac:(lia)) as Hyd.
    pose proof (Z.mod_pos_bound px 40 ltac:(lia)) as Hxm.
    pose proof (Z.mod_pos_bound py 40 ltac:(lia)) as Hym.
    set (i := py / 40 * 16 + px / 40).
    assert (Hi : 0 <= i < 192) by (unfold i; lia).
    assert (Hdiv : i / 16 = py / 40).
    { symmetry. apply (Z.div_unique i 16 (py / 40) (px / 40)); unfold i; lia. }
    assert (Hmod : i mod 16 = px / 40).
    { symmetry. apply (Z.mod_unique i 16 (py / 40) (px / 40)); unfold i; lia. }
    exists (Z.to_nat i), (mkRect (i mod 16 * 40) (i / 16 * 40) 40 40).
    split; [| split; [reflexivity | split; [reflexivity | split]]].
    + rewrite nth_error_map, nth_error_seq.
      destruct (Nat.ltb_spec (Z.to_nat i) (Z.to_nat 192)) as [_ | Hge]; [| lia].
      cbn [option_map]. rewrite Nat.add_0_l, Z.add_0_l, Z2Nat.id by lia.
      reflexivity.
    + unfold Pixel.inside. cbn [x y w h]. rewrite Hdiv, Hmod. lia.
    + intros k' clip dst' Hk Hin.
      rewrite nth_error_map, nth_error_seq in Hk.
      destruct (Nat.ltb_spec k' (Z.to_nat 192)) as [Hlt | _]; [| discriminate].
      cbn [option_map] in Hk. rewrite Nat.add_0_l, Z.add_0_l in Hk.
      injection Hk as _ <-. unfold Pixel.inside in Hin. cbn [x y w h] in Hin.
      destruct Hin as [Hx Hy].
      apply cell_of_pixel in Hx; [| lia]. apply cell_of_pixel in Hy; [| lia].
      assert (E : Z.of_nat k' = i).
      { rewrite (Z.div_mod (Z.of_nat k') 16), (Z.div_mod i 16) by lia.
        rewrite Hdiv, Hmod, Hx, Hy. reflexivity. }
      lia.
Qed.

Lemma draw_background_covers_witness :
  exists tiles : list RenderCall,
    Lesson3.draw_background [] = Some ([] ++ tiles) /\
    length tiles = 192%nat /\
    exists (k : nat) (dst : SDL_Rect),
      nth_error tiles k = Some (SDL_RenderCopy None dst) /\
      w dst = 40 /\ h dst = 40 /\
      Pixel.inside dst 639 479 /\
      forall (k' : nat) (clip : option SDL_Rect) (dst' : SDL_Rect),
        nth_error tiles k' = Some (SDL_RenderCopy clip dst') ->
        Pixel.inside dst' 639 479 -> k' = k.
Proof.
  apply (draw_background_covers [] 639 479);
    unfold Lesson3.SCREEN_WIDTH, Lesson3.SCREEN_HEIGHT; lia.
Defined.

(** An image of any size is drawn centred on the screen: the margin on the
    left exceeds the margin on the right by the remainder of the width by
    2, that is by at most one pixel, and so do the margins above and below;
    the position always exists. *)
Theorem foreground_centred (iW iH : Z) :
  is_int iW -> is_int iH -> 0 <= iW -> 0 <= iH ->
  exists px py : Z,
    Foreground.origin iW iH = Some (px, py) /\
    px - (Foreground.SCREEN_WIDTH - (px + iW)) = iW mod 2 /\
    py - (Foreground.SCREEN_HEIGHT - (py + iH)) = iH mod 2.
Proof.
  intros Hw Hh H0w H0h.
  unfold Foreground.origin, Foreground.centred, Foreground.sub,
    Foreground.SCREEN_WIDTH, Foreground.SCREEN_HEIGHT.
  change (div 640 2) with (Some 320). change (div 480 2) with (Some 240).
  cbn [bind].
  rewrite (div_floor iW 2), (div_floor iH 2) by (assumption || lia).
  cbn [bind].
  pose proof (Z.div_mod iW 2 ltac:(lia)) as Hdw.
  pose proof (Z.div_mod iH 2 ltac:(lia)) as Hdh.
  pose proof (Z.mod_pos_bound iW 2 ltac:(lia)) as Hmw.
  pose proof (Z.mod_pos_bound iH 2 ltac:(lia)) as Hmh.
  rewrite !checked_int by (unfold is_int, INT_MIN, INT_MAX in *; lia).
  cbn [bind]. eexists. eexists. split; [reflexivity |]. lia.
Qed.

Lemma foreground_centred_witness :
  exists px py : Z,
    Foreground.origin 101 700 = Some (px, py) /\
    px - (Foreground.SCREEN_WIDTH - (px + 101)) = 101 mod 2 /\
    py - (Foreground.SCREEN_HEIGHT - (py + 700)) = 700 mod 2.
Proof.
  apply (foreground_centred 101 700); concrete.
Defined.

(** ** The loops of Lessons 4 and 6 *)

Lemma lesson4_poll_events (pending : list Lesson5.SDL_Event) :
  forall q, Lesson4.poll_events pending q = q || existsb Lesson4.quits pending.
Proof.
  induction pending as [| e l IH]; intros q.
  - cbn. rewrite orb_false_r. reflexivity.
  - cbn [Lesson4.poll_events fold_left existsb].
    change (fold_left (fun q0 e0 => if Lesson4.quits e0 then true else q0) l
              (if Lesson4.quits e then true else q))
      with (Lesson4.poll_events l (if Lesson4.quits e then true else q)).
    rewrite IH. destruct (Lesson4.quits e), q; reflexivity.
Qed.

Lemma lesson6_poll_events (pending : list Lesson5.SDL_Event) :
  forall q, Lesson6.poll_events pending q = q || existsb Lesson6.quits pending.
Proof.
  induction pending as [| e l IH]; intros q.
  - cbn. rewrite orb_false_r. reflexivity.
  - cbn [Lesson6.poll_events fold_left existsb].
    change (fold_left (fun q0 e0 => if Lesson6.quits e0 then true else q0) l
              (if Lesson6.quits e then true else q))
      with (Lesson6.poll_events l (if Lesson6.quits e then true else q)).
    rewrite IH. destruct (Lesson6.quits e), q; reflexivity.
Qed.

(** The loop of Lesson 4 ends with the first turn that brings a key press,
    a mouse button press or the closing of the window, of whatever key or
    button: it has then drawn one frame for each turn up to and including
    that one, and the later turns are never polled. *)
Theorem lesson4_loop_stops
    (before after : list (list Lesson5.SDL_Event))
    (last : list Lesson5.SDL_Event) (copy : RenderCall)
    (screen : list RenderCall) :
  forallb (fun turn => negb (existsb Lesson4.quits turn)) before = true ->
  existsb Lesson4.quits last = true ->
  Lesson4.main_loop (before ++ last :: after) copy false screen =
    (true,
     screen ++
     concat (repeat [SDL_RenderClear; copy; SDL_RenderPresent]
               (length before + 1))).
Proof.
  revert screen. induction before as [| turn before IH]; intros screen Hb Hl.
  - cbn [app Lesson4.main_loop]. rewrite lesson4_poll_events, Hl.
    cbn [orb length Nat.add repeat concat]. rewrite app_nil_r.
    destruct after; reflexivity.
  - cbn [forallb] in Hb. apply andb_prop in Hb. destruct Hb as [Ht Hb].
    apply negb_true_iff in Ht.
    cbn [app Lesson4.main_loop]. rewrite lesson4_poll_events, Ht. cbn [orb].
    rewrite (IH _ Hb Hl). cbn [length Nat.add repeat concat].
    rewrite <- app_assoc. reflexivity.
Qed.

Lemma lesson4_loop_stops_witness :
  Lesson4.main_loop ([[Lesson5.mkEvent 1024 0]] ++ [Lesson5.mkEvent 768 97] ::
                     [[Lesson5.mkEvent 256 0]])
    SDL_RenderClear false [] =
  (true,
   [] ++ concat (repeat [SDL_RenderClear; SDL_RenderClear; SDL_RenderPresent]
                   (length [[Lesson5.mkEvent 1024 0]] + 1))).
Proof.
  apply (lesson4_loop_stops [[Lesson5.mkEvent 1024 0]] [[Lesson5.mkEvent 256 0]]
           [Lesson5.mkEvent 768 97]); reflexivity.
Defined.

(** The loop of Lesson 6 ends with the first turn in which the window is
    closed or escape is pressed, having drawn one frame for each turn up to
    and including that one; other keys do not end it. *)
Theorem lesson6_loop_stops
    (before after : list (list Lesson5.SDL_Event))
    (last : list Lesson5.SDL_Event) (copy : RenderCall)
    (screen : list RenderCall) :
  forallb (fun turn => negb (existsb Lesson6.quits turn)) before = true ->
  existsb Lesson6.quits last = true ->
  Lesson6.main_loop (before ++ last :: after) copy false screen =
    (true,
     screen ++
     concat (repeat [SDL_RenderClear; copy; SDL_RenderPresent]
               (length before + 1))).
Proof.
  revert screen. induction before as [| turn before IH]; intros screen Hb Hl.
  - cbn [app Lesson6.main_loop]. rewrite lesson6_poll_events, Hl.
    cbn [orb length Nat.add repeat concat]. rewrite app_nil_r.
    destruct after; reflexivity.
  - cbn [forallb] in Hb. apply andb_prop in Hb. destruct Hb as [Ht Hb].
    apply negb_true_iff in Ht.
    cbn [app Lesson6.main_loop]. rewrite lesson6_poll_events, Ht. cbn [orb].
    rewrite (IH _ Hb Hl). cbn [length Nat.add repeat concat].
    rewrite <- app_assoc. reflexivity.
Qed.

Lemma lesson6_loop_stops_witness :
  Lesson6.main_loop ([[Lesson5.mkEvent 768 97]] ++ [Lesson5.mkEvent 768 27] ::
                     [[Lesson5.mkEvent 256 0]])
    SDL_RenderClear false [] =
  (true,
   [] ++ concat (repeat [SDL_RenderClear; SDL_RenderClear; SDL_RenderPresent]
                   (length [[Lesson5.mkEvent 768 97]] + 1))).
Proof.
  apply (lesson6_loop_stops [[Lesson5.mkEvent 768 97]] [[Lesson5.mkEvent 256 0]]
           [Lesson5.mkEvent 768 27]); reflexivity.
Defined.

Section ProgramFacts.

Import String.

Lemma no_quit_render (l : list RenderCall) :
  ~ In SDL.SDL_Quit (map SDL.Render l).
Proof.
  intros H. apply in_map_iff in H. destruct H as (c & E & _). discriminate E.
Qed.

Lemma no_quit_release (l : list Cleanup.SDLCall) :
  ~ In SDL.SDL_Quit (map SDL.Release l).
Proof.
  intros H. apply in_map_iff in H. destruct H as (c & E & _). discriminate E.
Qed.

Lemma no_quit_getResourcePath (PATH_SEP : ascii)
    (basePath : option string) (subDir baseRes : string) :
  ~ In SDL.SDL_Quit
      (ResPath.calls (ResPath.getResourcePath PATH_SEP basePath subDir baseRes)).
Proof.
  unfold ResPath.getResourcePath.
  destruct (ResPath.empty baseRes); [| intros []].
  destruct basePath; cbn; intuition discriminate.
Qed.

Lemma peel_base (q : SDL.Call) : [q] = [] ++ [q].
Proof. reflexivity. Qed.

Lemma peel_cons (a q : SDL.Call) (l before : list SDL.Call) :
  l = before ++ [q] -> a :: l = (a :: before) ++ [q].
Proof. intros ->. reflexivity. Qed.

Lemma peel_app (q : SDL.Call) (x l before : list SDL.Call) :
  l = before ++ [q] -> x ++ l = (x ++ before) ++ [q].
Proof. intros ->. apply app_assoc. Qed.

(** The calls of a path, with the tests that the path has decided. *)
Ltac path_calls :=
  repeat first
    [ progress unfold Cleanup.cleanup_SDL_Window, Cleanup.cleanup_SDL_Renderer,
        Cleanup.cleanup_SDL_Texture, Cleanup.cleanup_SDL_Surface,
        Cleanup.nullptr, SDL.logSDLError
    | rewrite Z.eqb_refl
    | match goal with
      | H : (_ =? _) = _ |- _ => rewrite H
      end
    | rewrite <- app_assoc
    | progress cbn [Cleanup.cleanup Cleanup.cleanup1 map app] ].

(** [SDL_Quit] is the last call and there is no other. *)
Ltac quit_is_last :=
  path_calls; eexists; split;
  [ repeat first [apply peel_base | apply peel_cons | apply peel_app]
  | let Hin := fresh "Hin" in
    intro Hin;
    repeat first [rewrite in_app_iff in Hin | progress cbn [In] in Hin];
    repeat match goal with
           | H : _ \/ _ |- _ => destruct H
           end;
    first
      [ contradiction
      | discriminate
      | eapply no_quit_render; eassumption
      | eapply no_quit_release; eassumption
      | eapply no_quit_getResourcePath; eassumption ] ].

(** On every path of [main] of Lesson 5 that returns, SDL is shut down
    last, every handle that was created has been released exactly once
    before, and none is used or released outside its life: when [SDL_Init]
    succeeded, [SDL_Quit] is the last call of the program and is called
    once, and when it failed [SDL_Quit] is not called; the program returns
    0 exactly when every initialisation succeeded, and 1 otherwise. *)
Theorem lesson5_main_resources (PATH_SEP : ascii) (env : Lesson5Main.Env)
    (code : Z) (calls : list SDL.Call) :
  Lesson5Main.main PATH_SEP env = (Lesson5Main.Exited code, calls) ->
  Audit.audit Audit.start calls = Some Audit.start /\
  (Lesson5Main.SDL_Init_result env = 0 ->
   exists before : list SDL.Call,
     calls = before ++ [SDL.SDL_Quit] /\ ~ In SDL.SDL_Quit before) /\
  (Lesson5Main.SDL_Init_result env <> 0 -> ~ In SDL.SDL_Quit calls) /\
  (code = 0 \/ code = 1) /\
  (code = 0 <->
   Lesson5Main.SDL_Init_result env = 0 /\
   Lesson5Main.win env <> Cleanup.nullptr /\
   Lesson5Main.ren env <> Cleanup.nullptr /\
   Lesson5Main.image env <> Cleanup.nullptr).
Proof.
  destruct env as [rc win ren bp image tw th turns].
  unfold Lesson5Main.main, Lesson5Main.loadTexture, SDL.cleanup.
  cbn [Lesson5Main.SDL_Init_result Lesson5Main.win Lesson5Main.ren
       Lesson5Main.basePath Lesson5Main.image Lesson5Main.texW
       Lesson5Main.texH Lesson5Main.turns].
  unfold Cleanup.nullptr.
  destruct (rc =? 0) eqn:Erc; cbn [negb].
  2: { intros H. injection H as <- <-.
       apply Z.eqb_neq in Erc as Hrc.
       split; [cbn; rewrite Erc; reflexivity |].
       split; [intros H0; contradiction |].
       split; [intros _; unfold SDL.logSDLError; cbn; intuition discriminate |].
       split; [right; reflexivity | split; [discriminate | tauto]]. }
  apply Z.eqb_eq in Erc as Hrc. subst rc. clear Erc.
  destruct (win =? 0) eqn:Ewin.
  { intros H. injection H as <- <-. apply Z.eqb_eq in Ewin as Hwin.
    split; [audit_steps; reflexivity |].
    split; [intros _; quit_is_last |].
    split; [intros H0; contradiction |].
    split; [right; reflexivity | split; [discriminate | tauto]]. }
  destruct (ren =? 0) eqn:Eren.
  { intros H. injection H as <- <-. apply Z.eqb_eq in Eren as Hren.
    split; [audit_steps; reflexivity |].
    split; [intros _; quit_is_last |].
    split; [intros H0; contradiction |].
    split; [right; reflexivity | split; [discriminate | tauto]]. }
  destruct (image =? 0) eqn:Eimg.
  { intros H. injection H as <- <-. apply Z.eqb_eq in Eimg as Himg.
    split; [audit_steps; reflexivity |].
    split; [intros _; quit_is_last |].
    split; [intros H0; contradiction |].
    split; [right; reflexivity | split; [discriminate | tauto]]. }
  destruct (Lesson5.init tw th) as [st0 |]; [| discriminate].
  destruct (Lesson5.main_loop turns st0) as [st |]; [| discriminate].
  destruct (Lesson5.quit st); [| discriminate].
  intros H. injection H as <- <-.
  split; [audit_steps; reflexivity |].
  split; [intros _; quit_is_last |].
  split; [intros H0; contradiction |].
  apply Z.eqb_neq in Ewin, Eren, Eimg.
  split; [left; reflexivity | tauto].
Qed.

Lemma lesson5_main_resources_witness :
  exists calls,
    Lesson5Main.main "/"
      (Lesson5Main.mkEnv 0 11 12 (Some "/opt/game/bin/"%string) 13 400 200
         [[Lesson5.mkEvent 768 50]; [Lesson5.mkEvent 256 0]]) =
      (Lesson5Main.Exited 0, calls) /\
    Audit.audit Audit.start calls = Some Audit.start /\
    exists before : list SDL.Call,
      calls = before ++ [SDL.SDL_Quit] /\ ~ In SDL.SDL_Quit before.
Proof.
  eexists. split; [vm_compute; reflexivity |].
  match goal with
  | |- Audit.audit _ ?c = _ /\ _ =>
      destruct (lesson5_main_resources "/"
                  (Lesson5Main.mkEnv 0 11 12 (Some "/opt/game/bin/"%string) 13
                     400 200
                     [[Lesson5.mkEvent 768 50]; [Lesson5.mkEvent 256 0]]) 0 c)
        as (Ha & Hq & _); [vm_compute; reflexivity |]
  end.
  split; [exact Ha | apply Hq; reflexivity].
Defined.

Ltac null_cases :=
  unfold Cleanup.nullptr;
  repeat match goal with
         | |- context [?a =? 0] =>
             let E := fresh "E" in
             destruct (a =? 0) eqn:E;
             [apply Z.eqb_eq in E; try subst a | idtac];
             cbn [negb orb andb fst snd]
         end.

(** Lesson 1 written with [cleanup] makes the same calls and returns the
    same code as Lesson 1 written with the release functions of SDL, in
    every run. *)
Theorem lesson1_cleanup_agrees (PATH_SEP : ascii) (env : Lesson1.Env) :
  Lesson1.main_cleanup PATH_SEP env = Lesson1.main PATH_SEP env.
Proof.
  destruct env as [rc win ren bp bmp tex].
  unfold Lesson1.main_cleanup, Lesson1.main, SDL.cleanup.
  cbn [Lesson1.SDL_Init_result Lesson1.win Lesson1.ren Lesson1.basePath
       Lesson1.bmp Lesson1.tex].
  unfold Cleanup.nullptr.
  destruct (rc =? 0); cbn [negb]; [| reflexivity].
  destruct (win =? 0) eqn:Ewin; [reflexivity |].
  destruct (ren =? 0) eqn:Eren.
  { cbn [Cleanup.cleanup Cleanup.cleanup1].
    unfold Cleanup.cleanup_SDL_Window, Cleanup.nullptr. rewrite Ewin.
    reflexivity. }
  destruct (bmp =? 0) eqn:Ebmp.
  { cbn [Cleanup.cleanup Cleanup.cleanup1].
    unfold Cleanup.cleanup_SDL_Window, Cleanup.cleanup_SDL_Renderer,
      Cleanup.nullptr.
    rewrite Ewin, Eren. cbn [app map]. rewrite <- !app_assoc. reflexivity. }
  destruct (tex =? 0) eqn:Etex.
  - cbn [Cleanup.cleanup Cleanup.cleanup1].
    unfold Cleanup.cleanup_SDL_Window, Cleanup.cleanup_SDL_Renderer,
      Cleanup.cleanup_SDL_Surface, Cleanup.nullptr.
    rewrite Ewin, Eren, Ebmp. cbn [app map]. rewrite <- !app_assoc.
    reflexivity.
  - cbn [Cleanup.cleanup Cleanup.cleanup1].
    unfold Cleanup.cleanup_SDL_Window, Cleanup.cleanup_SDL_Renderer,
      Cleanup.cleanup_SDL_Surface, Cleanup.cleanup_SDL_Texture,
      Cleanup.nullptr.
    rewrite Ewin, Eren, Ebmp, Etex. cbn [app map]. rewrite <- !app_assoc.
    reflexivity.
Qed.

(** In every run of Lesson 1, SDL is shut down last when it was started,
    every handle that was created has been released exactly once before,
    the bitmap surface as soon as the texture is made from it, and no
    handle is used after its release; the program returns 0 exactly when
    every step succeeded. *)
Theorem lesson1_resources (PATH_SEP : ascii) (env : Lesson1.Env) :
  Audit.audit Audit.start (snd (Lesson1.main PATH_SEP env)) = Some Audit.start /\
  (fst (Lesson1.main PATH_SEP env) = 0 <->
   Lesson1.SDL_Init_result env = 0 /\
   Lesson1.win env <> Cleanup.nullptr /\
   Lesson1.ren env <> Cleanup.nullptr /\
   Lesson1.bmp env <> Cleanup.nullptr /\
   Lesson1.tex env <> Cleanup.nullptr).
Proof.
  destruct env as [rc win ren bp bmp tex].
  unfold Lesson1.main.
  cbn [Lesson1.SDL_Init_result Lesson1.win Lesson1.ren Lesson1.basePath
       Lesson1.bmp Lesson1.tex].
  unfold Cleanup.nullptr.
  destruct (rc =? 0) eqn:Erc; cbn [negb].
  2: { split; [cbn; rewrite Erc; reflexivity |].
       cbn [fst]. apply Z.eqb_neq in Erc. split; [discriminate | tauto]. }
  apply Z.eqb_eq in Erc. subst rc.
  destruct (win =? 0) eqn:Ewin.
  { apply Z.eqb_eq in Ewin. subst win. cbn [fst snd].
    split; [reflexivity | split; [discriminate | tauto]]. }
  destruct (ren =? 0) eqn:Eren.
  { apply Z.eqb_eq in Eren. subst ren. cbn [fst snd].
    split; [audit_steps; reflexivity | split; [discriminate | tauto]]. }
  destruct (bmp =? 0) eqn:Ebmp.
  { apply Z.eqb_eq in Ebmp. subst bmp. cbn [fst snd].
    split; [audit_steps; reflexivity | split; [discriminate | tauto]]. }
  destruct (tex =? 0) eqn:Etex.
  { apply Z.eqb_eq in Etex. subst tex. cbn [fst snd].
    split; [audit_steps; reflexivity | split; [discriminate | tauto]]. }
  cbn [fst snd]. split; [audit_steps; reflexivity |].
  apply Z.eqb_neq in Ewin, Eren, Ebmp, Etex. tauto.
Qed.

(** In every run of Lesson 3 that returns, given that two textures alive
    at once have different addresses: SDL is shut down last when it was
    started, each texture that was loaded, the renderer and the window have
    been released exactly once before, also when only one of the two
    textures could be loaded; the program returns 0 exactly when every
    step succeeded. *)
Theorem lesson3_main_resources (PATH_SEP : ascii) (env : Lesson3Main.Env)
    (code : Z) (calls : list SDL.Call) :
  Lesson3Main.background env = Cleanup.nullptr \/
  Lesson3Main.background env <> Lesson3Main.image env ->
  Lesson3Main.main PATH_SEP env = (Lesson3Main.Exited code, calls) ->
  Audit.audit Audit.start calls = Some Audit.start /\
  (code = 0 <->
   Lesson3Main.SDL_Init_result env = 0 /\
   Lesson3Main.win env <> Cleanup.nullptr /\
   Lesson3Main.ren env <> Cleanup.nullptr /\
   Lesson3Main.background env <> Cleanup.nullptr /\
   Lesson3Main.image env <> Cleanup.nullptr).
Proof.
  destruct env as [rc win ren bp bg image iW iH].
  unfold Lesson3Main.main, Lesson3Main.loadTexture, SDL.cleanup.
  cbn [Lesson3Main.SDL_Init_result Lesson3Main.win Lesson3Main.ren
       Lesson3Main.basePath Lesson3Main.background Lesson3Main.image
       Lesson3Main.iW Lesson3Main.iH].
  unfold Cleanup.nullptr. intros Hdist.
  destruct (rc =? 0) eqn:Erc; cbn [negb].
  2: { intros H. injection H as <- <-.
       split; [cbn; rewrite Erc; reflexivity |].
       apply Z.eqb_neq in Erc. split; [discriminate | tauto]. }
  apply Z.eqb_eq in Erc. subst rc.
  destruct (win =? 0) eqn:Ewin.
  { intros H. injection H as <- <-. apply Z.eqb_eq in Ewin. subst win.
    split; [reflexivity | split; [discriminate | tauto]]. }
  destruct (ren =? 0) eqn:Eren.
  { intros H. injection H as <- <-. apply Z.eqb_eq in Eren. subst ren.
    split; [audit_steps; reflexivity | split; [discriminate | tauto]]. }
  destruct (bg =? 0) eqn:Ebg; destruct (image =? 0) eqn:Eimg; cbn [orb].
  - intros H. injection H as <- <-.
    apply Z.eqb_eq in Ebg, Eimg. subst bg image.
    split; [audit_steps; reflexivity | split; [discriminate | tauto]].
  - intros H. injection H as <- <-. apply Z.eqb_eq in Ebg. subst bg.
    split; [audit_steps; reflexivity | split; [discriminate | tauto]].
  - intros H. injection H as <- <-. apply Z.eqb_eq in Eimg. subst image.
    split; [audit_steps; reflexivity | split; [discriminate | tauto]].
  - destruct (Lesson3.draw_background []) as [tiles |]; [| discriminate].
    destruct (Foreground.origin iW iH) as [o |]; [| discriminate].
    intros H. injection H as <- <-.
    assert (Hne : bg <> image).
    { destruct Hdist as [-> | Hd]; [discriminate Ebg | exact Hd]. }
    assert (D1 : (bg =? image) = false) by (apply Z.eqb_neq; exact Hne).
    assert (D2 : (image =? bg) = false) by (apply Z.eqb_neq; congruence).
    split; [audit_steps; reflexivity |].
    apply Z.eqb_neq in Ewin, Eren, Ebg, Eimg. tauto.
Qed.

Lemma lesson3_main_resources_witness :
  exists calls,
    Lesson3Main.main "/" (Lesson3Main.mkEnv 0 11 12 None 0 14 64 64) =
      (Lesson3Main.Exited 1, calls) /\
    Audit.audit Audit.start calls = Some Audit.start.
Proof.
  eexists. split; [vm_compute; reflexivity |].
  apply (lesson3_main_resources "/" (Lesson3Main.mkEnv 0 11 12 None 0 14 64 64) 1).
  - left. reflexivity.
  - vm_compute. reflexivity.
Defined.

Ltac to_props :=
  repeat match goal with
         | H : (_ =? _) = true |- _ => apply Z.eqb_eq in H
         | H : (_ =? _) = false |- _ => apply Z.eqb_neq in H
         end.

(** [loadTexture] of Lesson 2 leaves nothing behind but the texture it
    returns: the bitmap surface it loads is freed on every path, also when
    the texture cannot be made; it returns [nullptr] exactly when the
    bitmap or the texture could not be created. *)
Theorem lesson2_loadTexture_resources
    (file : string) (ren surf texture : Cleanup.ptr) (s : Audit.Live) :
  Audit.sdl s = true ->
  Audit.holds (Audit.Held (Cleanup.Renderer ren)) (Audit.live s) = true ->
  Audit.holds (Audit.Held (Cleanup.Surface surf)) (Audit.live s) = false ->
  Audit.holds (Audit.Held (Cleanup.Texture texture)) (Audit.live s) = false ->
  Audit.audit s (snd (Lesson2.loadTexture file ren surf texture)) =
    Some (if fst (Lesson2.loadTexture file ren surf texture) =? Cleanup.nullptr
          then s
          else Audit.mkLive (Audit.sdl s) (Audit.ttf s)
                 (Audit.Held
                    (Cleanup.Texture
                       (fst (Lesson2.loadTexture file ren surf texture)))
                  :: Audit.live s)) /\
  (fst (Lesson2.loadTexture file ren surf texture) = Cleanup.nullptr <->
   surf = Cleanup.nullptr \/ texture = Cleanup.nullptr).
Proof.
  destruct s as [sdl ttf live]. cbn [Audit.sdl Audit.ttf Audit.live].
  intros -> Hren Hsurf Htex. unfold Lesson2.loadTexture, Cleanup.nullptr.
  destruct (surf =? 0) eqn:Es; cbn [negb fst snd].
  - split; [audit_steps; reflexivity |]. to_props. tauto.
  - destruct (texture =? 0) eqn:Et.
    + split; [audit_steps; reflexivity |]. to_props. tauto.
    + split; [audit_steps; reflexivity |]. to_props. tauto.
Qed.

Lemma lesson2_loadTexture_resources_witness :
  Audit.audit
    (Audit.mkLive true false
       [Audit.Held (Cleanup.Renderer 12); Audit.Held (Cleanup.Window 11)])
    (snd (Lesson2.loadTexture "image.bmp" 12 21 0)) =
  Some (Audit.mkLive true false
          [Audit.Held (Cleanup.Renderer 12); Audit.Held (Cleanup.Window 11)]).
Proof.
  apply (lesson2_loadTexture_resources "image.bmp" 12 21 0
           (Audit.mkLive true false
              [Audit.Held (Cleanup.Renderer 12); Audit.Held (Cleanup.Window 11)]));
    reflexivity.
Defined.

(** [renderText] of Lesson 6 leaves nothing behind but the texture it
    returns: the font is closed on every path on which it was opened and
    the text surface is freed on every path on which it was rendered; it
    returns [nullptr] exactly when the font, the surface or the texture
    could not be created. *)
Theorem lesson6_renderText_resources
    (message fontFile : string) (fontSize : Z)
    (renderer font surf texture : Cleanup.ptr) (s : Audit.Live) :
  Audit.sdl s = true -> Audit.ttf s = true ->
  Audit.holds (Audit.Held (Cleanup.Renderer renderer)) (Audit.live s) = true ->
  Audit.holds (Audit.Font font) (Audit.live s) = false ->
  Audit.holds (Audit.Held (Cleanup.Surface surf)) (Audit.live s) = false ->
  Audit.holds (Audit.Held (Cleanup.Texture texture)) (Audit.live s) = false ->
  let r := Lesson6.renderText message fontFile fontSize renderer font surf texture in
  Audit.audit s (snd r) =
    Some (if fst r =? Cleanup.nullptr then s
          else Audit.mkLive (Audit.sdl s) (Audit.ttf s)
                 (Audit.Held (Cleanup.Texture (fst r)) :: Audit.live s)) /\
  (fst r = Cleanup.nullptr <->
   font = Cleanup.nullptr \/ surf = Cleanup.nullptr \/ texture = Cleanup.nullptr).
Proof.
  destruct s as [sdl ttf live]. cbn [Audit.sdl Audit.ttf Audit.live].
  intros -> -> Hren Hfont Hsurf Htex. cbn zeta.
  unfold Lesson6.renderText, Cleanup.nullptr.
  destruct (font =? 0) eqn:Ef; cbn [fst snd].
  - split; [audit_steps; reflexivity |]. to_props. tauto.
  - destruct (surf =? 0) eqn:Es; cbn [fst snd].
    + split; [audit_steps; reflexivity |]. to_props. tauto.
    + destruct (texture =? 0) eqn:Et.
      * split; [audit_steps; reflexivity |]. to_props. tauto.
      * split; [audit_steps; reflexivity |]. to_props. tauto.
Qed.

Lemma lesson6_renderText_resources_witness :
  Audit.audit
    (Audit.mkLive true true
       [Audit.Held (Cleanup.Renderer 12); Audit.Held (Cleanup.Window 11)])
    (snd (Lesson6.renderText "TTF fonts are neat!" "OpenSans-Regular.ttf" 64
            12 31 0 33)) =
  Some (Audit.mkLive true true
          [Audit.Held (Cleanup.Renderer 12); Audit.Held (Cleanup.Window 11)]).
Proof.
  apply (lesson6_renderText_resources "TTF fonts are neat!"
           "OpenSans-Regular.ttf" 64 12 31 0 33
           (Audit.mkLive true true
              [Audit.Held (Cleanup.Renderer 12); Audit.Held (Cleanup.Window 11)]));
    reflexivity.
Defined.

Ltac split_nulls :=
  repeat match goal with
         | |- context [?a =? 0] =>
             is_var a;
             let E := fresh "E" in
             destruct (a =? 0) eqn:E;
             cbn [negb orb andb fst snd]
         end.

Ltac leaf :=
  let H := fresh "H" in
  intros H;
  first
    [ discriminate H
    | injection H as <- <-;
      split;
      [ audit_steps; reflexivity
      | to_props; first [tauto | split; [discriminate | tauto]] ] ].

(** In every run of Lesson 2 that returns, given that two textures alive
    at once have different addresses: SDL is shut down last when it was
    started, both bitmap surfaces have been freed, and each texture that
    was made, the renderer and the window have been released exactly once;
    the program returns 0 exactly when every step succeeded. *)
Theorem lesson2_main_resources (PATH_SEP : ascii) (env : Lesson2.Env)
    (code : Z) (calls : list SDL.Call) :
  Lesson2.backgroundSurf env = Cleanup.nullptr \/
  Lesson2.backgroundTex env = Cleanup.nullptr \/
  Lesson2.backgroundTex env <> Lesson2.imageTex env ->
  Lesson2.main PATH_SEP env = (Lesson2.Exited code, calls) ->
  Audit.audit Audit.start calls = Some Audit.start /\
  (code = 0 <->
   Lesson2.SDL_Init_result env = 0 /\
   Lesson2.win env <> Cleanup.nullptr /\
   Lesson2.ren env <> Cleanup.nullptr /\
   Lesson2.backgroundSurf env <> Cleanup.nullptr /\
   Lesson2.backgroundTex env <> Cleanup.nullptr /\
   Lesson2.imageSurf env <> Cleanup.nullptr /\
   Lesson2.imageTex env <> Cleanup.nullptr).
Proof.
  destruct env as [rc win ren bp bs bt ims imt bW bH iW iH].
  unfold Lesson2.main, Lesson2.loadTexture, SDL.cleanup.
  cbn [Lesson2.SDL_Init_result Lesson2.win Lesson2.ren Lesson2.basePath
       Lesson2.backgroundSurf Lesson2.backgroundTex Lesson2.imageSurf
       Lesson2.imageTex Lesson2.bW Lesson2.bH Lesson2.iW Lesson2.iH].
  unfold Cleanup.nullptr. intros Hdist.
  assert (D : (bs =? 0) = false -> (bt =? 0) = false ->
              (bt =? imt) = false /\ (imt =? bt) = false).
  { intros A B. apply Z.eqb_neq in A, B.
    destruct Hdist as [Hd | [Hd | Hd]]; try contradiction.
    split; apply Z.eqb_neq; congruence. }
  clear Hdist.
  destruct (rc =? 0) eqn:Erc; cbn [negb]; [| leaf].
  destruct (win =? 0) eqn:Ewin; [leaf |].
  destruct (ren =? 0) eqn:Eren; [leaf |].
  destruct (bs =? 0) eqn:Ebs; destruct (ims =? 0) eqn:Eims;
    cbn [negb fst snd orb Z.eqb]; try leaf.
  - destruct (imt =? 0) eqn:Eimt; cbn [orb]; leaf.
  - destruct (bt =? 0) eqn:Ebt; cbn [orb]; leaf.
  - destruct (bt =? 0) eqn:Ebt; destruct (imt =? 0) eqn:Eimt; cbn [orb];
      try leaf.
    destruct (D eq_refl eq_refl) as [D1 D2].
    destruct (Foreground.origin iW iH) as [o |]; leaf.
Qed.

Lemma lesson2_main_resources_witness :
  exists calls,
    Lesson2.main "/" (Lesson2.mkEnv 0 11 12 (Some "/opt/bin/"%string) 21 22 23 24
                        320 240 64 64) =
      (Lesson2.Exited 0, calls) /\
    Audit.audit Audit.start calls = Some Audit.start.
Proof.
  eexists. split; [vm_compute; reflexivity |].
  apply (lesson2_main_resources "/"
           (Lesson2.mkEnv 0 11 12 (Some "/opt/bin/"%string) 21 22 23 24 320 240 64 64) 0).
  - right. right. cbn. lia.
  - vm_compute. reflexivity.
Defined.

(** In every run of Lesson 4 that returns, SDL is shut down last when it
    was started and the texture, the renderer and the window that were
    created have been released exactly once before; the program returns 0
    exactly when every initialisation succeeded. *)
Theorem lesson4_main_resources (PATH_SEP : ascii) (env : Lesson4.Env)
    (code : Z) (calls : list SDL.Call) :
  Lesson4.main PATH_SEP env = (Lesson4.Exited code, calls) ->
  Audit.audit Audit.start calls = Some Audit.start /\
  (code = 0 <->
   Lesson4.SDL_Init_result env = 0 /\
   Lesson4.win env <> Cleanup.nullptr /\
   Lesson4.ren env <> Cleanup.nullptr /\
   Lesson4.image env <> Cleanup.nullptr).
Proof.
  destruct env as [rc win ren bp image iW iH turns].
  unfold Lesson4.main, Lesson4.loadTexture, SDL.cleanup.
  cbn [Lesson4.SDL_Init_result Lesson4.win Lesson4.ren Lesson4.basePath
       Lesson4.image Lesson4.iW Lesson4.iH Lesson4.turns].
  unfold Cleanup.nullptr.
  destruct (rc =? 0) eqn:Erc; cbn [negb]; [| leaf].
  destruct (win =? 0) eqn:Ewin; [leaf |].
  destruct (ren =? 0) eqn:Eren; [leaf |].
  destruct (image =? 0) eqn:Eimg; [leaf |].
  destruct (Foreground.origin iW iH) as [o |]; [| leaf].
  cbn zeta.
  destruct (Lesson4.main_loop turns
              (Foreground.renderTexture iW iH (fst o) (snd o)) false
              [Foreground.renderTexture iW iH (fst o) (snd o)])
    as [quit screen].
  cbn [fst snd]. destruct quit; leaf.
Qed.

Lemma lesson4_main_resources_witness :
  exists calls,
    Lesson4.main "/" (Lesson4.mkEnv 0 11 12 (Some "/opt/bin/"%string) 13 64 64
                        [[]; [Lesson5.mkEvent 1025 0]]) =
      (Lesson4.Exited 0, calls) /\
    Audit.audit Audit.start calls = Some Audit.start.
Proof.
  eexists. split; [vm_compute; reflexivity |].
  apply (lesson4_main_resources "/"
           (Lesson4.mkEnv 0 11 12 (Some "/opt/bin/"%string) 13 64 64
              [[]; [Lesson5.mkEvent 1025 0]]) 0).
  vm_compute. reflexivity.
Defined.

(** In every run of Lesson 6 that returns, SDL is shut down last when it
    was started and every font, surface, texture, the renderer and the
    window that were created have been released exactly once before.
    SDL_ttf is shut down as well, except on two paths: when the window or
    the renderer cannot be created, [TTF_Quit] is not called. *)
Theorem lesson6_main_resources (PATH_SEP : ascii) (env : Lesson6.Env)
    (code : Z) (calls : list SDL.Call) :
  Lesson6.main PATH_SEP env = (Lesson6.Exited code, calls) ->
  exists ttf_left : bool,
    Audit.audit Audit.start calls = Some (Audit.mkLive false ttf_left []) /\
    (ttf_left = true <->
     Lesson6.SDL_Init_result env = 0 /\ Lesson6.TTF_Init_result env = 0 /\
     (Lesson6.win env = Cleanup.nullptr \/ Lesson6.ren env = Cleanup.nullptr)) /\
    (code = 0 <->
     Lesson6.SDL_Init_result env = 0 /\ Lesson6.TTF_Init_result env = 0 /\
     Lesson6.win env <> Cleanup.nullptr /\
     Lesson6.ren env <> Cleanup.nullptr /\
     Lesson6.font env <> Cleanup.nullptr /\
     Lesson6.surf env <> Cleanup.nullptr /\
     Lesson6.texture env <> Cleanup.nullptr).
Proof.
  destruct env as [rc trc win ren bp font surf texture iW iH turns].
  unfold Lesson6.main, Lesson6.renderText, SDL.cleanup.
  cbn [Lesson6.SDL_Init_result Lesson6.TTF_Init_result Lesson6.win
       Lesson6.ren Lesson6.basePath Lesson6.font Lesson6.surf
       Lesson6.texture Lesson6.iW Lesson6.iH Lesson6.turns].
  unfold Cleanup.nullptr.
  assert (Leaf : forall (left : bool) (c : Z) (cs : list SDL.Call) (P Q : Prop),
            Audit.audit Audit.start cs = Some (Audit.mkLive false left []) ->
            (left = true <-> P) -> (c = 0 <-> Q) ->
            (Lesson6.Exited c, cs) = (Lesson6.Exited code, calls) ->
            exists ttf_left : bool,
              Audit.audit Audit.start calls =
                Some (Audit.mkLive false ttf_left []) /\
              (ttf_left = true <-> P) /\ (code = 0 <-> Q)).
  { intros left c cs P Q Ha Hl Hc H. injection H as <- <-.
    exists left. tauto. }
  destruct (rc =? 0) eqn:Erc; cbn [negb].
  2: { apply (Leaf false); [audit_steps; reflexivity | |]; to_props;
         split; try discriminate; tauto. }
  destruct (trc =? 0) eqn:Etrc; cbn [negb].
  2: { apply (Leaf false); [audit_steps; reflexivity | |]; to_props;
         split; try discriminate; tauto. }
  destruct (win =? 0) eqn:Ewin.
  { apply (Leaf true); [audit_steps; reflexivity | |]; to_props;
      split; try discriminate; tauto. }
  destruct (ren =? 0) eqn:Eren.
  { apply (Leaf true); [audit_steps; reflexivity | |]; to_props;
      split; try discriminate; tauto. }
  destruct (font =? 0) eqn:Efont; cbn [fst snd Z.eqb].
  { apply (Leaf false); [audit_steps; reflexivity | |]; to_props;
      split; try discriminate; tauto. }
  destruct (surf =? 0) eqn:Esurf; cbn [fst snd Z.eqb].
  { apply (Leaf false); [audit_steps; reflexivity | |]; to_props;
      split; try discriminate; tauto. }
  destruct (texture =? 0) eqn:Etex.
  { apply (Leaf false); [audit_steps; reflexivity | |]; to_props;
      split; try discriminate; tauto. }
  destruct (Foreground.origin iW iH) as [o |]; [| discriminate].
  cbn zeta.
  destruct (Lesson6.main_loop turns
              (Foreground.renderTexture iW iH (fst o) (snd o)) false [])
    as [quit screen].
  cbn [fst snd]. destruct quit; [| discriminate].
  apply (Leaf false); [audit_steps; reflexivity | |]; to_props;
    split; try discriminate; tauto.
Qed.

Lemma lesson6_main_resources_witness :
  exists ttf_left : bool,
    Audit.audit Audit.start
      (snd (Lesson6.main "/" (Lesson6.mkEnv 0 0 11 0 None 31 32 33 300 80 []))) =
      Some (Audit.mkLive false ttf_left []) /\
    (ttf_left = true <->
     0 = 0 /\ 0 = 0 /\ (11 = Cleanup.nullptr \/ 0 = Cleanup.nullptr)) /\
    (1 = 0 <->
     0 = 0 /\ 0 = 0 /\ 11 <> Cleanup.nullptr /\ 0 <> Cleanup.nullptr /\
     31 <> Cleanup.nullptr /\ 32 <> Cleanup.nullptr /\ 33 <> Cleanup.nullptr).
Proof.
  apply (lesson6_main_resources "/"
           (Lesson6.mkEnv 0 0 11 0 None 31 32 33 300 80 []) 1).
  vm_compute. reflexivity.
Defined.

(** With every initialisation successful and a sprite sheet of at least 4
    tiles, Lesson 5 returns 0 once a turn brings a quit event: it neither
    stays in its loop nor runs into undefined behaviour, whatever keys are
    pressed before. *)
Theorem lesson5_main_exits (PATH_SEP : ascii) (env : Lesson5Main.Env)
    (total : Z) (before after : list (list Lesson5.SDL_Event))
    (last : list Lesson5.SDL_Event) :
  Lesson5Main.SDL_Init_result env = 0 ->
  Lesson5Main.win env <> Cleanup.nullptr ->
  Lesson5Main.ren env <> Cleanup.nullptr ->
  Lesson5Main.image env <> Cleanup.nullptr ->
  is_int (Lesson5Main.texW env) -> is_int (Lesson5Main.texH env) ->
  0 <= Lesson5Main.texW env -> 0 <= Lesson5Main.texH env ->
  Lesson5.totalSourceTiles Lesson5.tileW Lesson5.tileH
    (Lesson5Main.texW env) (Lesson5Main.texH env) = Some total ->
  4 <= total ->
  Lesson5Main.turns env = before ++ last :: after ->
  forallb (fun turn => negb (existsb Lesson5Keys.quits turn)) before = true ->
  existsb Lesson5Keys.quits last = true ->
  exists calls, Lesson5Main.main PATH_SEP env = (Lesson5Main.Exited 0, calls).
Proof.
  destruct env as [rc win ren bp image tw th turns].
  cbn [Lesson5Main.SDL_Init_result Lesson5Main.win Lesson5Main.ren
       Lesson5Main.basePath Lesson5Main.image Lesson5Main.texW
       Lesson5Main.texH Lesson5Main.turns].
  unfold Cleanup.nullptr.
  intros -> Hwin Hren Himg Htw Hth H0w H0h Htot H4 -> Hb Hl.
  assert (Hint : is_int (tw / Lesson5.tileW * (th / Lesson5.tileH)) /\
                 0 < tw / Lesson5.tileW * (th / Lesson5.tileH)).
  { pose proof Htot as Htot'.
    unfold Lesson5.totalSourceTiles, Lesson5.xTiles, Lesson5.yTiles in Htot'.
    rewrite (div_floor tw Lesson5.tileW), (div_floor th Lesson5.tileH) in Htot'
      by (assumption || (unfold Lesson5.tileW, Lesson5.tileH; lia)).
    cbn [bind] in Htot'. apply checked_Some in Htot'.
    destruct Htot' as [E Hi]. split; [exact Hi | lia]. }
  destruct Hint as [Hint Hpos].
  assert (Hinit : exists st0,
             Lesson5.init tw th = Some st0 /\ Lesson5.quit st0 = false).
  { unfold Lesson5.init.
    rewrite (build_clips_grid tw th Lesson5.tileW Lesson5.tileH)
      by (assumption || (unfold Lesson5.tileW, Lesson5.tileH; lia)).
    cbn [bind]. eexists. split; reflexivity. }
  destruct Hinit as (st0 & Hinit & Hq0).
  assert (Hreach : Lesson5.reachable tw th st0)
    by (apply Lesson5.reach_init; exact Hinit).
  destruct (main_loop_reaches_quit tw th total before after last
              Htot H4 Hb Hl st0 Hreach Hq0) as (st & Hst & Hquit).
  unfold Lesson5Main.main.
  cbn [Lesson5Main.SDL_Init_result Lesson5Main.win Lesson5Main.ren
       Lesson5Main.basePath Lesson5Main.image Lesson5Main.texW
       Lesson5Main.texH Lesson5Main.turns].
  unfold Cleanup.nullptr.
  apply Z.eqb_neq in Hwin, Hren, Himg.
  rewrite Hwin, Hren, Himg, Hinit, Hst, Hquit. cbn [Z.eqb negb].
  eexists. reflexivity.
Qed.

Lemma lesson5_main_exits_witness :
  exists calls,
    Lesson5Main.main "/"
      (Lesson5Main.mkEnv 0 11 12 None 13 400 200
         ([[Lesson5.mkEvent 768 52]] ++ [Lesson5.mkEvent 768 27] :: [[]])) =
    (Lesson5Main.Exited 0, calls).
Proof.
  apply (lesson5_main_exits "/"
           (Lesson5Main.mkEnv 0 11 12 None 13 400 200
              ([[Lesson5.mkEvent 768 52]] ++ [Lesson5.mkEvent 768 27] :: [[]]))
           8 [[Lesson5.mkEvent 768 52]] [[]] [Lesson5.mkEvent 768 27]);
    try reflexivity; try (cbn; unfold Cleanup.nullptr; lia); concrete.
Defined.

End ProgramFacts.
